(** * Response cache of the Claude / OpenAI automation scripts

    A shallow embedding of the caching layer of
    [anthropic-s2do-governance.py] (and of its near-clone
    [enhanced-openai-automation.py]): [CacheManager] (key derivation, the
    in-memory tier, the Firestore tier with its two lookup paths),
    [S2DOGovernance.record_transaction], the lookups of
    [PersistentMemoryManager] and the orchestration in
    [ClaudeAutomation.process_data_with_claude].

    Python objects are records, dictionaries are finite maps, exceptions are
    an explicit result type, and everything outside the process (clock,
    uuid source, Firestore, Pinecone, the embedding service, the Anthropic
    API) is a field of one [World] record that every operation threads
    through, together with a trace of the requests sent to those services.

    Clock readings, the time-to-live of the cache and the expiry times
    are binary64 numbers, added and compared as the interpreter does.

    What the model leaves out: log lines other than the audit trail; the
    text that [json.dumps] produces (structured requests carry it with
    them); the embedding service (the world answers with a vector or with
    none).  [hashlib.md5], [hashlib.sha256] and [str.encode] are modelled
    in full and checked against test vectors. *)

From Stdlib Require Import ZArith NArith Ascii String List Bool Lia.
From Stdlib.Strings Require Import Byte.
From Stdlib Require Import Floats.
From stdpp Require Import base option gmap strings list fin_maps.
Import ListNotations.

Set Warnings "-register-all,-inexact-float".
Local Open Scope Z_scope.

(** ** Python values that the cache handles *)

(** A Python [str] is a sequence of Unicode code points. *)
Definition pystr := list N.

(** The text of an ASCII literal as a Python [str]. *)
Definition py (s : string) : pystr :=
  map (fun c => N_of_ascii c) (list_ascii_of_string s).

(** JSON-like values: responses, document fields, vector metadata,
    settings.  [PyFloat] is a binary64 number. *)
Inductive pyval :=
| PyNone
| PyBool (b : bool)
| PyInt (z : Z)
| PyFloat (f : float)
| PyStr (s : pystr)
| PyList (items : list pyval)
| PyDict (items : list (string * pyval)).

(** A dictionary with literal field names, in insertion order. *)
Definition pydict := list (string * pyval).

(** [bool(v)] *)
Definition truthy (v : pyval) : bool :=
  match v with
  | PyNone => false
  | PyBool b => b
  | PyInt z => negb (z =? 0)
  | PyFloat f => negb (f =? 0)%float
  | PyStr s => match s with [] => false | _ => true end
  | PyList l => match l with [] => false | _ => true end
  | PyDict d => match d with [] => false | _ => true end
  end.

(** [d.get(k)] as an option; [k in d] is [is_Some]. *)
Fixpoint dict_get (k : string) (d : pydict) : option pyval :=
  match d with
  | [] => None
  | (k', v) :: rest => if String.eqb k k' then Some v else dict_get k rest
  end.

(** [d.update(extra)]: same keys are overwritten in place, new keys are
    appended. *)
Fixpoint dict_set (k : string) (v : pyval) (d : pydict) : pydict :=
  match d with
  | [] => [(k, v)]
  | (k', v') :: rest =>
      if String.eqb k k' then (k, v) :: rest else (k', v') :: dict_set k v rest
  end.

Definition dict_update (d extra : pydict) : pydict :=
  fold_left (fun acc kv => dict_set kv.1 kv.2 acc) extra d.

(** Exceptions that can travel through the cache code.  [BackendError]
    stands for whatever a remote SDK raises (the service and an error
    code). *)
Inductive service := Firestore | Pinecone | Embedding | Anthropic.

Inductive exn :=
| UnicodeEncodeError (start : nat) (ch : N)
| KeyError (key : pystr)
| TypeError (msg : string)
| IndexError (msg : string)
| AttributeError (msg : string)
| RuntimeError (msg : string)
| BackendError (svc : service) (code : N).

Inductive result (A : Type) :=
| Ok (a : A)
| Raise (e : exn).
Arguments Ok {A} a.
Arguments Raise {A} e.

(** ** Byte strings *)

Module Bytes.

(** The byte with value [n mod 256]. *)
Definition b8 (n : N) : byte :=
  match Byte.of_N (n mod 256)%N with
  | Some b => b
  | None => x00
  end.

Definition byteZ (b : byte) : Z := Z.of_N (Byte.to_N b).

(** The [n] low bytes of [x], least significant first. *)
Definition le_bytes (n : nat) (x : Z) : list byte :=
  map (fun k => b8 (Z.to_N (Z.shiftr x (8 * Z.of_nat k)))) (seq 0 n).

(** The [n] low bytes of [x], most significant first. *)
Definition be_bytes (n : nat) (x : Z) : list byte := rev (le_bytes n x).

Definition hex_digit (n : N) : ascii :=
  nth (N.to_nat n) (list_ascii_of_string "0123456789abcdef") "0"%char.

(** [bytes.hex()]: two lowercase digits per byte. *)
Fixpoint hex (bs : list byte) : string :=
  match bs with
  | [] => EmptyString
  | b :: rest =>
      let n := Byte.to_N b in
      String (hex_digit (n / 16)%N) (String (hex_digit (n mod 16)%N) (hex rest))
  end.

(** A block hash absorbs its padded message byte by byte; every 64th byte
    closes a block, which [compress] folds into the chaining state. *)
Fixpoint absorb {S : Type} (compress : S -> list byte -> S)
         (st : S) (buf : list byte) (bs : list byte) : S :=
  match bs with
  | [] => st
  | b :: rest =>
      let buf' := buf ++ [b] in
      if (length buf' =? 64)%nat then absorb compress (compress st buf') [] rest
      else absorb compress st buf' rest
  end.

End Bytes.

(** ** [str.encode()]: UTF-8 *)

Module Utf8.
Import Bytes.

Definition is_surrogate (c : N) : bool :=
  ((0xD800 <=? c) && (c <=? 0xDFFF))%N.

Definition encode_char (c : N) : list byte :=
  (if c <? 0x80 then [b8 c]
   else if c <? 0x800 then [b8 (0xC0 + c / 64); b8 (0x80 + c mod 64)]
   else if c <? 0x10000 then
     [b8 (0xE0 + c / 4096); b8 (0x80 + (c / 64) mod 64); b8 (0x80 + c mod 64)]
   else
     [b8 (0xF0 + c / 262144); b8 (0x80 + (c / 4096) mod 64);
      b8 (0x80 + (c / 64) mod 64); b8 (0x80 + c mod 64)])%N.

(** The strict error handler: the first surrogate code point raises.  (The
    code points of a [str] are below 0x110000.) *)
Fixpoint encode_from (pos : nat) (s : pystr) : result (list byte) :=
  match s with
  | [] => Ok []
  | c :: rest =>
      if is_surrogate c then Raise (UnicodeEncodeError pos c)
      else match encode_from (S pos) rest with
           | Ok bs => Ok (encode_char c ++ bs)
           | Raise e => Raise e
           end
  end.

Definition encode (s : pystr) : result (list byte) := encode_from 0 s.

End Utf8.

(** ** [hashlib.md5] *)

Module MD5.
Import Bytes.

Definition add32 (x y : Z) : Z := (x + y) mod 2 ^ 32.
Definition not32 (x : Z) : Z := Z.lxor x 0xFFFFFFFF.
Definition rotl32 (x s : Z) : Z :=
  Z.lor (Z.shiftl x s mod 2 ^ 32) (Z.shiftr x (32 - s)).

Definition F (x y z : Z) := Z.lor (Z.land x y) (Z.land (not32 x) z).
Definition G (x y z : Z) := Z.lor (Z.land x z) (Z.land y (not32 z)).
Definition H (x y z : Z) := Z.lxor (Z.lxor x y) z.
Definition I (x y z : Z) := Z.lxor y (Z.lor x (not32 z)).

Definition K : list Z :=
  [ 0xd76aa478; 0xe8c7b756; 0x242070db; 0xc1bdceee;
    0xf57c0faf; 0x4787c62a; 0xa8304613; 0xfd469501;
    0x698098d8; 0x8b44f7af; 0xffff5bb1; 0x895cd7be;
    0x6b901122; 0xfd987193; 0xa679438e; 0x49b40821;
    0xf61e2562; 0xc040b340; 0x265e5a51; 0xe9b6c7aa;
    0xd62f105d; 0x02441453; 0xd8a1e681; 0xe7d3fbc8;
    0x21e1cde6; 0xc33707d6; 0xf4d50d87; 0x455a14ed;
    0xa9e3e905; 0xfcefa3f8; 0x676f02d9; 0x8d2a4c8a;
    0xfffa3942; 0x8771f681; 0x6d9d6122; 0xfde5380c;
    0xa4beea44; 0x4bdecfa9; 0xf6bb4b60; 0xbebfbc70;
    0x289b7ec6; 0xeaa127fa; 0xd4ef3085; 0x04881d05;
    0xd9d4d039; 0xe6db99e5; 0x1fa27cf8; 0xc4ac5665;
    0xf4292244; 0x432aff97; 0xab9423a7; 0xfc93a039;
    0x655b59c3; 0x8f0ccc92; 0xffeff47d; 0x85845dd1;
    0x6fa87e4f; 0xfe2ce6e0; 0xa3014314; 0x4e0811a1;
    0xf7537e82; 0xbd3af235; 0x2ad7d2bb; 0xeb86d391 ].

(** The rotation of each round. *)
Definition shifts : list Z :=
  [ 7; 12; 17; 22; 7; 12; 17; 22; 7; 12; 17; 22; 7; 12; 17; 22;
    5; 9; 14; 20; 5; 9; 14; 20; 5; 9; 14; 20; 5; 9; 14; 20;
    4; 11; 16; 23; 4; 11; 16; 23; 4; 11; 16; 23; 4; 11; 16; 23;
    6; 10; 15; 21; 6; 10; 15; 21; 6; 10; 15; 21; 6; 10; 15; 21 ].

Record state := State { sa : Z; sb : Z; sc : Z; sd : Z }.

Definition init : state :=
  State 0x67452301 0xefcdab89 0x98badcfe 0x10325476.

(** Word [g] of a 64-byte block, little endian. *)
Definition word_at (block : list byte) (g : nat) : Z :=
  let at_ k := byteZ (nth (4 * g + k) block x00) in
  at_ 0%nat + 2 ^ 8 * at_ 1%nat + 2 ^ 16 * at_ 2%nat + 2 ^ 24 * at_ 3%nat.

Definition step (block : list byte) (st : state) (i : nat) : state :=
  let '(State a b c d) := st in
  let '(f, g) :=
    if (i <? 16)%nat then (F b c d, i)
    else if (i <? 32)%nat then (G b c d, (5 * i + 1) mod 16)%nat
    else if (i <? 48)%nat then (H b c d, (3 * i + 5) mod 16)%nat
    else (I b c d, (7 * i) mod 16)%nat in
  let f' := add32 (add32 (add32 f a) (nth i K 0)) (word_at block g) in
  State d (add32 b (rotl32 f' (nth i shifts 0))) b c.

Definition compress (st : state) (block : list byte) : state :=
  let st' := fold_left (step block) (seq 0 64) st in
  State (add32 (sa st) (sa st')) (add32 (sb st) (sb st'))
        (add32 (sc st) (sc st')) (add32 (sd st) (sd st')).

Definition pad (msg : list byte) : list byte :=
  let len := length msg in
  let zeros := ((55 + 64 - len mod 64) mod 64)%nat in
  msg ++ [x80] ++ repeat x00 zeros
      ++ le_bytes 8 ((8 * Z.of_nat len) mod 2 ^ 64).

Definition digest (msg : list byte) : list byte :=
  let st := absorb compress init [] (pad msg) in
  le_bytes 4 (sa st) ++ le_bytes 4 (sb st)
    ++ le_bytes 4 (sc st) ++ le_bytes 4 (sd st).

Definition hexdigest (msg : list byte) : string := hex (digest msg).

End MD5.

(** ** [hashlib.sha256] *)

Module SHA256.
Import Bytes.

Definition add32 (x y : Z) : Z := (x + y) mod 2 ^ 32.
Definition rotr32 (x s : Z) : Z :=
  Z.lor (Z.shiftr x s) (Z.shiftl x (32 - s) mod 2 ^ 32).
Definition xor3 (x y z : Z) : Z := Z.lxor (Z.lxor x y) z.

Definition Ch (x y z : Z) := Z.lxor (Z.land x y) (Z.land (Z.lxor x 0xFFFFFFFF) z).
Definition Maj (x y z : Z) := xor3 (Z.land x y) (Z.land x z) (Z.land y z).
Definition Sigma0 (x : Z) := xor3 (rotr32 x 2) (rotr32 x 13) (rotr32 x 22).
Definition Sigma1 (x : Z) := xor3 (rotr32 x 6) (rotr32 x 11) (rotr32 x 25).
Definition sigma0 (x : Z) := xor3 (rotr32 x 7) (rotr32 x 18) (Z.shiftr x 3).
Definition sigma1 (x : Z) := xor3 (rotr32 x 17) (rotr32 x 19) (Z.shiftr x 10).

Definition primes : list Z :=
  [ 2; 3; 5; 7; 11; 13; 17; 19; 23; 29; 31; 37; 41; 43; 47; 53; 59; 61; 67;
    71; 73; 79; 83; 89; 97; 101; 103; 107; 109; 113; 127; 131; 137; 139;
    149; 151; 157; 163; 167; 173; 179; 181; 191; 193; 197; 199; 211; 223;
    227; 229; 233; 239; 241; 251; 257; 263; 269; 271; 277; 281; 283; 293;
    307; 311 ].

(** The integer cube root below [2 ^ bits], found bit by bit. *)
Fixpoint cube_root (bits : nat) (n : Z) (acc : Z) : Z :=
  match bits with
  | O => acc
  | S k =>
      let cand := acc + 2 ^ Z.of_nat k in
      cube_root k n (if cand * cand * cand <=? n then cand else acc)
  end.

(** The round constants: the first 32 bits of the fractional parts of the
    cube roots of the first 64 primes; the initial state: the same of the
    square roots of the first 8. *)
Definition K : list Z :=
  Eval vm_compute in
    map (fun p => cube_root 36 (p * 2 ^ 96) 0 mod 2 ^ 32) primes.

Definition init : list Z :=
  Eval vm_compute in
    map (fun p => Z.sqrt (p * 2 ^ 64) mod 2 ^ 32) (firstn 8 primes).

(** Word [g] of a 64-byte block, big endian. *)
Definition word_at (block : list byte) (g : nat) : Z :=
  let at_ k := byteZ (nth (4 * g + k) block x00) in
  2 ^ 24 * at_ 0%nat + 2 ^ 16 * at_ 1%nat + 2 ^ 8 * at_ 2%nat + at_ 3%nat.

Definition schedule (block : list byte) : list Z :=
  fold_left
    (fun w t =>
       w ++ [add32 (add32 (sigma1 (nth (t - 2) w 0)) (nth (t - 7) w 0))
                   (add32 (sigma0 (nth (t - 15) w 0)) (nth (t - 16) w 0))])
    (seq 16 48) (map (word_at block) (seq 0 16)).

Definition round (w : list Z) (st : list Z) (t : nat) : list Z :=
  match st with
  | [a; b; c; d; e; f; g; h] =>
      let t1 := add32 (add32 (add32 h (Sigma1 e)) (Ch e f g))
                      (add32 (nth t K 0) (nth t w 0)) in
      let t2 := add32 (Sigma0 a) (Maj a b c) in
      [add32 t1 t2; a; b; c; add32 d t1; e; f; g]
  | _ => st
  end.

Definition compress (st : list Z) (block : list byte) : list Z :=
  let st' := fold_left (round (schedule block)) (seq 0 64) st in
  map (fun xy => add32 xy.1 xy.2) (combine st st').

Definition pad (msg : list byte) : list byte :=
  let len := length msg in
  let zeros := ((55 + 64 - len mod 64) mod 64)%nat in
  msg ++ [x80] ++ repeat x00 zeros
      ++ be_bytes 8 ((8 * Z.of_nat len) mod 2 ^ 64).

Definition digest (msg : list byte) : list byte :=
  flat_map (be_bytes 4) (absorb compress init [] (pad msg)).

Definition hexdigest (msg : list byte) : string := hex (digest msg).

End SHA256.

(** The UTF-8 bytes of an ASCII literal. *)
Definition bytes_of (s : string) : list byte :=
  match Utf8.encode (py s) with
  | Ok bs => bs
  | Raise _ => []
  end.

(** ** The world outside the process *)

(** One match of a Pinecone query. *)
Record scored_match := ScoredMatch {
  match_id : pystr;
  match_score : float;
  match_metadata : pydict
}.

(** The [Message] object that [client.messages.create] returns. *)
Record api_response := ApiResponse {
  resp_id : pystr;
  resp_content : list pystr;
  resp_model : pystr;
  resp_role : pystr;
  resp_input_tokens : Z;
  resp_output_tokens : Z;
  resp_type : pystr;
  resp_stop_reason : pyval;
  resp_stop_sequence : pyval
}.

(** The text of a [uuid.uuid4()]. *)
Definition uuid := pystr.

(** The [data] dictionaries handed to [record_transaction], one constructor
    per dictionary literal of the source. *)
Inductive transaction_data :=
| RequestData (prompt_hash : pystr) (model : pystr) (timestamp : float)
              (pilot_mode : pystr)
| MemoryHitData (memory_key : pystr) (transaction_id : uuid)
| SemanticHitData (memory_key : pystr) (similarity_score : float)
                  (transaction_id : uuid)
| CacheHitData (transaction_id : uuid)
| ApiCallSuccessData (transaction_id : uuid) (model : pystr)
                     (input_tokens output_tokens total_tokens : Z)
| ApiCallErrorData (transaction_id : uuid) (error : exn) (attempt : Z)
| ApiCallFailureData (transaction_id : uuid) (error : exn) (attempts : Z).

Record transaction_record := TransactionRecord {
  tr_id : uuid;
  tr_type : string;
  tr_timestamp : float;
  tr_data : transaction_data;
  tr_status : string
}.

(** Requests that leave the process, in the order they are sent. *)
Inductive event :=
| FirestoreGet (doc_id : pystr)
| FirestoreQuery (hash_key : pystr)
| FirestoreDelete (doc_id : pystr)
| FirestoreSet (doc_id : pystr) (data : pydict)
| PineconeFetch (id : pystr)
| PineconeQuery (vector : list float) (top_k : nat)
| PineconeUpsert (id : pystr) (vector : list float) (metadata : pydict)
| EmbeddingRequest (text : pyval)
| MessagesCreate (model : pystr) (messages : pyval) (temperature : float)
                 (max_tokens : Z)
| Sleep (seconds : Z)
| AuditTrail (record : transaction_record)
| BlockchainLog (transaction_id : uuid).

(** [clock], [uuids], [fault], [embedding_service], [pinecone_nearest] and
    [anthropic] are the answers of the environment; the counters say how
    many answers were consumed.  A reading of the clock is the binary64
    number that [time.time()] returns.  Every remote call takes the next entry of
    [fault]: [Some code] makes the SDK raise.  [firestore_docs] is the cache
    collection by document id, [pinecone_vectors] the metadata by vector id
    in namespace "s2do-memory". *)
Record World := mkWorld {
  clock : nat -> float;
  clock_reads : nat;
  uuids : nat -> uuid;
  uuid_draws : nat;
  fault : nat -> option N;
  rpcs : nat;
  firestore_docs : gmap pystr pydict;
  pinecone_vectors : gmap pystr pydict;
  embedding_service : pyval -> option (list float);
  pinecone_nearest : list float -> list scored_match;
  anthropic : pyval -> api_response;
  trace : list event
}.

Definition set_clock_reads (n : nat) (w : World) : World :=
  mkWorld (clock w) n (uuids w) (uuid_draws w) (fault w) (rpcs w)
          (firestore_docs w) (pinecone_vectors w) (embedding_service w)
          (pinecone_nearest w) (anthropic w) (trace w).
Definition set_uuid_draws (n : nat) (w : World) : World :=
  mkWorld (clock w) (clock_reads w) (uuids w) n (fault w) (rpcs w)
          (firestore_docs w) (pinecone_vectors w) (embedding_service w)
          (pinecone_nearest w) (anthropic w) (trace w).
Definition set_rpcs (n : nat) (w : World) : World :=
  mkWorld (clock w) (clock_reads w) (uuids w) (uuid_draws w) (fault w) n
          (firestore_docs w) (pinecone_vectors w) (embedding_service w)
          (pinecone_nearest w) (anthropic w) (trace w).
Definition set_firestore_docs (d : gmap pystr pydict) (w : World) : World :=
  mkWorld (clock w) (clock_reads w) (uuids w) (uuid_draws w) (fault w) (rpcs w)
          d (pinecone_vectors w) (embedding_service w)
          (pinecone_nearest w) (anthropic w) (trace w).
Definition set_pinecone_vectors (d : gmap pystr pydict) (w : World) : World :=
  mkWorld (clock w) (clock_reads w) (uuids w) (uuid_draws w) (fault w) (rpcs w)
          (firestore_docs w) d (embedding_service w)
          (pinecone_nearest w) (anthropic w) (trace w).
Definition set_trace (t : list event) (w : World) : World :=
  mkWorld (clock w) (clock_reads w) (uuids w) (uuid_draws w) (fault w) (rpcs w)
          (firestore_docs w) (pinecone_vectors w) (embedding_service w)
          (pinecone_nearest w) (anthropic w) t.

(** ** Computations: state passing with exceptions

    A method is a function from the state it can touch to a result and the
    new state.  A raised exception leaves the mutations made so far in
    place, as in Python. *)
Definition M (S A : Type) : Type := S -> result A * S.

Definition ret {S A} (a : A) : M S A := fun s => (Ok a, s).
Definition raise {S A} (e : exn) : M S A := fun s => (Raise e, s).
Definition bind {S A B} (m : M S A) (f : A -> M S B) : M S B :=
  fun s => match m s with
           | (Ok a, s') => f a s'
           | (Raise e, s') => (Raise e, s')
           end.
(** [try: m except Exception as e: h e] *)
Definition try_except {S A} (m : M S A) (h : exn -> M S A) : M S A :=
  fun s => match m s with
           | (Ok a, s') => (Ok a, s')
           | (Raise e, s') => h e s'
           end.
Definition gets {S A} (f : S -> A) : M S A := fun s => (Ok (f s), s).
Definition modify {S} (f : S -> S) : M S unit := fun s => (Ok tt, f s).
Definition lift_result {S A} (r : result A) : M S A := fun s => (r, s).

(** Methods of an object [X] run on the pair of the object and the world. *)
Definition in_world {X A} (m : M World A) : M (X * World) A :=
  fun '(x, w) => let '(r, w') := m w in (r, (x, w')).
Definition self {X A} (f : X -> A) : M (X * World) A :=
  fun '(x, w) => (Ok (f x), (x, w)).
Definition update_self {X} (f : X -> X) : M (X * World) unit :=
  fun '(x, w) => (Ok tt, (f x, w)).

Declare Scope py_scope.
Delimit Scope py_scope with py.
Notation "x <- m ;; k" := (bind m (fun x => k))
  (at level 100, m at next level, right associativity) : py_scope.
Notation "m ;; k" := (bind m (fun _ => k))
  (at level 100, right associativity) : py_scope.
Local Open Scope py_scope.

(** *** Primitive operations on the world *)

Definition emit (e : event) : M World unit :=
  modify (fun w => set_trace (trace w ++ [e]) w).

(** [time.time()] *)
Definition time_time : M World float :=
  fun w => (Ok (clock w (clock_reads w)), set_clock_reads (S (clock_reads w)) w).

(** [uuid.uuid4()] *)
Definition uuid4 : M World uuid :=
  fun w => (Ok (uuids w (uuid_draws w)), set_uuid_draws (S (uuid_draws w)) w).

(** One round trip to a remote service. *)
Definition rpc (svc : service) : M World unit :=
  fun w => match fault w (rpcs w) with
           | Some code => (Raise (BackendError svc code), set_rpcs (S (rpcs w)) w)
           | None => (Ok tt, set_rpcs (S (rpcs w)) w)
           end.

(** *** Firestore: the cache collection *)

(** [doc_ref.get()]: the snapshot's data when the document exists. *)
Definition document_get (doc_id : pystr) : M World (option pydict) :=
  emit (FirestoreGet doc_id) ;;
  rpc Firestore ;;
  gets (fun w => firestore_docs w !! doc_id).

(** Order of document names (Firestore streams a query without an order
    clause by ascending name). *)
Fixpoint pystr_ltb (a b : pystr) : bool :=
  match a, b with
  | [], [] => false
  | [], _ :: _ => true
  | _ :: _, [] => false
  | x :: a', y :: b' => ((x <? y) || ((x =? y) && pystr_ltb a' b'))%N
  end.

Definition first_by_name (docs : gmap pystr pydict) : option (pystr * pydict) :=
  foldr (fun kv acc =>
           match acc with
           | None => Some kv
           | Some kv' => if pystr_ltb kv.1 kv'.1 then Some kv else Some kv'
           end)
        None (map_to_list docs).

Definition hash_key_is (cache_key : pystr) (data : pydict) : bool :=
  match dict_get "hash_key" data with
  | Some (PyStr k) => bool_decide (k = cache_key)
  | _ => false
  end.

(** [query.optimize_query_lens("q4d")]: the query objects of the Firestore
    SDK have no such method, and nothing in the repository adds one, so
    the attribute lookup raises before any request is sent. *)
Definition optimize_query_lens (lens : string) : M World unit :=
  raise (AttributeError "'Query' object has no attribute 'optimize_query_lens'").

(** [next(query.limit(1).stream(), None)] for the query
    [collection.where("hash_key", "==", k)]: the first document whose field
    [hash_key] is [k], with its name. *)
Definition query_hash_key (cache_key : pystr)
  : M World (option (pystr * pydict)) :=
  emit (FirestoreQuery cache_key) ;;
  rpc Firestore ;;
  gets (fun w =>
          first_by_name
            (filter (fun kv => hash_key_is cache_key kv.2 = true)
                    (firestore_docs w))).

(** [doc_ref.delete()] *)
Definition document_delete (doc_id : pystr) : M World unit :=
  emit (FirestoreDelete doc_id) ;;
  rpc Firestore ;;
  modify (fun w => set_firestore_docs (delete doc_id (firestore_docs w)) w).

(** [update_in_transaction(transaction, doc_ref, data)]: a transactional
    [set] of the whole document. *)
Definition transaction_set (doc_id : pystr) (data : pydict) : M World unit :=
  emit (FirestoreSet doc_id data) ;;
  rpc Firestore ;;
  modify (fun w => set_firestore_docs (<[doc_id := data]> (firestore_docs w)) w).

(** *** Pinecone: the index, namespace "s2do-memory" *)

(** [index.fetch([key])["vectors"]]: the metadata of the vector, if any. *)
Definition index_fetch (key : pystr) : M World (option pydict) :=
  emit (PineconeFetch key) ;;
  rpc Pinecone ;;
  gets (fun w => pinecone_vectors w !! key).

(** [index.query(vector, top_k, include_metadata=True)["matches"]] *)
Definition index_query (vector : list float) (top_k : nat)
  : M World (list scored_match) :=
  emit (PineconeQuery vector top_k) ;;
  rpc Pinecone ;;
  gets (fun w => firstn top_k (pinecone_nearest w vector)).

(** [index.upsert([(key, vector, metadata)])] *)
Definition index_upsert (key : pystr) (vector : list float) (metadata : pydict)
  : M World unit :=
  emit (PineconeUpsert key vector metadata) ;;
  rpc Pinecone ;;
  modify (fun w => set_pinecone_vectors (<[key := metadata]> (pinecone_vectors w)) w).

(** *** Numbers and the clock

    What [v > current_time] can have on its left: an integer ([bool] counts
    as 0 or 1) or a binary64 number; anything else raises [TypeError]. *)
Inductive number :=
| Int (z : Z)
| Float (f : float).

Definition as_number {S} (v : pyval) : M S number :=
  match v with
  | PyInt z => ret (Int z)
  | PyBool b => ret (Int (Z.b2z b))
  | PyFloat f => ret (Float f)
  | _ => raise (TypeError "'>' not supported between these types")
  end.

(** [z > t] for an integer and a binary64 number: the interpreter compares
    the two values exactly, without converting the integer.  A finite
    binary64 number is [m * 2 ^ e] with a sign. *)
Definition int_gt_float (z : Z) (t : float) : bool :=
  match Prim2SF t with
  | S754_nan => false
  | S754_infinity negative => negative
  | S754_zero _ => 0 <? z
  | S754_finite negative m e =>
      let mantissa := if negative then Z.neg m else Z.pos m in
      if 0 <=? e then mantissa * 2 ^ e <? z
      else mantissa <? z * 2 ^ (- e)
  end.

(** [x > t] *)
Definition number_gt (x : number) (t : float) : bool :=
  match x with
  | Int z => int_gt_float z t
  | Float f => (t <? f)%float
  end.

(** [d[k]] *)
Definition item {S} (d : pydict) (k : string) : M S pyval :=
  match dict_get k d with
  | Some v => ret v
  | None => raise (KeyError (py k))
  end.

(** ** [class CacheManager] *)

Module CacheManager.

(** The fields that [__init__] sets ([db] and [collection] are
    [firestore_docs] of the world).  [cache_ttl] is the configured number
    as the binary64 number that [time.time() + self.cache_ttl] adds: a
    float itself, or the float of an integer.  (A setting that is not a
    number, with which the sum raises [TypeError], is outside the
    model.) *)
Record state := mk {
  firebase_enabled : bool;
  memory_cache : gmap pystr pyval;
  memory_cache_expiry : gmap pystr number;
  cache_ttl : float;
  s2_persistence_enabled : bool;
  q4d_lens_enabled : bool
}.

Definition set_memory_cache (m : gmap pystr pyval) (cm : state) : state :=
  mk (firebase_enabled cm) m (memory_cache_expiry cm) (cache_ttl cm)
     (s2_persistence_enabled cm) (q4d_lens_enabled cm).
Definition set_memory_cache_expiry (m : gmap pystr number) (cm : state)
  : state :=
  mk (firebase_enabled cm) (memory_cache cm) m (cache_ttl cm)
     (s2_persistence_enabled cm) (q4d_lens_enabled cm).

(** The object after [__init__]: both dictionaries of the fast tier are
    empty.  [firebase_ok] says that Firebase is enabled in the configuration
    and that the SDK came up; the other arguments are the configuration
    values read. *)
Definition __init__ (firebase_ok : bool) (ttl : float) (s2 q4d : bool)
  : state :=
  mk firebase_ok ∅ ∅ ttl s2 q4d.

(** [hashlib.md5(prompt.encode()).hexdigest()] *)
Definition _generate_cache_key (prompt : pystr) : result pystr :=
  match Utf8.encode prompt with
  | Ok bs => Ok (py (MD5.hexdigest bs))
  | Raise e => Raise e
  end.

(** [del d[k]] on the two dictionaries of the fast tier. *)
Definition del_memory_cache (k : pystr) : M (state * World) unit :=
  mc <- self memory_cache ;;
  match mc !! k with
  | Some _ => update_self (fun cm => set_memory_cache (delete k mc) cm)
  | None => raise (KeyError k)
  end.
Definition del_memory_cache_expiry (k : pystr) : M (state * World) unit :=
  mce <- self memory_cache_expiry ;;
  match mce !! k with
  | Some _ => update_self (fun cm => set_memory_cache_expiry (delete k mce) cm)
  | None => raise (KeyError k)
  end.

(** "Check memory cache first": [Some] is the early return of a live
    entry. *)
Definition check_memory_cache (cache_key : pystr) (current_time : float)
  : M (state * World) (option pyval) :=
  mc <- self memory_cache ;;
  match mc !! cache_key with
  | Some cached =>
      mce <- self memory_cache_expiry ;;
      match mce !! cache_key with
      | None => raise (KeyError cache_key)
      | Some expiry =>
          if number_gt expiry current_time then ret (Some cached)
          else
            del_memory_cache cache_key ;;
            del_memory_cache_expiry cache_key ;;
            ret None
      end
  | None => ret None
  end.

(** What both Firestore branches do with the data of a found document;
    [delete_it] is [doc.reference.delete()] or [doc_ref.delete()]. *)
Definition use_document (cache_key : pystr) (current_time : float)
           (data : pydict) (delete_it : M World unit)
  : M (state * World) (option pyval) :=
  expiry <- as_number (default (PyInt 0) (dict_get "expiry" data)) ;;
  if number_gt expiry current_time then
    response <- item data "response" ;;
    update_self (fun cm => set_memory_cache (<[cache_key := response]> (memory_cache cm)) cm) ;;
    update_self (fun cm => set_memory_cache_expiry (<[cache_key := expiry]> (memory_cache_expiry cm)) cm) ;;
    ret (Some response)
  else
    in_world delete_it ;;
    ret None.

(** The body of the [try] in [get]. *)
Definition check_firebase_cache (cache_key : pystr) (current_time : float)
  : M (state * World) (option pyval) :=
  q4d <- self q4d_lens_enabled ;;
  if q4d then
    in_world (optimize_query_lens "q4d") ;;
    doc <- in_world (query_hash_key cache_key) ;;
    match doc with
    | Some (doc_id, data) =>
        use_document cache_key current_time data (document_delete doc_id)
    | None => ret None
    end
  else
    doc <- in_world (document_get cache_key) ;;
    match doc with
    | Some data =>
        use_document cache_key current_time data (document_delete cache_key)
    | None => ret None
    end.

Definition get (prompt : pystr) : M (state * World) (option pyval) :=
  cache_key <- lift_result (_generate_cache_key prompt) ;;
  current_time <- in_world time_time ;;
  hit <- check_memory_cache cache_key current_time ;;
  match hit with
  | Some cached => ret (Some cached)
  | None =>
      enabled <- self firebase_enabled ;;
      if enabled then
        try_except (check_firebase_cache cache_key current_time)
                   (fun _ => ret None)
      else ret None
  end.

(** Stands for [firestore.SERVER_TIMESTAMP]; the server fills it in. *)
Definition SERVER_TIMESTAMP : pyval := PyStr (py "SERVER_TIMESTAMP").

Definition cache_data (prompt : pystr) (response : pyval) (expiry : float)
           (cache_key : pystr) (s2 : bool) : pydict :=
  let basic :=
    [ ("prompt", PyStr prompt); ("response", response);
      ("expiry", PyFloat expiry); ("created_at", SERVER_TIMESTAMP);
      ("hash_key", PyStr cache_key) ]%string in
  if s2 then
    dict_update basic
      [ ("persistence_level", PyStr (py "S2")); ("redundancy_factor", PyInt 2);
        ("geo_replicated", PyBool true);
        ("persistence_tier", PyStr (py "premium"));
        ("recovery_priority", PyStr (py "high"));
        ("last_verified", SERVER_TIMESTAMP) ]%string
  else basic.

Definition set (prompt : pystr) (response : pyval) : M (state * World) unit :=
  cache_key <- lift_result (_generate_cache_key prompt) ;;
  now <- in_world time_time ;;
  ttl <- self cache_ttl ;;
  let expiry := (now + ttl)%float in
  update_self (fun cm => set_memory_cache (<[cache_key := response]> (memory_cache cm)) cm) ;;
  update_self (fun cm => set_memory_cache_expiry (<[cache_key := Float expiry]> (memory_cache_expiry cm)) cm) ;;
  enabled <- self firebase_enabled ;;
  if enabled then
    try_except
      (s2 <- self s2_persistence_enabled ;;
       in_world (transaction_set cache_key
                   (cache_data prompt response expiry cache_key s2)))
      (fun _ => ret tt)
  else ret tt.

End CacheManager.

(** ** [class S2DOGovernance] *)

Module S2DOGovernance.

(** [contract] says whether a contract object was loaded;
    [transactions] is [governance_metrics["transactions"]]. *)
Record state := mk {
  blockchain_enabled : bool;
  contract : bool;
  audit_trail_enabled : bool;
  transactions : Z
}.

(** The audit trail of the source is the log line of this method. *)
Definition _add_to_audit_trail (transaction_record : transaction_record)
  : M (state * World) unit :=
  in_world (emit (AuditTrail transaction_record)).

(** The blockchain branch only logs; the hash it logs is not kept. *)
Definition record_transaction (transaction_type : string)
           (data : transaction_data) : M (state * World) uuid :=
  transaction_id <- in_world uuid4 ;;
  timestamp <- in_world time_time ;;
  let transaction_record :=
    TransactionRecord transaction_id transaction_type timestamp data
                      "recorded" in
  audit <- self audit_trail_enabled ;;
  (if audit then _add_to_audit_trail transaction_record else ret tt) ;;
  chain <- self (fun g => blockchain_enabled g && contract g) ;;
  (if chain then
     try_except (in_world (emit (BlockchainLog transaction_id)))
                (fun _ => ret tt)
   else ret tt) ;;
  update_self (fun g => mk (blockchain_enabled g) (contract g)
                           (audit_trail_enabled g) (transactions g + 1)) ;;
  ret transaction_id.

End S2DOGovernance.

(** ** [class PersistentMemoryManager] *)

Module PersistentMemoryManager.

(** [index] says whether the handle to the Pinecone index was opened. *)
Record state := mk {
  pinecone_enabled : bool;
  index : bool
}.

(** The vector is the environment's answer for the text (the embedding
    service, or the hash fallback of the source); an exception inside gives
    [None]. *)
Definition _generate_embedding (text : pyval)
  : M (state * World) (option (list float)) :=
  try_except
    (in_world (emit (EmbeddingRequest text) ;;
               rpc Embedding ;;
               gets (fun w => embedding_service w text)))
    (fun _ => ret None).

(** [not embedding]: [None] and the empty list are both false. *)
Definition no_embedding (e : option (list float)) : bool :=
  match e with
  | Some (_ :: _) => false
  | _ => true
  end.

Definition retrieve_by_key (key : pystr) : M (state * World) (option pydict) :=
  off <- self (fun p => negb (pinecone_enabled p) || negb (index p)) ;;
  if off then ret None
  else
    try_except
      (vector_data <- in_world (index_fetch key) ;;
       match vector_data with
       | Some metadata => ret (Some metadata)
       | None => ret None
       end)
      (fun _ => ret None).

Definition search_semantic (query : pystr) (top_k : nat)
  : M (state * World) (list scored_match) :=
  off <- self (fun p => negb (pinecone_enabled p) || negb (index p)) ;;
  if off then ret []
  else
    try_except
      (query_embedding <- _generate_embedding (PyStr query) ;;
       if no_embedding query_embedding then ret []
       else in_world (index_query (default [] query_embedding) top_k))
      (fun _ => ret []).

(** [content_preview], a prefix of the JSON text of the content, is left
    out of the stored metadata; [timestamp] is the clock reading. *)
Definition store_memory (key : pystr) (content : pyval) (metadata : pydict)
  : M (state * World) bool :=
  off <- self (fun p => negb (pinecone_enabled p) || negb (index p)) ;;
  if off then ret false
  else
    try_except
      (embedding <- _generate_embedding content ;;
       if no_embedding embedding then ret false
       else
         now <- in_world time_time ;;
         let metadata' :=
           dict_update metadata
             [ ("timestamp", PyFloat now); ("key", PyStr key) ]%string in
         in_world (index_upsert key (default [] embedding) metadata') ;;
         ret true)
      (fun _ => ret false).

End PersistentMemoryManager.

(** ** [class ClaudeAutomation] *)

Module ClaudeAutomation.

(** [self.metrics] *)
Record metrics := mkMetrics {
  api_calls : Z;
  cache_hits : Z;
  cache_misses : Z;
  errors : Z;
  latency : list float;
  governance_actions : Z;
  semantic_operations : Z;
  memory_operations : Z;
  total_tokens : Z;
  prompt_tokens : Z;
  completion_tokens : Z
}.

(** The object with the configuration values that
    [process_data_with_claude] reads: [model], [max_retries], [retry_delay],
    [max_tokens] and [temperature] of section "anthropic", and
    [auto_enrichment] of section "semantic_modeling".  [client] and
    [semantic_modeling] say whether the attribute holds an object. *)
Record state := mk {
  client : bool;
  cache_manager : CacheManager.state;
  pilot_mode : pystr;
  the_metrics : metrics;
  s2do_governance : option S2DOGovernance.state;
  persistent_memory : option PersistentMemoryManager.state;
  semantic_modeling : bool;
  model : pystr;
  max_retries : Z;
  retry_delay : Z;
  max_tokens : Z;
  temperature : float;
  auto_enrichment : bool
}.

Definition set_cache_manager (c : CacheManager.state) (a : state) : state :=
  mk (client a) c (pilot_mode a) (the_metrics a) (s2do_governance a)
     (persistent_memory a) (semantic_modeling a) (model a) (max_retries a)
     (retry_delay a) (max_tokens a) (temperature a) (auto_enrichment a).
Definition set_metrics (m : metrics) (a : state) : state :=
  mk (client a) (cache_manager a) (pilot_mode a) m (s2do_governance a)
     (persistent_memory a) (semantic_modeling a) (model a) (max_retries a)
     (retry_delay a) (max_tokens a) (temperature a) (auto_enrichment a).
Definition set_s2do_governance (g : option S2DOGovernance.state) (a : state)
  : state :=
  mk (client a) (cache_manager a) (pilot_mode a) (the_metrics a) g
     (persistent_memory a) (semantic_modeling a) (model a) (max_retries a)
     (retry_delay a) (max_tokens a) (temperature a) (auto_enrichment a).
Definition set_persistent_memory (p : option PersistentMemoryManager.state)
           (a : state) : state :=
  mk (client a) (cache_manager a) (pilot_mode a) (the_metrics a)
     (s2do_governance a) p (semantic_modeling a) (model a) (max_retries a)
     (retry_delay a) (max_tokens a) (temperature a) (auto_enrichment a).

(** [self.metrics[...] += ...] *)
Definition count (f : metrics -> metrics) : M (state * World) unit :=
  update_self (fun a => set_metrics (f (the_metrics a)) a).

Definition add_api_calls (m : metrics) : metrics :=
  mkMetrics (api_calls m + 1) (cache_hits m) (cache_misses m) (errors m)
            (latency m) (governance_actions m) (semantic_operations m)
            (memory_operations m) (total_tokens m) (prompt_tokens m)
            (completion_tokens m).
Definition add_cache_hits (m : metrics) : metrics :=
  mkMetrics (api_calls m) (cache_hits m + 1) (cache_misses m) (errors m)
            (latency m) (governance_actions m) (semantic_operations m)
            (memory_operations m) (total_tokens m) (prompt_tokens m)
            (completion_tokens m).
Definition add_cache_misses (m : metrics) : metrics :=
  mkMetrics (api_calls m) (cache_hits m) (cache_misses m + 1) (errors m)
            (latency m) (governance_actions m) (semantic_operations m)
            (memory_operations m) (total_tokens m) (prompt_tokens m)
            (completion_tokens m).
Definition add_errors (m : metrics) : metrics :=
  mkMetrics (api_calls m) (cache_hits m) (cache_misses m) (errors m + 1)
            (latency m) (governance_actions m) (semantic_operations m)
            (memory_operations m) (total_tokens m) (prompt_tokens m)
            (completion_tokens m).
Definition add_latency (d : float) (m : metrics) : metrics :=
  mkMetrics (api_calls m) (cache_hits m) (cache_misses m) (errors m)
            (latency m ++ [d]) (governance_actions m) (semantic_operations m)
            (memory_operations m) (total_tokens m) (prompt_tokens m)
            (completion_tokens m).
Definition add_governance_actions (m : metrics) : metrics :=
  mkMetrics (api_calls m) (cache_hits m) (cache_misses m) (errors m)
            (latency m) (governance_actions m + 1) (semantic_operations m)
            (memory_operations m) (total_tokens m) (prompt_tokens m)
            (completion_tokens m).
Definition add_semantic_operations (m : metrics) : metrics :=
  mkMetrics (api_calls m) (cache_hits m) (cache_misses m) (errors m)
            (latency m) (governance_actions m) (semantic_operations m + 1)
            (memory_operations m) (total_tokens m) (prompt_tokens m)
            (completion_tokens m).
Definition add_memory_operations (m : metrics) : metrics :=
  mkMetrics (api_calls m) (cache_hits m) (cache_misses m) (errors m)
            (latency m) (governance_actions m) (semantic_operations m)
            (memory_operations m + 1) (total_tokens m) (prompt_tokens m)
            (completion_tokens m).
Definition add_tokens (input output : Z) (m : metrics) : metrics :=
  mkMetrics (api_calls m) (cache_hits m) (cache_misses m) (errors m)
            (latency m) (governance_actions m) (semantic_operations m)
            (memory_operations m) (total_tokens m + (input + output))
            (prompt_tokens m + input) (completion_tokens m + output).

(** [self.metrics["latency"].append(time.time() - start_time)] *)
Definition record_latency (start_time : float) : M (state * World) unit :=
  now <- in_world time_time ;;
  count (add_latency (now - start_time)%float).

(** A method of an attribute object runs on that object and the world. *)
Definition on {X Y A} (getter : X -> Y) (setter : Y -> X -> X)
           (m : M (Y * World) A) : M (X * World) A :=
  fun '(x, w) => let '(r, (y, w')) := m (getter x, w) in (r, (setter y x, w')).

Definition on_cache_manager {A} (m : M (CacheManager.state * World) A)
  : M (state * World) A :=
  on cache_manager set_cache_manager m.

(** [self.persistent_memory.method(...)]; on [None] the attribute access
    fails. *)
Definition on_persistent_memory {A}
           (m : M (PersistentMemoryManager.state * World) A)
  : M (state * World) A :=
  p <- self persistent_memory ;;
  match p with
  | Some pm => on (fun _ => pm) (fun pm' a => set_persistent_memory (Some pm') a) m
  | None => raise (AttributeError "'NoneType' object has no such attribute")
  end.

(** [if self.s2do_governance: await
    self.s2do_governance.record_transaction(transaction_type, data)] *)
Definition governance_record (transaction_type : string)
           (data : transaction_data) : M (state * World) unit :=
  g <- self s2do_governance ;;
  match g with
  | Some gov =>
      on (fun _ => gov) (fun gov' a => set_s2do_governance (Some gov') a)
         (S2DOGovernance.record_transaction transaction_type data) ;;
      ret tt
  | None => ret tt
  end.

(** The argument of [process_data_with_claude]: a string, a dictionary with
    "messages", or anything else.  For the last two, [dumped] is the text
    that [json.dumps] gives for [messages] or for the whole value. *)
Inductive request_data :=
| DataStr (s : pystr)
| DataMessages (messages : pyval) (dumped : pystr)
| DataOther (v : pyval) (dumped : pystr).

Definition prompt_of (data : request_data) : pystr :=
  match data with
  | DataStr s => s
  | DataMessages _ dumped => dumped
  | DataOther _ dumped => dumped
  end.

(** [hashlib.sha256(prompt.encode()).hexdigest()] *)
Definition sha256_hex (prompt : pystr) : result pystr :=
  match Utf8.encode prompt with
  | Ok bs => Ok (py (SHA256.hexdigest bs))
  | Raise e => Raise e
  end.

(** [f"prompt_{hashlib.md5(prompt.encode()).hexdigest()}"] *)
Definition memory_key_of (prompt : pystr) : result pystr :=
  match Utf8.encode prompt with
  | Ok bs => Ok (py "prompt_" ++ py (MD5.hexdigest bs))
  | Raise e => Raise e
  end.

(** [m and "response" in m], giving [m["response"]]. *)
Definition response_in (m : option pydict) : option pyval :=
  match m with
  | Some d => dict_get "response" d
  | None => None
  end.

(** [semantic_results and len(semantic_results) > 0 and
    semantic_results[0]["score"] > 0.92]: the first match, when it passes. *)
Definition similar_enough (semantic_results : list scored_match)
  : option scored_match :=
  match semantic_results with
  | first :: _ =>
      if (0.92 <? match_score first)%float then Some first else None
  | [] => None
  end.

(** "Using response from persistent memory": the early return of the
    response found under the exact key. *)
Definition memory_hit (memory_key : pystr) (transaction_id : uuid)
           (start_time : float) (response : pyval)
  : M (state * World) (option pyval) :=
  count add_memory_operations ;;
  count add_cache_hits ;;
  record_latency start_time ;;
  governance_record "memory_hit" (MemoryHitData memory_key transaction_id) ;;
  ret (Some response).

(** "Use the semantically similar response": the early return of the
    response of the accepted candidate. *)
Definition semantic_hit (similar_key : pystr) (score : float)
           (transaction_id : uuid) (start_time : float) (response : pyval)
  : M (state * World) (option pyval) :=
  count add_semantic_operations ;;
  count add_cache_hits ;;
  record_latency start_time ;;
  governance_record "semantic_hit"
    (SemanticHitData similar_key score transaction_id) ;;
  ret (Some response).

(** "try semantic search if semantic modeling is enabled" *)
Definition try_semantic_search (prompt : pystr) (transaction_id : uuid)
           (start_time : float) : M (state * World) (option pyval) :=
  enabled <- self (fun a => semantic_modeling a && auto_enrichment a) ;;
  if enabled then
    semantic_results <-
      on_persistent_memory (PersistentMemoryManager.search_semantic prompt 1) ;;
    match similar_enough semantic_results with
    | Some first =>
        let similar_key := match_id first in
        similar_result <-
          on_persistent_memory
            (PersistentMemoryManager.retrieve_by_key similar_key) ;;
        match response_in similar_result with
        | Some response =>
            semantic_hit similar_key (match_score first) transaction_id
                         start_time response
        | None => ret None
        end
    | None => ret None
    end
  else ret None.

(** "Check persistent memory first if enabled": [Some] is the early
    return. *)
Definition check_persistent_memory (prompt : pystr) (transaction_id : uuid)
           (start_time : float) : M (state * World) (option pyval) :=
  p <- self persistent_memory ;;
  match p with
  | None => ret None
  | Some _ =>
      try_except
        (memory_key <- lift_result (memory_key_of prompt) ;;
         memory_result <-
           on_persistent_memory
             (PersistentMemoryManager.retrieve_by_key memory_key) ;;
         match response_in memory_result with
         | Some response =>
             memory_hit memory_key transaction_id start_time response
         | None => try_semantic_search prompt transaction_id start_time
         end)
        (fun _ => ret None)
  end.

(** "Check standard cache": [Some] is the early return of a truthy cached
    response. *)
Definition check_standard_cache (prompt : pystr) (transaction_id : uuid)
           (start_time : float) : M (state * World) (option pyval) :=
  cached_response <- on_cache_manager (CacheManager.get prompt) ;;
  match cached_response with
  | Some cached =>
      if truthy cached then
        count add_cache_hits ;;
        record_latency start_time ;;
        governance_record "cache_hit" (CacheHitData transaction_id) ;;
        ret (Some cached)
      else ret None
  | None => ret None
  end.

(** [self.client.messages.create(...)] *)
Definition messages_create (model : pystr) (messages : pyval)
           (temperature : float) (max_tokens : Z) : M World api_response :=
  emit (MessagesCreate model messages temperature max_tokens) ;;
  rpc Anthropic ;;
  gets (fun w => anthropic w messages).

(** The request of one attempt, with the parameters of the pilot mode. *)
Definition send_request (data : request_data) (model : pystr)
  : M (state * World) api_response :=
  let messages :=
    match data with
    | DataMessages messages _ => messages
    | _ => PyList [PyDict [ ("role", PyStr (py "user"));
                            ("content", PyStr (prompt_of data)) ]%string]
    end in
  mode <- self pilot_mode ;;
  limit <- self max_tokens ;;
  configured <- self temperature ;;
  if bool_decide (mode = py "performance") then
    in_world (messages_create model messages 0.5%float limit)
  else if bool_decide (mode = py "economy") then
    in_world (messages_create model messages 0.3%float (Z.min 1024 limit))
  else
    in_world (messages_create model messages configured limit).

Definition response_dict_of (response : api_response) (text : pystr) : pyval :=
  PyDict
    [ ("id", PyStr (resp_id response)); ("content", PyStr text);
      ("model", PyStr (resp_model response));
      ("role", PyStr (resp_role response));
      ("usage", PyDict [ ("input_tokens", PyInt (resp_input_tokens response));
                         ("output_tokens", PyInt (resp_output_tokens response)) ]);
      ("type", PyStr (resp_type response));
      ("stop_reason", resp_stop_reason response);
      ("stop_sequence", resp_stop_sequence response) ]%string.

(** "Store in persistent memory if enabled" *)
Definition store_in_persistent_memory (prompt : pystr) (response_dict : pyval)
           (model : pystr) (transaction_id : uuid) : M (state * World) unit :=
  p <- self persistent_memory ;;
  match p with
  | None => ret tt
  | Some _ =>
      memory_key <- lift_result (memory_key_of prompt) ;;
      prompt_hash <- lift_result (sha256_hex prompt) ;;
      timestamp <- in_world time_time ;;
      on_persistent_memory
        (PersistentMemoryManager.store_memory memory_key response_dict
           [ ("response", response_dict); ("prompt_hash", PyStr prompt_hash);
             ("model", PyStr model); ("timestamp", PyFloat timestamp);
             ("transaction_id", PyStr transaction_id) ]%string) ;;
      count add_memory_operations
  end.

(** The body of the [try] of one attempt. *)
Definition attempt_body (data : request_data) (prompt : pystr)
           (transaction_id : uuid) (start_time : float) (model : pystr)
  : M (state * World) pyval :=
  count add_api_calls ;;
  response <- send_request data model ;;
  count (add_tokens (resp_input_tokens response) (resp_output_tokens response)) ;;
  governance_record "api_call_success"
    (ApiCallSuccessData transaction_id model
       (resp_input_tokens response) (resp_output_tokens response)
       (resp_input_tokens response + resp_output_tokens response)) ;;
  text <- match resp_content response with
          | first :: _ => ret first
          | [] => raise (IndexError "list index out of range")
          end ;;
  let response_dict := response_dict_of response text in
  on_cache_manager (CacheManager.set prompt response_dict) ;;
  store_in_persistent_memory prompt response_dict model transaction_id ;;
  enrich <- self (fun a => semantic_modeling a && auto_enrichment a) ;;
  (if enrich then count add_semantic_operations else ret tt) ;;
  record_latency start_time ;;
  mode <- self pilot_mode ;;
  (if bool_decide (mode = py "performance") then
     (* the log line of the performance mode reads the clock *)
     in_world time_time ;; ret tt
   else ret tt) ;;
  ret response_dict.

(** [for attempt in range(max_retries + 1)], from [attempt] on, with
    [remaining] iterations left.  A loop that runs out returns [None]. *)
Fixpoint attempts (remaining : nat) (attempt : Z) (data : request_data)
         (prompt : pystr) (transaction_id : uuid) (start_time : float)
         (model : pystr) (max_retries retry_delay : Z)
  : M (state * World) pyval :=
  match remaining with
  | O => ret PyNone
  | S remaining' =>
      try_except
        (attempt_body data prompt transaction_id start_time model)
        (fun e =>
           if attempt <? max_retries then
             let wait_time := retry_delay * 2 ^ attempt in
             governance_record "api_call_error"
               (ApiCallErrorData transaction_id e (attempt + 1)) ;;
             in_world (emit (Sleep wait_time)) ;;
             attempts remaining' (attempt + 1) data prompt transaction_id
                      start_time model max_retries retry_delay
           else
             governance_record "api_call_failure"
               (ApiCallFailureData transaction_id e (max_retries + 1)) ;;
             count add_errors ;;
             raise e)
  end.

(** "Record transaction in governance system if enabled" *)
Definition record_request (prompt : pystr) : M (state * World) unit :=
  g <- self s2do_governance ;;
  match g with
  | None => ret tt
  | Some _ =>
      prompt_hash <- lift_result (sha256_hex prompt) ;;
      configured <- self model ;;
      timestamp <- in_world time_time ;;
      mode <- self pilot_mode ;;
      governance_record "claude_request"
        (RequestData prompt_hash configured timestamp mode) ;;
      count add_governance_actions
  end.

Definition process_data_with_claude (data : request_data)
  : M (state * World) pyval :=
  start_time <- in_world time_time ;;
  ready <- self client ;;
  if negb ready then raise (RuntimeError "Claude client not initialized")
  else
    let prompt := prompt_of data in
    transaction_id <- in_world uuid4 ;;
    record_request prompt ;;
    from_memory <- check_persistent_memory prompt transaction_id start_time ;;
    match from_memory with
    | Some response => ret response
    | None =>
        from_cache <- check_standard_cache prompt transaction_id start_time ;;
        match from_cache with
        | Some cached => ret cached
        | None =>
            count add_cache_misses ;;
            retries <- self max_retries ;;
            delay <- self retry_delay ;;
            configured <- self model ;;
            attempts (Z.to_nat (retries + 1)) 0 data prompt transaction_id
                     start_time configured retries delay
        end
    end.

End ClaudeAutomation.

(** ** Vocabulary of the statements *)

(** The characters of a lowercase hexadecimal digest. *)
Definition is_hex (c : N) : bool :=
  ((48 <=? c) && (c <=? 57) || (97 <=? c) && (c <=? 102))%N.

(** The fast tier without the entry of [key], and with an entry for it. *)
Definition evict (key : pystr) (cm : CacheManager.state) : CacheManager.state :=
  CacheManager.set_memory_cache_expiry
    (delete key (CacheManager.memory_cache_expiry cm))
    (CacheManager.set_memory_cache
       (delete key (CacheManager.memory_cache cm)) cm).

Definition populate (key : pystr) (response : pyval) (expiry : number)
           (cm : CacheManager.state) : CacheManager.state :=
  CacheManager.set_memory_cache_expiry
    (<[key := expiry]> (CacheManager.memory_cache_expiry cm))
    (CacheManager.set_memory_cache
       (<[key := response]> (CacheManager.memory_cache cm)) cm).

(** The two dictionaries of the fast tier have the same keys. *)
Definition same_keys (cm : CacheManager.state) : Prop :=
  dom (CacheManager.memory_cache cm) = dom (CacheManager.memory_cache_expiry cm).

(** The number that the comparison with the clock sees in the field
    "expiry" of a document, if it is one. *)
Definition expiry_of (data : pydict) : option number :=
  match default (PyInt 0) (dict_get "expiry" data) with
  | PyInt z => Some (Int z)
  | PyBool b => Some (Int (Z.b2z b))
  | PyFloat f => Some (Float f)
  | _ => None
  end.

(** The world after one request [e] was sent to a service. *)
Definition sent (e : event) (w : World) : World :=
  set_rpcs (S (rpcs w)) (set_trace (trace w ++ [e]) w).

(** The world after one reading of the clock. *)
Definition ticked (w : World) : World := set_clock_reads (S (clock_reads w)) w.


(** ** Concrete states for the examples *)

Definition demo_reply : api_response :=
  ApiResponse (py "msg_01") [py "hello"] (py "claude-3-sonnet-20240229")
              (py "assistant") 3 4 (py "message") (PyStr (py "end_turn"))
              PyNone.

(** [n] seconds as a binary64 number. *)
Definition seconds (n : nat) : float :=
  PrimFloat.of_uint63 (Uint63.of_Z (Z.of_nat n)).

(** A world whose clock advances by one second per reading, with empty
    stores; [faults] decides which remote calls fail. *)
Definition demo_world (faults : nat -> option N) : World :=
  mkWorld (fun n => 1700000000 + seconds n)%float 0
          (fun n => py "3f2c8a0e-5b1d-4c7e-9a6f-0d2b4e6a8c10") 0
          faults 0 ∅ ∅
          (fun _ => Some [1%float]) (fun _ => [])
          (fun _ => demo_reply) [].

Definition healthy : nat -> option N := fun _ => None.
Definition unavailable : nat -> option N := fun _ => Some 14%N.

(** A manager with Firebase enabled and a time-to-live of one day. *)
Definition demo_manager (q4d : bool) : CacheManager.state :=
  CacheManager.__init__ true 86400%float false q4d.

Definition demo_value : pyval := PyDict [("text"%string, PyStr (py "Y"))].

(** Two processes on one Firestore: a world whose clock advances by six
    seconds per reading, and a manager with a time-to-live of ten
    seconds. *)
Definition shared_world : World :=
  mkWorld (fun n => 1700000000 + seconds (6 * n))%float 0
          (fun n => py "3f2c8a0e-5b1d-4c7e-9a6f-0d2b4e6a8c10") 0
          healthy 0 ∅ ∅
          (fun _ => Some [1%float]) (fun _ => [])
          (fun _ => demo_reply) [].

Definition short_lived_manager : CacheManager.state :=
  CacheManager.__init__ true 10%float false false.

Definition other_value : pyval := PyDict [("text"%string, PyStr (py "Z"))].


(** The same manager with the Q4D lens switched on or off. *)
Definition with_q4d (q4d : bool) (cm : CacheManager.state) : CacheManager.state :=
  CacheManager.mk (CacheManager.firebase_enabled cm)
                  (CacheManager.memory_cache cm)
                  (CacheManager.memory_cache_expiry cm)
                  (CacheManager.cache_ttl cm)
                  (CacheManager.s2_persistence_enabled cm) q4d.

(** A collection that [set] has written to: the world after one [set]. *)
Definition world_after_set : World :=
  (CacheManager.set (py "summarize: X") demo_value
     (demo_manager false, demo_world healthy)).2.2.

(** ** Vocabulary of the statements about traces *)

(** Everything a computation sends satisfies [phi]: whatever state it
    starts from and however it ends, the trace grows by events that all
    satisfy [phi]. *)
Definition only_w {A} (phi : event -> Prop) (m : M World A) : Prop :=
  forall w r w',
    m w = (r, w') -> exists new, trace w' = trace w ++ new /\ Forall phi new.

Definition only {X A} (phi : event -> Prop) (m : M (X * World) A) : Prop :=
  forall x w r x' w',
    m (x, w) = (r, (x', w')) ->
    exists new, trace w' = trace w ++ new /\ Forall phi new.

Definition not_similarity_query (e : event) : Prop :=
  match e with
  | PineconeQuery _ _ => False
  | _ => True
  end.

Definition not_firestore_request (e : event) : Prop :=
  match e with
  | FirestoreGet _ | FirestoreQuery _ | FirestoreDelete _ | FirestoreSet _ _ =>
      False
  | _ => True
  end.

(** The transaction id that the data of a hit or compute record refers
    to. *)
Definition referenced_transaction (d : transaction_data) : option uuid :=
  match d with
  | RequestData _ _ _ _ => None
  | MemoryHitData _ tid => Some tid
  | SemanticHitData _ _ tid => Some tid
  | CacheHitData tid => Some tid
  | ApiCallSuccessData tid _ _ _ _ => Some tid
  | ApiCallErrorData tid _ _ => Some tid
  | ApiCallFailureData tid _ _ => Some tid
  end.

(** The records written to the audit trail, in order. *)
Definition audit_records (l : list event) : list transaction_record :=
  omap (fun e => match e with AuditTrail r => Some r | _ => None end) l.

(** An event of the hit-or-compute phase of the request [tid]: if it is an
    audit record, it is not a request record and it refers to [tid]. *)
Definition follows_request (tid : uuid) (e : event) : Prop :=
  match e with
  | AuditTrail r =>
      tr_type r <> "claude_request"%string
      /\ referenced_transaction (tr_data r) = Some tid
  | _ => True
  end.

Definition not_audit_record (e : event) : Prop :=
  match e with
  | AuditTrail _ => False
  | _ => True
  end.

(** The automation writes an audit trail: it has a governance object whose
    audit trail is enabled. *)
Definition audit_on (a : ClaudeAutomation.state) : bool :=
  match ClaudeAutomation.s2do_governance a with
  | Some g => S2DOGovernance.audit_trail_enabled g
  | None => false
  end.

(** As [only], for the runs that start in a state satisfying [inv], which
    they keep. *)
Definition keeps {X A} (inv : X -> Prop) (phi : event -> Prop)
           (m : M (X * World) A) : Prop :=
  forall x w r x' w',
    inv x -> m (x, w) = (r, (x', w')) ->
    inv x' /\ exists new, trace w' = trace w ++ new /\ Forall phi new.

Definition no_query_no_firestore (e : event) : Prop :=
  match e with
  | PineconeQuery _ _ => False
  | FirestoreGet _ | FirestoreQuery _ | FirestoreDelete _ | FirestoreSet _ _ =>
      False
  | _ => True
  end.

(** An automation with governance (audit trail on), persistent memory and
    semantic search enabled, three retries. *)
Definition zero_metrics : ClaudeAutomation.metrics :=
  ClaudeAutomation.mkMetrics 0 0 0 0 [] 0 0 0 0 0 0.

Definition demo_automation : ClaudeAutomation.state :=
  ClaudeAutomation.mk true (demo_manager false) (py "standard") zero_metrics
    (Some (S2DOGovernance.mk false false true 0))
    (Some (PersistentMemoryManager.mk true true)) true
    (py "claude-3-sonnet-20240229") 3 2 4096 0.7%float true.

(** Persistent memory with one entry, which the similarity query returns
    with the given score for every prompt. *)
Definition similar_metadata : pydict :=
  [ ("response", other_value); ("key", PyStr (py "prompt_similar")) ]%string.

Definition candidate_world (score : float) : World :=
  mkWorld (fun n => 1700000000 + seconds n)%float 0
          (fun n => py "3f2c8a0e-5b1d-4c7e-9a6f-0d2b4e6a8c10") 0
          healthy 0 ∅ {[ py "prompt_similar" := similar_metadata ]}
          (fun _ => Some [1%float])
          (fun _ => [ScoredMatch (py "prompt_similar") score similar_metadata])
          (fun _ => demo_reply) [].

(** The automation after its cache manager has cached a value for
    "summarize: X", on the world left by that [set]. *)
Definition cached_automation : ClaudeAutomation.state :=
  ClaudeAutomation.set_cache_manager
    (CacheManager.set (py "summarize: X") demo_value
       (demo_manager false, demo_world healthy)).2.1
    demo_automation.

(** Persistent memory that holds a response under the exact key of the
    prompt "hi". *)
Definition remembered_world : World :=
  set_pinecone_vectors
    {[ py "prompt_49f68a5c8493ec2c0bf489821c21fc3b" := similar_metadata ]}
    (demo_world healthy).

(** The kinds of the requests in a trace. *)
Definition event_kind (e : event) : string :=
  match e with
  | FirestoreGet _ => "firestore.get"
  | FirestoreQuery _ => "firestore.query"
  | FirestoreDelete _ => "firestore.delete"
  | FirestoreSet _ _ => "firestore.set"
  | PineconeFetch _ => "pinecone.fetch"
  | PineconeQuery _ _ => "pinecone.query"
  | PineconeUpsert _ _ _ => "pinecone.upsert"
  | EmbeddingRequest _ => "embedding"
  | MessagesCreate _ _ _ _ => "messages.create"
  | Sleep _ => "sleep"
  | AuditTrail r => tr_type r
  | BlockchainLog _ => "blockchain"
  end.

(** ** Vocabulary of the statements about requests, retries and counters *)

(** The requests sent to the Anthropic API. *)
Definition is_api_request (e : event) : bool :=
  match e with
  | MessagesCreate _ _ _ _ => true
  | _ => false
  end.

Definition api_requests (l : list event) : nat :=
  length (List.filter is_api_request l).

(** The waiting times between attempts, in order. *)
Definition sleeps (l : list event) : list Z :=
  omap (fun e => match e with Sleep s => Some s | _ => None end) l.

Definition not_sleep (e : event) : Prop :=
  match e with
  | Sleep _ => False
  | _ => True
  end.

(** A request of the economy mode: temperature 0.3 and at most 1024 output
    tokens. *)
Definition economy_request (e : event) : Prop :=
  match e with
  | MessagesCreate _ _ temperature max_tokens =>
      temperature = 0.3%float /\ max_tokens <= 1024
  | _ => True
  end.

(** The events of a computation are related to the change of the object by
    [R], whatever state it starts from and however it ends. *)
Definition links {X A} (R : X -> list event -> X -> Prop)
           (m : M (X * World) A) : Prop :=
  forall x w r x' w',
    m (x, w) = (r, (x', w')) ->
    exists new, trace w' = trace w ++ new /\ R x new x'.

(** An event that is neither a request to the API nor a wait. *)
Definition calm (e : event) : Prop := is_api_request e = false /\ not_sleep e.

(** A stretch of a run without a request to the API and without a wait,
    which leaves the counter of API calls and the retry settings alone. *)
Definition quiet_step (a : ClaudeAutomation.state) (new : list event)
           (a' : ClaudeAutomation.state) : Prop :=
  api_requests new = 0%nat
  /\ sleeps new = []
  /\ ClaudeAutomation.api_calls (ClaudeAutomation.the_metrics a')
     = ClaudeAutomation.api_calls (ClaudeAutomation.the_metrics a)
  /\ ClaudeAutomation.max_retries a' = ClaudeAutomation.max_retries a
  /\ ClaudeAutomation.retry_delay a' = ClaudeAutomation.retry_delay a.

(** ** Vocabulary of the statements about what a run leaves alone *)

(** The answers of the environment are the same in two worlds: a program
    changes counters, stores and the trace only. *)
Definition same_oracles (w w' : World) : Prop :=
  clock w' = clock w /\ uuids w' = uuids w /\ fault w' = fault w
  /\ embedding_service w' = embedding_service w
  /\ pinecone_nearest w' = pinecone_nearest w
  /\ anthropic w' = anthropic w.

(** Every run of a computation takes the state it starts from to a state
    related to it by [R], however it ends. *)
Definition moves {X A} (R : X * World -> X * World -> Prop)
           (m : M (X * World) A) : Prop :=
  forall s r s', m s = (r, s') -> R s s'.

Definition moves_w {A} (R : World -> World -> Prop) (m : M World A) : Prop :=
  forall w r w', m w = (r, w') -> R w w'.

(** A method of a helper object leaves the answers of the environment
    alone. *)
Definition world_kept {Y} (s s' : Y * World) : Prop := same_oracles s.2 s'.2.

(** A method of the cache manager also keeps its time-to-live. *)
Definition ttl_kept (s s' : CacheManager.state * World) : Prop :=
  same_oracles s.2 s'.2
  /\ CacheManager.cache_ttl s'.1 = CacheManager.cache_ttl s.1.

(** What every step of [process_data_with_claude] leaves alone: the answers
    of the environment, the client, the time-to-live of the cache, and the
    absence of persistent memory. *)
Definition kept (s s' : ClaudeAutomation.state * World) : Prop :=
  same_oracles s.2 s'.2
  /\ ClaudeAutomation.client s'.1 = ClaudeAutomation.client s.1
  /\ CacheManager.cache_ttl (ClaudeAutomation.cache_manager s'.1)
     = CacheManager.cache_ttl (ClaudeAutomation.cache_manager s.1)
  /\ (ClaudeAutomation.persistent_memory s.1 = None ->
      ClaudeAutomation.persistent_memory s'.1 = None).

(** What the steps outside the cache manager leave alone: the cache manager
    as well. *)
Definition kept_cache (s s' : ClaudeAutomation.state * World) : Prop :=
  kept s s'
  /\ ClaudeAutomation.cache_manager s'.1 = ClaudeAutomation.cache_manager s.1.

(** The counters of hits, misses and errors and the number of recorded
    latencies are the same. *)
Definition same_counters (s s' : ClaudeAutomation.state * World) : Prop :=
  ClaudeAutomation.cache_hits (ClaudeAutomation.the_metrics s'.1)
  = ClaudeAutomation.cache_hits (ClaudeAutomation.the_metrics s.1)
  /\ ClaudeAutomation.cache_misses (ClaudeAutomation.the_metrics s'.1)
     = ClaudeAutomation.cache_misses (ClaudeAutomation.the_metrics s.1)
  /\ ClaudeAutomation.errors (ClaudeAutomation.the_metrics s'.1)
     = ClaudeAutomation.errors (ClaudeAutomation.the_metrics s.1)
  /\ length (ClaudeAutomation.latency (ClaudeAutomation.the_metrics s'.1))
     = length (ClaudeAutomation.latency (ClaudeAutomation.the_metrics s.1)).

(** One more hit and one more latency, nothing else. *)
Definition one_hit (s s' : ClaudeAutomation.state * World) : Prop :=
  ClaudeAutomation.cache_hits (ClaudeAutomation.the_metrics s'.1)
  = ClaudeAutomation.cache_hits (ClaudeAutomation.the_metrics s.1) + 1
  /\ ClaudeAutomation.cache_misses (ClaudeAutomation.the_metrics s'.1)
     = ClaudeAutomation.cache_misses (ClaudeAutomation.the_metrics s.1)
  /\ ClaudeAutomation.errors (ClaudeAutomation.the_metrics s'.1)
     = ClaudeAutomation.errors (ClaudeAutomation.the_metrics s.1)
  /\ length (ClaudeAutomation.latency (ClaudeAutomation.the_metrics s'.1))
     = S (length (ClaudeAutomation.latency (ClaudeAutomation.the_metrics s.1))).

(** One more latency, nothing else. *)
Definition one_latency (s s' : ClaudeAutomation.state * World) : Prop :=
  ClaudeAutomation.cache_hits (ClaudeAutomation.the_metrics s'.1)
  = ClaudeAutomation.cache_hits (ClaudeAutomation.the_metrics s.1)
  /\ ClaudeAutomation.cache_misses (ClaudeAutomation.the_metrics s'.1)
     = ClaudeAutomation.cache_misses (ClaudeAutomation.the_metrics s.1)
  /\ ClaudeAutomation.errors (ClaudeAutomation.the_metrics s'.1)
     = ClaudeAutomation.errors (ClaudeAutomation.the_metrics s.1)
  /\ length (ClaudeAutomation.latency (ClaudeAutomation.the_metrics s'.1))
     = S (length (ClaudeAutomation.latency (ClaudeAutomation.the_metrics s.1))).

(** One more error, nothing else. *)
Definition one_error (s s' : ClaudeAutomation.state * World) : Prop :=
  ClaudeAutomation.cache_hits (ClaudeAutomation.the_metrics s'.1)
  = ClaudeAutomation.cache_hits (ClaudeAutomation.the_metrics s.1)
  /\ ClaudeAutomation.cache_misses (ClaudeAutomation.the_metrics s'.1)
     = ClaudeAutomation.cache_misses (ClaudeAutomation.the_metrics s.1)
  /\ ClaudeAutomation.errors (ClaudeAutomation.the_metrics s'.1)
     = ClaudeAutomation.errors (ClaudeAutomation.the_metrics s.1) + 1
  /\ length (ClaudeAutomation.latency (ClaudeAutomation.the_metrics s'.1))
     = length (ClaudeAutomation.latency (ClaudeAutomation.the_metrics s.1)).

(** ** Concrete states for the examples of this part *)

(** The automation of the examples in another pilot mode. *)
Definition in_mode (mode : string) (a : ClaudeAutomation.state)
  : ClaudeAutomation.state :=
  ClaudeAutomation.mk (ClaudeAutomation.client a)
    (ClaudeAutomation.cache_manager a) (py mode)
    (ClaudeAutomation.the_metrics a) (ClaudeAutomation.s2do_governance a)
    (ClaudeAutomation.persistent_memory a)
    (ClaudeAutomation.semantic_modeling a) (ClaudeAutomation.model a)
    (ClaudeAutomation.max_retries a) (ClaudeAutomation.retry_delay a)
    (ClaudeAutomation.max_tokens a) (ClaudeAutomation.temperature a)
    (ClaudeAutomation.auto_enrichment a).

(** The automation of the examples without persistent memory. *)
Definition memoryless_automation : ClaudeAutomation.state :=
  ClaudeAutomation.set_persistent_memory None demo_automation.

(** A world in which no time passes between two readings of the clock. *)
Definition frozen_world : World :=
  mkWorld (fun _ => 1700000000%float) 0
          (fun n => py "3f2c8a0e-5b1d-4c7e-9a6f-0d2b4e6a8c10") 0
          healthy 0 ∅ ∅
          (fun _ => Some [1%float]) (fun _ => [])
          (fun _ => demo_reply) [].

(** The answer of the API to the request of the examples, as the
    automation returns and caches it. *)
Definition demo_answer : pyval :=
  ClaudeAutomation.response_dict_of demo_reply (py "hello").

(** A first run on that automation, which the API answers. *)
Definition first_run
  : result pyval * (ClaudeAutomation.state * World) :=
  ClaudeAutomation.process_data_with_claude
    (ClaudeAutomation.DataStr (py "summarize: X"))
    (memoryless_automation, frozen_world).

(** The cache key of the prompt of the examples. *)
Definition demo_key : pystr := py (MD5.hexdigest (bytes_of "summarize: X")).

(** A manager that starts after a restart, on the standard lookup path. *)
Definition restarted_manager : CacheManager.state :=
  CacheManager.__init__ true 86400%float false false.

(** ** Vocabulary of the statements about the requests of the cache *)

(** A request of [get]: a read or a delete of the cache collection, sent
    only with Firebase enabled. *)
Definition lookup_or_delete (cm : CacheManager.state) (e : event) : Prop :=
  match e with
  | FirestoreGet _ | FirestoreQuery _ | FirestoreDelete _ =>
      CacheManager.firebase_enabled cm = true
  | _ => False
  end.

(** A request of [set] for a key: the write of the document of that name,
    sent only with Firebase enabled. *)
Definition write_of (cm : CacheManager.state) (key : pystr) (e : event)
  : Prop :=
  match e with
  | FirestoreSet id _ => id = key /\ CacheManager.firebase_enabled cm = true
  | _ => False
  end.

(** ** Concrete states for the examples about persistent memory *)

Definition demo_memory : PersistentMemoryManager.state :=
  PersistentMemoryManager.mk true true.

(** One entry stored under the key "prompt_x". *)
Definition demo_store
  : result bool * (PersistentMemoryManager.state * World) :=
  PersistentMemoryManager.store_memory (py "prompt_x") demo_value
    [ ("response", demo_value); ("model", PyStr (py "claude")) ]%string
    (demo_memory, demo_world healthy).

(** ** The embedding computed from hashes

    When no embedding service is configured, [_generate_embedding] builds
    the vector from SHA-256 hashes of the text. *)

(** [str(i)] of a natural number: its decimal digits. *)
Fixpoint digits (u : Decimal.uint) : pystr :=
  match u with
  | Decimal.Nil => []
  | Decimal.D0 u => 48%N :: digits u
  | Decimal.D1 u => 49%N :: digits u
  | Decimal.D2 u => 50%N :: digits u
  | Decimal.D3 u => 51%N :: digits u
  | Decimal.D4 u => 52%N :: digits u
  | Decimal.D5 u => 53%N :: digits u
  | Decimal.D6 u => 54%N :: digits u
  | Decimal.D7 u => 55%N :: digits u
  | Decimal.D8 u => 56%N :: digits u
  | Decimal.D9 u => 57%N :: digits u
  end.

Definition str_of_nat (i : nat) : pystr := digits (Nat.to_uint i).

(** The value of a hexadecimal digit. *)
Definition hex_value (c : ascii) : option Z :=
  let n := Z.of_N (N_of_ascii c) in
  if (48 <=? n) && (n <=? 57) then Some (n - 48)
  else if (97 <=? n) && (n <=? 102) then Some (n - 87)
  else if (65 <=? n) && (n <=? 70) then Some (n - 55)
  else None.

Fixpoint int16_from (acc : Z) (s : string) : option Z :=
  match s with
  | EmptyString => Some acc
  | String c rest =>
      match hex_value c with
      | Some d => int16_from (acc * 16 + d) rest
      | None => None
      end
  end.

(** [int(s, 16)] of a string of hexadecimal digits; [None] stands for
    [ValueError].  (Signs, blanks, underscores and the prefix "0x", which
    [int] reads as well, do not occur in a digest.) *)
Definition int16 (s : string) : option Z :=
  match s with
  | EmptyString => None
  | _ => int16_from 0 s
  end.

(** [(hash_value % 10000) / 10000 * 2 - 1] in binary64. *)
Definition normalized (r : Z) : float :=
  (PrimFloat.of_uint63 (Uint63.of_Z r) / 10000 * 2 - 1)%float.

(** One turn of the loop: the component for index [i], or [None] when a
    call raised. *)
Definition hash_component (text : pystr) (i : nat) : option float :=
  match Utf8.encode (text ++ py ":" ++ str_of_nat i) with
  | Ok encoded =>
      match int16 (SHA256.hexdigest encoded) with
      | Some hash_value => Some (normalized (hash_value mod 10000))
      | None => None
      end
  | Raise _ => None
  end.

(** [for i in range(...)] from [i] on, [n] turns left. *)
Fixpoint hash_loop (text : pystr) (i n : nat) (hash_embedding : list float)
  : option (list float) :=
  match n with
  | O => Some hash_embedding
  | S n' =>
      match hash_component text i with
      | Some normalized_value =>
          hash_loop text (S i) n' (hash_embedding ++ [normalized_value])
      | None => None
      end
  end.

(** The fallback of [_generate_embedding]: [None] is the answer of the
    [except] branch of the method. *)
Definition hash_embedding (vector_dimension : Z) (text : pystr)
  : option (list float) :=
  hash_loop text 0 (Z.to_nat vector_dimension) [].

(** At least -1 and below 1. *)
Definition in_range (x : float) : bool := ((-1 <=? x) && (x <? 1))%float.

(** ** Configuration

    The configuration is the dictionary that [json.load] returns: a
    dictionary of sections, each a dictionary of settings.  (A file whose
    top level or whose sections are not dictionaries is outside the
    model.) *)

(** A setting is a JSON value. *)
Abbreviation setting := pyval.

Abbreviation config_dict := (gmap string (gmap string setting)).

(** [bool(v)] of a setting. *)
Definition setting_truthy (v : setting) : bool := truthy v.

Definition cint (z : Z) : setting := PyInt z.
Definition cstr (s : string) : setting := PyStr (py s).
Definition cflag (b : bool) : setting := PyBool b.
Definition cnone : setting := PyNone.

(** [config[section][key] = v]: the section must exist. *)
Definition assign (section key : string) (v : setting) : M config_dict unit :=
  fun c => match c !! section with
           | Some s => (Ok tt, <[section := <[key := v]> s]> c)
           | None => (Raise (KeyError (py section)), c)
           end.

(** [section in config] *)
Definition has_section (section : string) : M config_dict bool :=
  gets (fun c => bool_decide (is_Some (c !! section))).

(** [config[section] = {...}] *)
Definition put_section (section : string) (s : gmap string setting)
  : M config_dict unit :=
  modify (fun c => <[section := s]> c).

(** *** The built-in [dict.get] *)

Module Dict.

(** What the configuration dictionary holds under a name, or the default
    that was passed. *)
Inductive value :=
| Section (s : gmap string setting)
| Plain (v : setting).

(** [d.get(key, *rest)]: the method of the built-in dictionary takes the
    key and at most one default; a call with more arguments raises before
    the dictionary is looked at. *)
Definition get (d : config_dict) (key : string) (rest : list setting)
  : result value :=
  match rest with
  | [] => Ok (match d !! key with Some s => Section s | None => Plain cnone end)
  | [default] =>
      Ok (match d !! key with Some s => Section s | None => Plain default end)
  | [_; _] => Raise (TypeError "get expected at most 2 arguments, got 3")
  | _ => Raise (TypeError "get expected at most 2 arguments")
  end.

End Dict.

(** *** The constructors that are handed the dictionary

    [S2DOGovernance.__init__], [PersistentMemoryManager.__init__] and
    [SemanticDataModeling.__init__] start by reading a setting with
    [config.get(section, key, default)], where [config] is the argument of
    the constructor.  [rest] is the remainder of the constructor: the
    statements that follow the first read, which get what it returned. *)

Definition S2DOGovernance__init__ {G} (config : config_dict)
           (rest : Dict.value -> M World G) : M World G :=
  blockchain_enabled <-
    lift_result (Dict.get config "blockchain" [cstr "enabled"; cflag false]) ;;
  rest blockchain_enabled.

Definition PersistentMemoryManager__init__ {P} (config : config_dict)
           (rest : Dict.value -> M World P) : M World P :=
  pinecone_enabled <-
    lift_result (Dict.get config "pinecone" [cstr "enabled"; cflag false]) ;;
  rest pinecone_enabled.

Definition SemanticDataModeling__init__ {P D} (config : config_dict)
           (persistent_memory : P)
           (rest : P -> Dict.value -> M World D) : M World D :=
  modeling_enabled <-
    lift_result
      (Dict.get config "semantic_modeling" [cstr "enabled"; cflag false]) ;;
  rest persistent_memory modeling_enabled.

Module ConfigurationManager.

(** The dictionary that [_load_config] returns when the file cannot be
    read or parsed. *)
Definition default_config : config_dict :=
  list_to_map
    [ ("automation",
       list_to_map [ ("interval", cint 300); ("cache_ttl", cint 86400);
                     ("pilot_mode", cstr "standard") ]);
      ("anthropic",
       list_to_map [ ("model", cstr "claude-3-sonnet-20240229");
                     ("timeout", cint 60); ("max_retries", cint 3);
                     ("retry_delay", cint 2); ("api_key", cnone);
                     ("max_tokens", cint 4096);
                     ("temperature", PyFloat 0.7%float) ]);
      ("firebase",
       list_to_map [ ("project_id", cstr "your-project-id");
                     ("collection", cstr "claude_cache");
                     ("enabled", cflag true);
                     ("service_account_file",
                      cstr "firebase_service_account.json") ]);
      ("firestore",
       list_to_map [ ("s2_persistence_enabled", cflag false);
                     ("q4d_lens_enabled", cflag false);
                     ("s2_database_url",
                      cstr "https://your-project-id.firebaseio.com");
                     ("s2_storage_bucket", cstr "your-project-id.appspot.com");
                     ("q4d_optimization_level", cstr "high");
                     ("q4d_shards", cint 4);
                     ("semantic_matching_enabled", cflag false);
                     ("semantic_similarity_threshold", PyFloat 0.85%float) ]);
      ("pilot_panel",
       list_to_map [ ("mode", cstr "standard"); ("ui_enabled", cflag true);
                     ("metrics_collection", cflag true);
                     ("telemetry_enabled", cflag false);
                     ("dashboard_refresh_rate", cint 60);
                     ("cost_tracking_enabled", cflag true) ]);
      ("governance",
       list_to_map [ ("enabled", cflag true); ("mode", cstr "standard");
                     ("audit_trail_enabled", cflag true);
                     ("compliance_rules_path", cstr "compliance_rules.json");
                     ("record_all_transactions", cflag true);
                     ("governance_retention_days", cint 90) ]);
      ("blockchain",
       list_to_map [ ("enabled", cflag false);
                     ("network", cstr "ethereum_testnet");
                     ("provider_url",
                      cstr "https://goerli.infura.io/v3/your-project-id");
                     ("contract_address", cnone); ("contract_abi", cnone);
                     ("wallet_private_key", cnone); ("gas_limit", cint 500000);
                     ("transaction_confirmation_blocks", cint 2) ]);
      ("pinecone",
       list_to_map [ ("enabled", cflag true); ("api_key", cnone);
                     ("environment", cstr "us-west1-gcp");
                     ("index_name", cstr "s2do-claude-memory");
                     ("vector_dimension", cint 1536); ("metric", cstr "cosine");
                     ("pod_type", cstr "p1.x1") ]);
      ("semantic_modeling",
       list_to_map [ ("enabled", cflag true);
                     ("collection", cstr "claude_data_models");
                     ("version_history", cflag true);
                     ("auto_enrichment", cflag false);
                     ("schema_validation", cflag true);
                     ("model_retention_days", cint 365);
                     ("model_backup_enabled", cflag true) ]);
      ("embedding_service",
       list_to_map [ ("url", cstr "https://api.openai.com/v1/embeddings");
                     ("api_key", cnone); ("model", cstr "text-embedding-3-small");
                     ("dimension", cint 1536); ("batch_size", cint 8) ])
    ]%string.

(** [_load_config]: [file] is the dictionary parsed from the file, or
    [None] when opening or parsing it raised. *)
Definition _load_config (file : option config_dict) : config_dict :=
  match file with
  | Some c => c
  | None => default_config
  end.

(** [get(section, key, default)] *)
Definition get (c : config_dict) (section key : string) (default : setting)
  : setting :=
  match c !! section with
  | Some s => match s !! key with
              | Some v => v
              | None => default
              end
  | None => default
  end.

(** The attributes of a configuration manager. *)
Record manager (G P D : Type) := Manager {
  config : config_dict;
  s2do_governance : option G;
  persistent_memory : option P;
  semantic_modeling : option D
}.
Arguments Manager {G P D} _ _ _ _.
Arguments config {G P D} _.
Arguments s2do_governance {G P D} _.
Arguments persistent_memory {G P D} _.
Arguments semantic_modeling {G P D} _.

(** [__init__]: the dictionary is loaded, then the three components are
    built from it when their sections enable them; [self.config], the
    dictionary itself, is what their constructors are given. *)
Definition __init__ {G P D} (file : option config_dict)
           (governance_rest : Dict.value -> M World G)
           (memory_rest : Dict.value -> M World P)
           (modeling_rest : P -> Dict.value -> M World D)
  : M World (manager G P D) :=
  let config := _load_config file in
  s2do_governance <-
    (if setting_truthy (get config "governance" "enabled" (cflag false)) then
       governance <- S2DOGovernance__init__ config governance_rest ;;
       ret (Some governance)
     else ret None) ;;
  memory_and_modeling <-
    (if setting_truthy (get config "pinecone" "enabled" (cflag false)) then
       persistent_memory <-
         PersistentMemoryManager__init__ config memory_rest ;;
       semantic_modeling <-
         (if setting_truthy
               (get config "semantic_modeling" "enabled" (cflag false)) then
            modeling <-
              SemanticDataModeling__init__ config persistent_memory
                                           modeling_rest ;;
            ret (Some modeling)
          else ret None) ;;
       ret (Some persistent_memory, semantic_modeling)
     else ret (None, None)) ;;
  ret (Manager config s2do_governance
               memory_and_modeling.1 memory_and_modeling.2).

End ConfigurationManager.

(** [ensure_firestore_config] *)
Definition ensure_firestore_config : M config_dict unit :=
  present <- has_section "firestore" ;;
  if present then ret tt
  else
    put_section "firestore"
      (list_to_map
         [ ("s2_persistence_enabled", cflag false);
           ("q4d_lens_enabled", cflag false);
           ("s2_database_url", cstr "https://your-project-id.firebaseio.com");
           ("s2_storage_bucket", cstr "your-project-id.appspot.com");
           ("q4d_optimization_level", cstr "high");
           ("q4d_shards", cint 4) ]%string).

(** [if "firestore" in config: config["firestore"][key] = True] *)
Definition assign_if_firestore (key : string) : M config_dict unit :=
  present <- has_section "firestore" ;;
  if present then assign "firestore" key (cflag true) else ret tt.

(** [configure_pilot_mode] of the Claude script. *)
Definition configure_pilot_mode (mode : pystr) : M config_dict unit :=
  present <- has_section "pilot_panel" ;;
  (if present then ret tt
   else
     put_section "pilot_panel"
       (list_to_map [ ("mode", cstr "standard"); ("ui_enabled", cflag true);
                      ("metrics_collection", cflag true) ]%string)) ;;
  assign "pilot_panel" "mode" (PyStr mode) ;;
  if bool_decide (mode = py "economy") then
    assign "automation" "cache_ttl" (cint 172800) ;;
    assign "firebase" "enabled" (cflag true) ;;
    assign "governance" "mode" (cstr "minimal") ;;
    assign "pinecone" "enabled" (cflag true) ;;
    assign_if_firestore "s2_persistence_enabled" ;;
    assign "anthropic" "model" (cstr "claude-3-haiku-20240307") ;;
    assign "anthropic" "max_tokens" (cint 1024)
  else if bool_decide (mode = py "performance") then
    assign "automation" "cache_ttl" (cint 43200) ;;
    assign "governance" "mode" (cstr "standard") ;;
    assign "pinecone" "enabled" (cflag true) ;;
    assign "anthropic" "model" (cstr "claude-3-opus-20240229") ;;
    assign "anthropic" "timeout" (cint 120) ;;
    assign "anthropic" "max_tokens" (cint 4096) ;;
    assign_if_firestore "q4d_lens_enabled" ;;
    assign "semantic_modeling" "enabled" (cflag true) ;;
    assign "semantic_modeling" "auto_enrichment" (cflag true)
  else if bool_decide (mode = py "maximum-cache") then
    assign "automation" "cache_ttl" (cint 604800) ;;
    assign "firebase" "enabled" (cflag true) ;;
    assign "governance" "mode" (cstr "minimal") ;;
    assign "pinecone" "enabled" (cflag true) ;;
    assign_if_firestore "s2_persistence_enabled" ;;
    assign_if_firestore "q4d_lens_enabled" ;;
    assign "semantic_modeling" "enabled" (cflag true) ;;
    assign "semantic_modeling" "auto_enrichment" (cflag false)
  else if bool_decide (mode = py "minimal-api") then
    assign "automation" "cache_ttl" (cint 1209600) ;;
    assign "firebase" "enabled" (cflag true) ;;
    assign "anthropic" "timeout" (cint 30) ;;
    assign "anthropic" "max_retries" (cint 2) ;;
    assign "governance" "mode" (cstr "minimal") ;;
    assign "pinecone" "enabled" (cflag true) ;;
    assign_if_firestore "s2_persistence_enabled" ;;
    assign "semantic_modeling" "enabled" (cflag true) ;;
    assign "semantic_modeling" "auto_enrichment" (cflag false)
  else if bool_decide (mode = py "governance") then
    assign "automation" "cache_ttl" (cint 86400) ;;
    assign "governance" "enabled" (cflag true) ;;
    assign "governance" "mode" (cstr "strict") ;;
    assign "governance" "audit_trail_enabled" (cflag true) ;;
    assign "governance" "record_all_transactions" (cflag true) ;;
    assign "blockchain" "enabled" (cflag true) ;;
    assign "pinecone" "enabled" (cflag true) ;;
    assign "semantic_modeling" "enabled" (cflag true) ;;
    assign "semantic_modeling" "auto_enrichment" (cflag true) ;;
    assign "semantic_modeling" "schema_validation" (cflag true)
  else
    assign "automation" "cache_ttl" (cint 86400) ;;
    assign "governance" "mode" (cstr "standard") ;;
    assign "pinecone" "enabled" (cflag true) ;;
    assign "anthropic" "model" (cstr "claude-3-sonnet-20240229").

(** The sections that a pilot mode writes to without creating them, in the
    order of the first write. *)
Definition required_sections (mode : pystr) : list string :=
  if bool_decide (mode = py "economy") then
    [ "automation"; "firebase"; "governance"; "pinecone"; "anthropic" ]%string
  else if bool_decide (mode = py "performance") then
    [ "automation"; "governance"; "pinecone"; "anthropic";
      "semantic_modeling" ]%string
  else if bool_decide (mode = py "maximum-cache") then
    [ "automation"; "firebase"; "governance"; "pinecone";
      "semantic_modeling" ]%string
  else if bool_decide (mode = py "minimal-api") then
    [ "automation"; "firebase"; "anthropic"; "governance"; "pinecone";
      "semantic_modeling" ]%string
  else if bool_decide (mode = py "governance") then
    [ "automation"; "governance"; "blockchain"; "pinecone";
      "semantic_modeling" ]%string
  else
    [ "automation"; "governance"; "pinecone"; "anthropic" ]%string.

(** The first of the sections that the configuration lacks. *)
Fixpoint first_missing (sections : list string) (c : config_dict)
  : option string :=
  match sections with
  | [] => None
  | s :: rest =>
      match c !! s with
      | Some _ => first_missing rest c
      | None => Some s
      end
  end.

(** The time-to-live that a pilot mode sets, in seconds. *)
Definition mode_ttl (mode : pystr) : Z :=
  if bool_decide (mode = py "economy") then 172800
  else if bool_decide (mode = py "performance") then 43200
  else if bool_decide (mode = py "maximum-cache") then 604800
  else if bool_decide (mode = py "minimal-api") then 1209600
  else 86400.

(** ** Vocabulary of the statements about the configuration *)

(** Every run of a computation on a state of type [S] takes the state to a
    state related to it by [R]. *)
Definition carries {S A} (R : S -> S -> Prop) (m : M S A) : Prop :=
  forall s r s', m s = (r, s') -> R s s'.

(** [config[section][key]], if both exist. *)
Definition setting_of (c : config_dict) (section key : string)
  : option setting :=
  match c !! section with
  | Some s => s !! key
  | None => None
  end.

(** No section and no setting is removed, and the section "firestore" is
    not created. *)
Definition grows (c c' : config_dict) : Prop :=
  (forall section, is_Some (c !! section) -> is_Some (c' !! section))
  /\ (forall section key,
         is_Some (setting_of c section key) ->
         is_Some (setting_of c' section key))
  /\ (c !! "firestore"%string = None -> c' !! "firestore"%string = None).

(** The fallback configuration in the economy mode. *)
Definition economy_configured : result unit * config_dict :=
  configure_pilot_mode (py "economy") ConfigurationManager.default_config.

(** ** The command line *)

(** ** [ClaudeAutomation.initialize_client]

    [environ_key] is [os.environ.get("ANTHROPIC_API_KEY")]; [new_client]
    is the constructor [Anthropic(api_key=...)] of the SDK. *)

Inductive initialized (C : Type) :=
| Client (client : C)
| ValueError (msg : string)
| Failed (e : exn).
Arguments Client {C} client.
Arguments ValueError {C} msg.
Arguments Failed {C} e.

(** The [except] branch logs and raises again, so the exception of the
    [try] block is the one of the method. *)
Definition initialize_client {C} (config : config_dict)
           (environ_key : option pystr) (new_client : setting -> result C)
  : initialized C :=
  let api_key :=
    ConfigurationManager.get config "anthropic" "api_key"
      (match environ_key with
       | Some k => PyStr k
       | None => cnone
       end) in
  if negb (setting_truthy api_key) then
    ValueError "Anthropic API key not provided"
  else
    match new_client api_key with
    | Ok client => Client client
    | Raise e => Failed e
    end.

(** The namespace that [parse_arguments] returns, without [config],
    [log_level] and [one_shot]. *)
Record arguments := Namespace {
  arg_mode : pystr;
  arg_interval : option Z;
  arg_no_cache : bool;
  arg_cache_ttl : option Z;
  arg_s2_persistence : bool;
  arg_q4d_lens : bool;
  arg_no_governance : bool;
  arg_governance_mode : option pystr;
  arg_blockchain : bool;
  arg_no_memory : bool;
  arg_semantic_modeling : bool;
  arg_auto_enrichment : bool;
  arg_model : option pystr;
  arg_max_tokens : option Z;
  arg_temperature : option float
}.

(** [if x is not None: config[section][key] = x] *)
Definition assign_given {A} (x : option A) (section key : string)
           (v : A -> setting) : M config_dict unit :=
  match x with
  | Some a => assign section key (v a)
  | None => ret tt
  end.

(** [if x: ...] for an optional string. *)
Definition given_str (x : option pystr) : option pystr :=
  match x with
  | Some (c :: s) => Some (c :: s)
  | _ => None
  end.

(** [if x: ...] for an optional integer: zero counts as absent. *)
Definition given_int (x : option Z) : option Z :=
  match x with
  | Some z => if z =? 0 then None else Some z
  | None => None
  end.

(** The part of [main] of the Claude script that prepares the
    configuration: the pilot mode first, then the options of the command
    line. *)
Definition main_configure (args : arguments) : M config_dict unit :=
  configure_pilot_mode (arg_mode args) ;;
  assign_given (arg_interval args) "automation" "interval" cint ;;
  (if arg_no_cache args then assign "firebase" "enabled" (cflag false)
   else ret tt) ;;
  assign_given (arg_cache_ttl args) "automation" "cache_ttl" cint ;;
  (if arg_s2_persistence args then
     ensure_firestore_config ;;
     assign "firestore" "s2_persistence_enabled" (cflag true)
   else ret tt) ;;
  (if arg_q4d_lens args then
     ensure_firestore_config ;;
     assign "firestore" "q4d_lens_enabled" (cflag true)
   else ret tt) ;;
  (if arg_no_governance args then assign "governance" "enabled" (cflag false)
   else
     match given_str (arg_governance_mode args) with
     | Some governance_mode =>
         assign "governance" "enabled" (cflag true) ;;
         assign "governance" "mode" (PyStr governance_mode)
     | None => ret tt
     end) ;;
  (if arg_blockchain args then assign "blockchain" "enabled" (cflag true)
   else ret tt) ;;
  (if arg_no_memory args then assign "pinecone" "enabled" (cflag false)
   else ret tt) ;;
  (if arg_semantic_modeling args then
     assign "semantic_modeling" "enabled" (cflag true) ;;
     if arg_auto_enrichment args then
       assign "semantic_modeling" "auto_enrichment" (cflag true)
     else ret tt
   else ret tt) ;;
  assign_given (given_str (arg_model args)) "anthropic" "model"
               PyStr ;;
  assign_given (given_int (arg_max_tokens args)) "anthropic" "max_tokens" cint ;;
  assign_given (arg_temperature args) "anthropic" "temperature" PyFloat.

(** The setting [config[section][key]] is the same in two
    configurations. *)
Definition same_setting (section key : string) (c c' : config_dict) : Prop :=
  setting_of c' section key = setting_of c section key.

(** The arguments of a run in the economy mode with a time-to-live of one
    hour, both Firestore options and no persistent memory. *)
Definition demo_arguments : arguments :=
  Namespace (py "economy") None false (Some 3600) true true false None false
            true false false None None None.

Definition demo_configured : result unit * config_dict :=
  main_configure demo_arguments ConfigurationManager.default_config.

(** ** [class SemanticDataModeling]

    The methods that work on stored models: [update_data_model],
    [enrich_model_with_semantic_data] and [find_similar_models].  (The
    identifier that [create_data_model] derives from the name of a model
    depends on the case tables of Unicode and is not modelled.) *)

(** [str(z)] of an integer. *)
Definition str_of_int (z : Z) : pystr :=
  match Z.to_int z with
  | Decimal.Pos u => digits u
  | Decimal.Neg u => 45%N :: digits u
  end.

(** [x + 1] of a number: an integer sum, or a binary64 sum. *)
Definition plus_one (x : number) : number :=
  match x with
  | Int z => Int (z + 1)
  | Float f => Float (f + 1)
  end.

(** A number as a value. *)
Definition of_number (x : number) : pyval :=
  match x with
  | Int z => PyInt z
  | Float f => PyFloat f
  end.

(** [v + 1]: an integer, a boolean counted as 0 or 1, or a float; anything
    else raises [TypeError]. *)
Definition add_one {S} (v : pyval) : M S number :=
  match v with
  | PyInt z => ret (plus_one (Int z))
  | PyBool b => ret (plus_one (Int (Z.b2z b)))
  | PyFloat f => ret (plus_one (Float f))
  | _ => raise (TypeError "unsupported operand type(s) for +")
  end.

(** [f"{v}"] of a value to which one can be added; [float_repr] is the
    text of a float. *)
Definition version_text (float_repr : float -> pystr) (v : pyval) : pystr :=
  match v with
  | PyInt z => str_of_int z
  | PyBool true => py "True"
  | PyBool false => py "False"
  | PyFloat f => float_repr f
  | _ => []
  end.

Module SemanticDataModeling.

(** [self.model_metrics] *)
Record metrics := mkMetrics {
  models_created : Z;
  models_updated : Z;
  model_queries : Z;
  semantic_operations : Z
}.

(** [firestore_client] says whether the handle was opened.  [models] and
    [history] are the two Firestore collections that the object writes to,
    [model_collection] and [model_collection + "_history"], by document
    id. *)
Record state := mk {
  modeling_enabled : bool;
  firestore_client : bool;
  model_version_history : bool;
  model_metrics : metrics;
  persistent_memory : PersistentMemoryManager.state;
  models : gmap pystr pydict;
  history : gmap pystr pydict
}.

Definition set_model_metrics (m : metrics) (s : state) : state :=
  mk (modeling_enabled s) (firestore_client s) (model_version_history s) m
     (persistent_memory s) (models s) (history s).
Definition set_persistent_memory (p : PersistentMemoryManager.state)
           (s : state) : state :=
  mk (modeling_enabled s) (firestore_client s) (model_version_history s)
     (model_metrics s) p (models s) (history s).
Definition set_models (d : gmap pystr pydict) (s : state) : state :=
  mk (modeling_enabled s) (firestore_client s) (model_version_history s)
     (model_metrics s) (persistent_memory s) d (history s).
Definition set_history (d : gmap pystr pydict) (s : state) : state :=
  mk (modeling_enabled s) (firestore_client s) (model_version_history s)
     (model_metrics s) (persistent_memory s) (models s) d.

(** [self.model_metrics[...] += 1] *)
Definition count (f : metrics -> metrics) : M (state * World) unit :=
  update_self (fun s => set_model_metrics (f (model_metrics s)) s).

Definition add_models_updated (m : metrics) : metrics :=
  mkMetrics (models_created m) (models_updated m + 1) (model_queries m)
            (semantic_operations m).
Definition add_model_queries (m : metrics) : metrics :=
  mkMetrics (models_created m) (models_updated m) (model_queries m + 1)
            (semantic_operations m).
Definition add_semantic_operations (m : metrics) : metrics :=
  mkMetrics (models_created m) (models_updated m) (model_queries m)
            (semantic_operations m + 1).

Definition on_persistent_memory {A}
           (m : M (PersistentMemoryManager.state * World) A)
  : M (state * World) A :=
  ClaudeAutomation.on persistent_memory set_persistent_memory m.

(** [model_ref.get()]: the data of the document when it exists. *)
Definition model_get (model_id : pystr) : M (state * World) (option pydict) :=
  in_world (rpc Firestore) ;;
  self (fun s => models s !! model_id).

(** [model_ref.update(fields)]: the fields are written into the document,
    which must exist. *)
Definition model_update (model_id : pystr) (fields : pydict)
  : M (state * World) unit :=
  in_world (rpc Firestore) ;;
  current <- self (fun s => models s !! model_id) ;;
  match current with
  | Some doc =>
      update_self
        (fun s => set_models (<[model_id := dict_update doc fields]> (models s)) s)
  | None => raise (BackendError Firestore 5)
  end.

(** [collection(...+"_history").document(doc_id).set(data)] *)
Definition history_set (doc_id : pystr) (data : pydict)
  : M (state * World) unit :=
  in_world (rpc Firestore) ;;
  update_self (fun s => set_history (<[doc_id := data]> (history s)) s).

(** [metadata or current_model.get("metadata", {})] *)
Definition metadata_or (metadata : option pydict) (current_model : pydict)
  : pyval :=
  match metadata with
  | Some (field :: fields) => PyDict (field :: fields)
  | _ => default (PyDict []) (dict_get "metadata" current_model)
  end.

Section Update.

(** [repr] of a float, the text that an f-string shows for it: the
    shortest decimal that reads back as the same float.  The model leaves
    it open. *)
Variable float_repr : float -> pystr.

Definition update_data_model (model_id : pystr) (model_definition : pydict)
           (metadata : option pydict) : M (state * World) bool :=
  off <- self (fun s => negb (modeling_enabled s) || negb (firestore_client s)) ;;
  if off then ret false
  else
    try_except
      (model_doc <- model_get model_id ;;
       match model_doc with
       | None => ret false
       | Some current_model =>
           let version := default (PyInt 1) (dict_get "version" current_model) in
           new_version <- add_one version ;;
           version_history <- self model_version_history ;;
           (if version_history then
              history_set
                (model_id ++ py "_v" ++ version_text float_repr version)
                [ ("model_id", PyStr model_id);
                  ("version", version);
                  ("definition",
                   default (PyDict []) (dict_get "definition" current_model));
                  ("metadata",
                   default (PyDict []) (dict_get "metadata" current_model));
                  ("timestamp",
                   default PyNone (dict_get "updated_at" current_model))
                ]%string
            else ret tt) ;;
           model_update model_id
             [ ("definition", PyDict model_definition);
               ("updated_at", CacheManager.SERVER_TIMESTAMP);
               ("version", of_number new_version);
               ("metadata", metadata_or metadata current_model) ]%string ;;
           on_persistent_memory
             (PersistentMemoryManager.store_memory
                (py "model_" ++ model_id) (PyDict model_definition)
                [ ("type", PyStr (py "data_model"));
                  ("name",
                   default (PyStr []) (dict_get "name" current_model));
                  ("id", PyStr model_id);
                  ("version", of_number new_version) ]%string) ;;
           count add_models_updated ;;
           ret true
       end)
      (fun _ => ret false).

End Update.

(** [if "semantic_enrichment" not in definition:
       definition["semantic_enrichment"] = []]
    and the list that is then found under the name.  Only a dictionary
    gets through: a string or a list fails at the subscript, the other
    values at [in]. *)
Definition enrichment_list {S} (definition : pyval)
  : M S (pydict * pyval) :=
  match definition with
  | PyDict d =>
      match dict_get "semantic_enrichment" d with
      | Some v => ret (d, v)
      | None => ret (dict_set "semantic_enrichment" (PyList []) d, PyList [])
      end
  | _ => raise (TypeError "not a dictionary")
  end.

(** [definition["semantic_enrichment"].append(semantic_data)] *)
Definition append_enrichment {S} (definition : pydict) (enrichment : pyval)
           (semantic_data : pydict) : M S pydict :=
  match enrichment with
  | PyList items =>
      ret (dict_set "semantic_enrichment"
                    (PyList (items ++ [PyDict semantic_data])) definition)
  | _ => raise (AttributeError "object has no attribute 'append'")
  end.

Section Enrich.

(** [datetime.isoformat] of the local time at a reading of the clock; the
    calendar is outside the model. *)
Variable isoformat : float -> pystr.

Definition enrich_model_with_semantic_data (model_id : pystr)
           (semantic_data : pydict) : M (state * World) bool :=
  off <- self (fun s => negb (modeling_enabled s) || negb (firestore_client s)) ;;
  if off then ret false
  else
    try_except
      (model_doc <- model_get model_id ;;
       match model_doc with
       | None => ret false
       | Some current_model =>
           found <-
             enrichment_list
               (default (PyDict []) (dict_get "definition" current_model)) ;;
           now <- in_world time_time ;;
           let semantic_data :=
             dict_set "timestamp" (PyStr (isoformat now)) semantic_data in
           definition <- append_enrichment found.1 found.2 semantic_data ;;
           model_update model_id
             [ ("definition", PyDict definition);
               ("updated_at", CacheManager.SERVER_TIMESTAMP) ]%string ;;
           count add_semantic_operations ;;
           ret true
       end)
      (fun _ => ret false).

End Enrich.

(** [result.get("metadata", {}).get("type") == "data_model"] *)
Definition is_data_model (result : scored_match) : bool :=
  match dict_get "type" (match_metadata result) with
  | Some (PyStr type) => bool_decide (type = py "data_model")
  | _ => false
  end.

Definition find_similar_models (query : pystr) (top_k : nat)
  : M (state * World) (list scored_match) :=
  count add_model_queries ;;
  count add_semantic_operations ;;
  results <-
    on_persistent_memory (PersistentMemoryManager.search_semantic query top_k) ;;
  ret (List.filter is_data_model results).

End SemanticDataModeling.

(** The version that a stored model carries, as a number: the field
    "version", 1 when the field is missing, nothing when one cannot be
    added to it. *)
Definition version_of (model : pydict) : option number :=
  match default (PyInt 1) (dict_get "version" model) with
  | PyInt z => Some (Int z)
  | PyBool b => Some (Int (Z.b2z b))
  | PyFloat f => Some (Float f)
  | _ => None
  end.

(** The fields that [update_data_model] writes. *)
Definition updated_field (field : string) : bool :=
  String.eqb field "definition" || String.eqb field "updated_at"
  || String.eqb field "version" || String.eqb field "metadata".

(** * Properties *)

(** ** The digests agree with [hashlib] on the usual test strings *)

Example md5_empty :
  MD5.hexdigest [] = "d41d8cd98f00b204e9800998ecf8427e"%string.
Proof. vm_compute. reflexivity. Qed.

Example md5_abc :
  MD5.hexdigest (bytes_of "abc") = "900150983cd24fb0d6963f7d28e17f72"%string.
Proof. vm_compute. reflexivity. Qed.

Example md5_two_blocks :
  MD5.hexdigest
    (bytes_of "12345678901234567890123456789012345678901234567890123456789012345678901234567890")
  = "57edf4a22be3c955ac49da2e2107b67a"%string.
Proof. vm_compute. reflexivity. Qed.

Example sha256_abc :
  SHA256.hexdigest (bytes_of "abc")
  = "ba7816bf8f01cfea414140de5dae2223b00361a396177a9cb410ff61f20015ad"%string.
Proof. vm_compute. reflexivity. Qed.

Example sha256_two_blocks :
  SHA256.hexdigest
    (bytes_of "12345678901234567890123456789012345678901234567890123456789012345678901234567890")
  = "f371bc4a311f2b009eef952dd83ca80e2b60026c8e935592d0f9c308453c813e"%string.
Proof. vm_compute. reflexivity. Qed.

Example sha256_K0 : nth 0 SHA256.K 0 = 0x428a2f98 /\ nth 63 SHA256.K 0 = 0xc67178f2.
Proof. split; reflexivity. Qed.

(** "é€😀" encodes to c3 a9 e2 82 ac f0 9f 98 80. *)
Example utf8_multibyte :
  Utf8.encode [0xE9; 0x20AC; 0x1F600]%N
  = Ok [xc3; xa9; xe2; x82; xac; xf0; x9f; x98; x80].
Proof. vm_compute. reflexivity. Qed.

(** ** Key derivation *)

Lemma le_bytes_length n x : length (Bytes.le_bytes n x) = n.
Proof. unfold Bytes.le_bytes. rewrite length_map, length_seq. reflexivity. Qed.

Lemma md5_digest_length msg : length (MD5.digest msg) = 16%nat.
Proof.
  unfold MD5.digest. cbv zeta.
  rewrite !length_app, !le_bytes_length. reflexivity.
Qed.

Lemma hex_length bs : String.length (Bytes.hex bs) = (2 * length bs)%nat.
Proof.
  induction bs as [|b bs IH]; [reflexivity|].
  cbn [Bytes.hex String.length length]. rewrite IH. lia.
Qed.

Lemma py_length s : length (py s) = String.length s.
Proof. unfold py. rewrite length_map. induction s; simpl; auto. Qed.

Lemma hex_digit_is_hex n : is_hex (N_of_ascii (Bytes.hex_digit n)) = true.
Proof.
  unfold Bytes.hex_digit.
  generalize (N.to_nat n) as k. intros k.
  do 16 (destruct k as [|k]; [reflexivity|]).
  simpl. destruct k; reflexivity.
Qed.

Lemma hex_is_hex bs : Forall (fun c => is_hex c = true) (py (Bytes.hex bs)).
Proof.
  induction bs as [|b bs IH]; [constructor|].
  cbn [Bytes.hex]. unfold py. cbn [list_ascii_of_string map].
  constructor; [apply hex_digit_is_hex|].
  constructor; [apply hex_digit_is_hex|]. exact IH.
Qed.

(** C7, as amended.  The cache key is a function of the payload alone (no
    state of the manager or of the world enters it): the MD5 digest of the
    UTF-8 bytes of the prompt, 16 bytes (128 bits), written as 32 lowercase
    hexadecimal digits; a prompt that does not encode gives the encoder's
    exception instead.  MD5 is not collision resistant. *)
Theorem generate_cache_key_is_md5_hexdigest (prompt : pystr) :
  match Utf8.encode prompt with
  | Ok bs =>
      CacheManager._generate_cache_key prompt = Ok (py (MD5.hexdigest bs))
      /\ length (MD5.digest bs) = 16%nat
      /\ length (py (MD5.hexdigest bs)) = 32%nat
      /\ Forall (fun c => is_hex c = true) (py (MD5.hexdigest bs))
  | Raise e => CacheManager._generate_cache_key prompt = Raise e
  end.
Proof.
  unfold CacheManager._generate_cache_key.
  destruct (Utf8.encode prompt) as [bs|e]; [|reflexivity].
  split; [reflexivity|]. split; [apply md5_digest_length|].
  unfold MD5.hexdigest. split; [|apply hex_is_hex].
  rewrite py_length, hex_length, md5_digest_length. reflexivity.
Qed.

(** C7 as stated does not hold: the digest is MD5, for which collisions are
    known.  Two different ASCII prompts of 72 characters get the same cache
    key. *)
Lemma md5_cache_key_collision :
  py "TEXTCOLLBYfGiJUETHQ4hAcKSMd5zYpgqf1YRDhkmxHkhPWptrkoyz28wnI9V0aHeAuaKnak"
  <> py "TEXTCOLLBYfGiJUETHQ4hEcKSMd5zYpgqf1YRDhkmxHkhPWptrkoyz28wnI9V0aHeAuaKnak"
  /\ CacheManager._generate_cache_key
       (py "TEXTCOLLBYfGiJUETHQ4hAcKSMd5zYpgqf1YRDhkmxHkhPWptrkoyz28wnI9V0aHeAuaKnak")
     = Ok (py "faad49866e9498fc1719f5289e7a0269")
  /\ CacheManager._generate_cache_key
       (py "TEXTCOLLBYfGiJUETHQ4hEcKSMd5zYpgqf1YRDhkmxHkhPWptrkoyz28wnI9V0aHeAuaKnak")
     = Ok (py "faad49866e9498fc1719f5289e7a0269").
Proof.
  split; [|split].
  - intros Heq. vm_compute in Heq. discriminate Heq.
  - vm_compute. reflexivity.
  - vm_compute. reflexivity.
Qed.

Lemma encode_from_cases (s : pystr) : forall pos,
  (Forall (fun c => Utf8.is_surrogate c = false) s
   /\ exists bs, Utf8.encode_from pos s = Ok bs)
  \/ (exists i c,
        s !! i = Some c /\ Utf8.is_surrogate c = true
        /\ Forall (fun c => Utf8.is_surrogate c = false) (take i s)
        /\ Utf8.encode_from pos s = Raise (UnicodeEncodeError (pos + i) c)).
Proof.
  induction s as [|c s IH]; intros pos.
  - left. split; [constructor|]. eexists. reflexivity.
  - cbn [Utf8.encode_from].
    destruct (Utf8.is_surrogate c) eqn:Hc.
    + right. exists 0%nat, c. repeat split; try assumption.
      * constructor.
      * rewrite Nat.add_0_r. reflexivity.
    + destruct (IH (S pos)) as [[Hall [bs Hbs]] | (i & c' & Hi & Hc' & Hpre & Hr)].
      * left. split; [constructor; assumption|].
        rewrite Hbs. eexists. reflexivity.
      * right. exists (S i), c'. repeat split; try assumption.
        -- cbn [take]. constructor; assumption.
        -- rewrite Hr. f_equal. f_equal. lia.
Qed.

(** C8, as amended.  Key derivation has no handler of its own: it returns a
    key exactly for the prompts without surrogate code points, and for any
    other prompt the [UnicodeEncodeError] of [str.encode], at the first
    surrogate, leaves [_generate_cache_key], and [get] and [set] with it,
    before they touch the cache. *)
Theorem generate_cache_key_total_or_unicode_error (prompt : pystr) :
  (Forall (fun c => Utf8.is_surrogate c = false) prompt
   /\ exists key, CacheManager._generate_cache_key prompt = Ok key)
  \/ (exists pos c,
        prompt !! pos = Some c /\ Utf8.is_surrogate c = true
        /\ Forall (fun c => Utf8.is_surrogate c = false) (take pos prompt)
        /\ CacheManager._generate_cache_key prompt
           = Raise (UnicodeEncodeError pos c)
        /\ (forall cm w,
              CacheManager.get prompt (cm, w)
              = (Raise (UnicodeEncodeError pos c), (cm, w)))
        /\ (forall response cm w,
              CacheManager.set prompt response (cm, w)
              = (Raise (UnicodeEncodeError pos c), (cm, w)))).
Proof.
  unfold CacheManager._generate_cache_key, Utf8.encode.
  destruct (encode_from_cases prompt 0)
    as [[Hall [bs Hbs]] | (i & c & Hi & Hc & Hpre & Hr)].
  - left. split; [assumption|]. rewrite Hbs. eexists. reflexivity.
  - right. exists i, c. cbn [Nat.add] in Hr.
    repeat split; try assumption.
    + rewrite Hr. reflexivity.
    + intros cm w. unfold CacheManager.get, bind, lift_result,
        CacheManager._generate_cache_key, Utf8.encode.
      rewrite Hr. reflexivity.
    + intros response cm w. unfold CacheManager.set, bind, lift_result,
        CacheManager._generate_cache_key, Utf8.encode.
      rewrite Hr. reflexivity.
Qed.

(** C8 as stated does not hold: for the one-character prompt U+D800 the
    exception of the encoder escapes, and no [InvalidPayload] exists. *)
Lemma generate_cache_key_lone_surrogate :
  CacheManager._generate_cache_key [0xD800%N]
  = Raise (UnicodeEncodeError 0 0xD800).
Proof. reflexivity. Qed.

(** ** Equations of the cache operations

    Each operation, run on a state, is one case analysis on what the
    dictionaries and the services hold. *)

Lemma check_memory_cache_eq key t cm w :
  CacheManager.check_memory_cache key t (cm, w) =
  match CacheManager.memory_cache cm !! key with
  | None => (Ok None, (cm, w))
  | Some v =>
      match CacheManager.memory_cache_expiry cm !! key with
      | None => (Raise (KeyError key), (cm, w))
      | Some e => if number_gt e t then (Ok (Some v), (cm, w))
                  else (Ok None, (evict key cm, w))
      end
  end.
Proof.
  unfold CacheManager.check_memory_cache, bind, self, ret, raise.
  destruct (CacheManager.memory_cache cm !! key) as [v|] eqn:Hv; [|reflexivity].
  destruct (CacheManager.memory_cache_expiry cm !! key) as [e|] eqn:He; [|reflexivity].
  destruct (number_gt e t); [reflexivity|].
  unfold CacheManager.del_memory_cache, CacheManager.del_memory_cache_expiry,
    bind, self, update_self, ret, raise.
  rewrite Hv. cbn. rewrite He. reflexivity.
Qed.

Lemma document_get_eq id w :
  document_get id w =
  match fault w (rpcs w) with
  | Some code => (Raise (BackendError Firestore code), sent (FirestoreGet id) w)
  | None => (Ok (firestore_docs w !! id), sent (FirestoreGet id) w)
  end.
Proof.
  unfold document_get, bind, emit, modify, rpc, gets, sent. cbn.
  destruct (fault w (rpcs w)); reflexivity.
Qed.

Lemma query_hash_key_eq key w :
  query_hash_key key w =
  match fault w (rpcs w) with
  | Some code => (Raise (BackendError Firestore code), sent (FirestoreQuery key) w)
  | None =>
      (Ok (first_by_name
             (filter (fun kv => hash_key_is key kv.2 = true) (firestore_docs w))),
       sent (FirestoreQuery key) w)
  end.
Proof.
  unfold query_hash_key, bind, emit, modify, rpc, gets, sent. cbn.
  destruct (fault w (rpcs w)); reflexivity.
Qed.

Lemma document_delete_eq id w :
  document_delete id w =
  match fault w (rpcs w) with
  | Some code => (Raise (BackendError Firestore code), sent (FirestoreDelete id) w)
  | None =>
      (Ok tt, set_firestore_docs (delete id (firestore_docs w))
                (sent (FirestoreDelete id) w))
  end.
Proof.
  unfold document_delete, bind, emit, modify, rpc, gets, sent. cbn.
  destruct (fault w (rpcs w)); reflexivity.
Qed.

Lemma transaction_set_eq id data w :
  transaction_set id data w =
  match fault w (rpcs w) with
  | Some code => (Raise (BackendError Firestore code), sent (FirestoreSet id data) w)
  | None =>
      (Ok tt, set_firestore_docs (<[id := data]> (firestore_docs w))
                (sent (FirestoreSet id data) w))
  end.
Proof.
  unfold transaction_set, bind, emit, modify, rpc, gets, sent. cbn.
  destruct (fault w (rpcs w)); reflexivity.
Qed.

Lemma use_document_eq key t data del cm w :
  CacheManager.use_document key t data del (cm, w) =
  match expiry_of data with
  | None => (Raise (TypeError "'>' not supported between these types"), (cm, w))
  | Some e =>
      if number_gt e t then
        match dict_get "response" data with
        | Some r => (Ok (Some r), (populate key r e cm, w))
        | None => (Raise (KeyError (py "response")), (cm, w))
        end
      else
        match del w with
        | (Ok _, w') => (Ok None, (cm, w'))
        | (Raise x, w') => (Raise x, (cm, w'))
        end
  end.
Proof.
  unfold CacheManager.use_document, expiry_of, bind, as_number, item, ret, raise,
    update_self, in_world, populate.
  destruct (default (PyInt 0) (dict_get "expiry" data)) as [| b | z | f | | |];
    try reflexivity.
  - destruct (number_gt (Int (Z.b2z b)) t).
    + destruct (dict_get "response" data); reflexivity.
    + destruct (del w) as [[[]|x] w']; reflexivity.
  - destruct (number_gt (Int z) t).
    + destruct (dict_get "response" data); reflexivity.
    + destruct (del w) as [[[]|x] w']; reflexivity.
  - destruct (number_gt (Float f) t).
    + destruct (dict_get "response" data); reflexivity.
    + destruct (del w) as [[[]|x] w']; reflexivity.
Qed.

(** The lookup through the Q4D lens stops at [optimize_query_lens]. *)
Lemma check_firebase_cache_eq key t cm w :
  CacheManager.check_firebase_cache key t (cm, w) =
  if CacheManager.q4d_lens_enabled cm then
    (Raise (AttributeError
              "'Query' object has no attribute 'optimize_query_lens'"),
     (cm, w))
  else
    match document_get key w with
    | (Ok (Some data), w1) =>
        CacheManager.use_document key t data (document_delete key) (cm, w1)
    | (Ok None, w1) => (Ok None, (cm, w1))
    | (Raise e, w1) => (Raise e, (cm, w1))
    end.
Proof.
  unfold CacheManager.check_firebase_cache, bind, self, in_world, ret.
  destruct (CacheManager.q4d_lens_enabled cm).
  - reflexivity.
  - destruct (document_get key w) as [[[data|]|e] w1]; reflexivity.
Qed.

Lemma get_eq prompt cm w :
  CacheManager.get prompt (cm, w) =
  match CacheManager._generate_cache_key prompt with
  | Raise e => (Raise e, (cm, w))
  | Ok key =>
      let t := clock w (clock_reads w) in
      match CacheManager.check_memory_cache key t (cm, ticked w) with
      | (Ok (Some v), s) => (Ok (Some v), s)
      | (Ok None, (cm1, w1)) =>
          if CacheManager.firebase_enabled cm1 then
            match CacheManager.check_firebase_cache key t (cm1, w1) with
            | (Ok r, s) => (Ok r, s)
            | (Raise _, s) => (Ok None, s)
            end
          else (Ok None, (cm1, w1))
      | (Raise e, s) => (Raise e, s)
      end
  end.
Proof.
  unfold CacheManager.get, bind, lift_result, in_world, time_time, ticked.
  destruct (CacheManager._generate_cache_key prompt) as [key|e]; [|reflexivity].
  cbv zeta.
  destruct (CacheManager.check_memory_cache _ _ _) as [[[v|]|e] [cm1 w1]];
    try reflexivity.
  unfold self, try_except, ret.
  destruct (CacheManager.firebase_enabled cm1); [|reflexivity].
  destruct (CacheManager.check_firebase_cache _ _ _) as [[r|e] s]; reflexivity.
Qed.

Lemma set_eq prompt response cm w :
  CacheManager.set prompt response (cm, w) =
  match CacheManager._generate_cache_key prompt with
  | Raise e => (Raise e, (cm, w))
  | Ok key =>
      let expiry :=
        (clock w (clock_reads w) + CacheManager.cache_ttl cm)%float in
      let cm1 := populate key response (Float expiry) cm in
      if CacheManager.firebase_enabled cm then
        (Ok tt,
         (cm1,
          (transaction_set key
             (CacheManager.cache_data prompt response expiry key
                (CacheManager.s2_persistence_enabled cm)) (ticked w)).2))
      else (Ok tt, (cm1, ticked w))
  end.
Proof.
  unfold CacheManager.set, bind, lift_result, in_world, time_time, ticked,
    self, update_self, try_except, ret, populate,
    CacheManager.set_memory_cache_expiry, CacheManager.set_memory_cache.
  destruct (CacheManager._generate_cache_key prompt) as [key|e]; [|reflexivity].
  cbn -[transaction_set PrimFloat.add].
  destruct (CacheManager.firebase_enabled cm); [|reflexivity].
  cbn [CacheManager.s2_persistence_enabled].
  match goal with |- context [transaction_set ?a ?b ?c] =>
    destruct (transaction_set a b c) as [[[]|e] w1] end; reflexivity.
Qed.

Lemma same_keys_evict key cm : same_keys cm -> same_keys (evict key cm).
Proof.
  unfold same_keys, evict. cbn. intros H. rewrite !dom_delete_L, H. reflexivity.
Qed.

Lemma same_keys_populate key r e cm : same_keys cm -> same_keys (populate key r e cm).
Proof.
  unfold same_keys, populate. cbn. intros H. rewrite !dom_insert_L, H. reflexivity.
Qed.

Lemma same_keys_lookup key v cm :
  same_keys cm -> CacheManager.memory_cache cm !! key = Some v ->
  exists e, CacheManager.memory_cache_expiry cm !! key = Some e.
Proof.
  unfold same_keys. intros H Hv.
  assert (Hin : key ∈ dom (CacheManager.memory_cache cm)) by (apply elem_of_dom; eauto).
  rewrite H in Hin. apply elem_of_dom in Hin. destruct Hin as [e He]. eauto.
Qed.

Ltac branch :=
  match goal with
  | |- context [match ?x with _ => _ end] =>
      lazymatch x with
      | context [match _ with _ => _ end] => fail
      | _ => destruct x eqn:?
      end
  end.

Ltac run_cache :=
  repeat first
    [ rewrite check_memory_cache_eq
    | rewrite check_firebase_cache_eq
    | rewrite use_document_eq
    | rewrite document_get_eq
    | rewrite query_hash_key_eq
    | rewrite document_delete_eq
    | rewrite transaction_set_eq
    | progress cbv zeta
    | progress cbn [fst snd]
    | branch ].

Lemma generate_cache_key_raise prompt e :
  CacheManager._generate_cache_key prompt = Raise e ->
  exists pos c, e = UnicodeEncodeError pos c.
Proof.
  unfold CacheManager._generate_cache_key, Utf8.encode.
  destruct (encode_from_cases prompt 0)
    as [[_ [bs Hbs]] | (i & c & _ & _ & _ & Hr)].
  - rewrite Hbs. discriminate.
  - rewrite Hr. intros [= <-]. eauto.
Qed.

(** C10.  [memory_cache] and [memory_cache_expiry] have the same keys after
    [__init__], and [get] and [set] keep it so whatever the services do:
    every path inserts into both or deletes from both.  With it, the expiry
    lookup of [get] finds its key: [get] never raises [KeyError]. *)
Theorem fast_tier_dictionaries_share_keys
        (cm : CacheManager.state) (w : World) (prompt : pystr) (response : pyval) :
  same_keys cm ->
  same_keys (CacheManager.get prompt (cm, w)).2.1
  /\ same_keys (CacheManager.set prompt response (cm, w)).2.1
  /\ (forall k, (CacheManager.get prompt (cm, w)).1 <> Raise (KeyError k))
  /\ (forall ok ttl s2 q4d, same_keys (CacheManager.__init__ ok ttl s2 q4d)).
Proof.
  intros H. repeat split.
  - rewrite get_eq. run_cache; simplify_eq; cbn [fst snd];
      auto using same_keys_evict, same_keys_populate.
  - rewrite set_eq. run_cache; simplify_eq; cbn [fst snd];
      auto using same_keys_evict, same_keys_populate.
  - intros k. rewrite get_eq. run_cache; simplify_eq; cbn [fst snd]; try discriminate.
    + match goal with
      | Hv : CacheManager.memory_cache _ !! _ = Some _ |- _ =>
          destruct (same_keys_lookup _ _ _ H Hv); congruence
      end.
    + match goal with
      | Hr : CacheManager._generate_cache_key _ = Raise _ |- _ =>
          destruct (generate_cache_key_raise _ _ Hr) as (pos & c & ->)
      end. discriminate.
Qed.

Lemma fast_tier_dictionaries_share_keys_witness :
  let key := py (MD5.hexdigest (bytes_of "summarize: X")) in
  let a := CacheManager.set (py "summarize: X") demo_value
             (short_lived_manager, shared_world) in
  let b := CacheManager.set (py "summarize: X") other_value
             (demo_manager false, a.2.2) in
  let live := CacheManager.get (py "summarize: X") (a.2.1, a.2.2) in
  let late := CacheManager.get (py "summarize: X") (a.2.1, b.2.2) in
  (same_keys a.2.1
   /\ CacheManager.memory_cache a.2.1 !! key = Some demo_value
   /\ CacheManager.memory_cache_expiry a.2.1 !! key = Some (Float 1700000010))
  /\ (live.1 = Ok (Some demo_value) /\ same_keys live.2.1)
  /\ (late.1 = Ok (Some other_value)
      /\ same_keys late.2.1
      /\ CacheManager.memory_cache late.2.1 !! key = Some other_value
      /\ CacheManager.memory_cache_expiry late.2.1 !! key
         = Some (Float 1700086406)
      /\ forall k, late.1 <> Raise (KeyError k)).
Proof.
  cbv zeta.
  assert (Hset : same_keys
            (CacheManager.set (py "summarize: X") demo_value
               (short_lived_manager, shared_world)).2.1).
  { exact (proj1 (proj2 (fast_tier_dictionaries_share_keys
                           short_lived_manager shared_world
                           (py "summarize: X") demo_value eq_refl))). }
  split; [|split].
  - split; [exact Hset|]. vm_compute. split; reflexivity.
  - split; [vm_compute; reflexivity|].
    exact (proj1 (fast_tier_dictionaries_share_keys
                    (CacheManager.set (py "summarize: X") demo_value
                       (short_lived_manager, shared_world)).2.1
                    (CacheManager.set (py "summarize: X") demo_value
                       (short_lived_manager, shared_world)).2.2
                    (py "summarize: X") demo_value Hset)).
  - split; [vm_compute; reflexivity|].
    destruct (fast_tier_dictionaries_share_keys
                (CacheManager.set (py "summarize: X") demo_value
                   (short_lived_manager, shared_world)).2.1
                (CacheManager.set (py "summarize: X") other_value
                   (demo_manager false,
                    (CacheManager.set (py "summarize: X") demo_value
                       (short_lived_manager, shared_world)).2.2)).2.2
                (py "summarize: X") demo_value Hset)
      as (Hkeys & _ & Hraise & _).
    split; [exact Hkeys|].
    split; [vm_compute; reflexivity|].
    split; [vm_compute; reflexivity|].
    exact Hraise.
Defined.

(** ** Write-through and degradation *)


Lemma populate_lookup key r e cm :
  CacheManager.memory_cache (populate key r e cm) !! key = Some r
  /\ CacheManager.memory_cache_expiry (populate key r e cm) !! key = Some e.
Proof. unfold populate. cbn. rewrite !lookup_insert_eq. auto. Qed.


(** A [get] whose clock reading is below the expiry in the fast tier returns
    the entry and sends nothing. *)
Lemma get_live_entry prompt key v e cm w :
  CacheManager._generate_cache_key prompt = Ok key ->
  CacheManager.memory_cache cm !! key = Some v ->
  CacheManager.memory_cache_expiry cm !! key = Some e ->
  number_gt e (clock w (clock_reads w)) = true ->
  CacheManager.get prompt (cm, w) = (Ok (Some v), (cm, ticked w)).
Proof.
  intros Hkey Hv He Ht. rewrite get_eq, Hkey. cbv zeta.
  rewrite check_memory_cache_eq. cbn [fst snd]. rewrite Hv, He, Ht. reflexivity.
Qed.









(** ** Expiry *)




(** ** The two Firestore lookup paths *)

(** With the Q4D lens on, the lookup in Firestore raises before it sends
    anything, whatever the collection holds; [get] catches it. *)
Lemma q4d_lookup_raises key t cm w :
  CacheManager.q4d_lens_enabled cm = true ->
  CacheManager.check_firebase_cache key t (cm, w)
  = (Raise (AttributeError
              "'Query' object has no attribute 'optimize_query_lens'"),
     (cm, w)).
Proof. intros Hq. rewrite check_firebase_cache_eq, Hq. reflexivity. Qed.

Lemma q4d_get_misses prompt key cm w :
  CacheManager._generate_cache_key prompt = Ok key ->
  CacheManager.firebase_enabled cm = true ->
  CacheManager.q4d_lens_enabled cm = true ->
  CacheManager.memory_cache cm !! key = None ->
  CacheManager.get prompt (cm, w) = (Ok None, (cm, ticked w)).
Proof.
  intros Hkey Hfb Hq Hmiss. rewrite get_eq, Hkey. cbv zeta.
  rewrite check_memory_cache_eq, Hmiss, Hfb, (q4d_lookup_raises _ _ _ _ Hq).
  reflexivity.
Qed.

(** C6.  The two lookup paths do not agree, as the code stands.  On the
    collection that [set] has written to, a manager with an empty fast
    tier finds the live document on the standard path and returns its
    response; the same manager with the Q4D lens on returns [None] and
    sends no request, because [optimize_query_lens] raises
    [AttributeError] inside the [try] of [get]. *)
Lemma q4d_lookup_misses_document_written_by_set :
  let key := py (MD5.hexdigest (bytes_of "summarize: X")) in
  let standard :=
    CacheManager.get (py "summarize: X")
      (with_q4d false (demo_manager false), world_after_set) in
  let q4d :=
    CacheManager.get (py "summarize: X")
      (with_q4d true (demo_manager false), world_after_set) in
  (exists data,
      firestore_docs world_after_set !! key = Some data
      /\ dict_get "hash_key" data = Some (PyStr key)
      /\ dict_get "response" data = Some demo_value
      /\ expiry_of data = Some (Float 1700086400)
      /\ clock world_after_set (clock_reads world_after_set)
         = 1700000001%float)
  /\ CacheManager.check_firebase_cache key 1700000001
       (with_q4d true (demo_manager false), ticked world_after_set)
     = (Raise (AttributeError
                 "'Query' object has no attribute 'optimize_query_lens'"),
        (with_q4d true (demo_manager false), ticked world_after_set))
  /\ standard.1 = Ok (Some demo_value)
  /\ map event_kind
         (drop (length (trace world_after_set)) (trace standard.2.2))
     = ["firestore.get"]%string
  /\ q4d.1 = Ok None
  /\ trace q4d.2.2 = trace world_after_set.
Proof.
  cbv zeta. split.
  - eexists. vm_compute. repeat split.
  - split; [apply q4d_lookup_raises; reflexivity|].
    vm_compute. repeat split.
Qed.

(** ** What a computation sends *)

Section Only.
Context {X : Type} (phi : event -> Prop).

Lemma only_ret {A} (a : A) : only phi (ret (S := X * World) a).
Proof.
  intros x w r x' w' [= <- <- <-]. exists []. rewrite app_nil_r. auto.
Qed.

Lemma only_raise {A} e : only phi (raise (S := X * World) (A := A) e).
Proof.
  intros x w r x' w' [= <- <- <-]. exists []. rewrite app_nil_r. auto.
Qed.

Lemma only_lift_result {A} (v : result A) : only phi (lift_result (S := X * World) v).
Proof.
  intros x w r x' w' [= <- <- <-]. exists []. rewrite app_nil_r. auto.
Qed.

Lemma only_self {A} (f : X -> A) : only phi (self f).
Proof.
  intros x w r x' w' [= <- <- <-]. exists []. rewrite app_nil_r. auto.
Qed.

Lemma only_update_self (f : X -> X) : only phi (update_self f).
Proof.
  intros x w r x' w' [= <- <- <-]. exists []. rewrite app_nil_r. auto.
Qed.

Lemma only_bind {A B} (m : M (X * World) A) (f : A -> M (X * World) B) :
  only phi m -> (forall a, only phi (f a)) -> only phi (bind m f).
Proof.
  intros Hm Hf x w r x' w' Hrun. unfold bind in Hrun.
  destruct (m (x, w)) as [[a|e] [x1 w1]] eqn:Hm1.
  - destruct (Hm _ _ _ _ _ Hm1) as (n1 & Ht1 & Hn1).
    destruct (Hf a _ _ _ _ _ Hrun) as (n2 & Ht2 & Hn2).
    exists (n1 ++ n2). rewrite Ht2, Ht1, app_assoc.
    split; [reflexivity|]. apply Forall_app; auto.
  - injection Hrun as <- <- <-. eauto.
Qed.

Lemma only_try_except {A} (m : M (X * World) A) (h : exn -> M (X * World) A) :
  only phi m -> (forall e, only phi (h e)) -> only phi (try_except m h).
Proof.
  intros Hm Hh x w r x' w' Hrun. unfold try_except in Hrun.
  destruct (m (x, w)) as [[a|e] [x1 w1]] eqn:Hm1.
  - injection Hrun as <- <- <-. eauto.
  - destruct (Hm _ _ _ _ _ Hm1) as (n1 & Ht1 & Hn1).
    destruct (Hh e _ _ _ _ _ Hrun) as (n2 & Ht2 & Hn2).
    exists (n1 ++ n2). rewrite Ht2, Ht1, app_assoc.
    split; [reflexivity|]. apply Forall_app; auto.
Qed.

Lemma only_in_world {A} (m : M World A) :
  only_w phi m -> only phi (in_world (X := X) m).
Proof.
  intros Hm x w r x' w' Hrun. unfold in_world in Hrun.
  destruct (m w) as [r1 w1] eqn:Hm1. injection Hrun as <- <- <-. eauto.
Qed.

End Only.

Lemma only_on {X Y A} phi (getter : X -> Y) (setter : Y -> X -> X)
      (m : M (Y * World) A) :
  only phi m -> only phi (ClaudeAutomation.on getter setter m).
Proof.
  intros Hm x w r x' w' Hrun. unfold ClaudeAutomation.on in Hrun.
  destruct (m (getter x, w)) as [r1 [y1 w1]] eqn:Hm1.
  injection Hrun as <- <- <-. eauto.
Qed.

Section OnlyWorld.
Context (phi : event -> Prop).

Lemma only_w_quiet {A} (m : M World A) :
  (forall w, trace (m w).2 = trace w) -> only_w phi m.
Proof.
  intros Hq w r w' Hrun. exists []. rewrite app_nil_r.
  specialize (Hq w). rewrite Hrun in Hq. auto.
Qed.

Lemma only_w_bind {A B} (m : M World A) (f : A -> M World B) :
  only_w phi m -> (forall a, only_w phi (f a)) -> only_w phi (bind m f).
Proof.
  intros Hm Hf w r w' Hrun. unfold bind in Hrun.
  destruct (m w) as [[a|e] w1] eqn:Hm1.
  - destruct (Hm _ _ _ Hm1) as (n1 & Ht1 & Hn1).
    destruct (Hf a _ _ _ Hrun) as (n2 & Ht2 & Hn2).
    exists (n1 ++ n2). rewrite Ht2, Ht1, app_assoc.
    split; [reflexivity|]. apply Forall_app; auto.
  - injection Hrun as <- <-. eauto.
Qed.

Lemma only_w_emit e : phi e -> only_w phi (emit e).
Proof.
  intros He w r w' [= <- <-]. exists [e]. split; [reflexivity|].
  constructor; auto.
Qed.

Lemma only_w_time_time : only_w phi time_time.
Proof. apply only_w_quiet. reflexivity. Qed.

Lemma only_w_uuid4 : only_w phi uuid4.
Proof. apply only_w_quiet. reflexivity. Qed.

Lemma only_w_rpc svc : only_w phi (rpc svc).
Proof.
  apply only_w_quiet. intros w. unfold rpc.
  destruct (fault w (rpcs w)); reflexivity.
Qed.

Lemma only_w_gets {A} (f : World -> A) : only_w phi (gets f).
Proof. apply only_w_quiet. reflexivity. Qed.

(** One request: the event, the round trip, then a change of the stores
    or a reading of them. *)
Lemma only_w_request {A} e svc (k : M World A) :
  phi e -> (forall w, trace (k w).2 = trace w) ->
  only_w phi (bind (emit e) (fun _ => bind (rpc svc) (fun _ => k))).
Proof.
  intros He Hk. apply only_w_bind; [apply only_w_emit; exact He|].
  intros _. apply only_w_bind; [apply only_w_rpc|].
  intros _. apply only_w_quiet. exact Hk.
Qed.

Lemma only_w_document_get id : phi (FirestoreGet id) -> only_w phi (document_get id).
Proof. intros H. apply only_w_request; [exact H|reflexivity]. Qed.

Lemma only_w_query_hash_key k :
  phi (FirestoreQuery k) -> only_w phi (query_hash_key k).
Proof. intros H. apply only_w_request; [exact H|reflexivity]. Qed.

Lemma only_w_document_delete id :
  phi (FirestoreDelete id) -> only_w phi (document_delete id).
Proof. intros H. apply only_w_request; [exact H|reflexivity]. Qed.

Lemma only_w_transaction_set id data :
  phi (FirestoreSet id data) -> only_w phi (transaction_set id data).
Proof. intros H. apply only_w_request; [exact H|reflexivity]. Qed.

Lemma only_w_index_fetch k : phi (PineconeFetch k) -> only_w phi (index_fetch k).
Proof. intros H. apply only_w_request; [exact H|reflexivity]. Qed.

Lemma only_w_index_query v n :
  phi (PineconeQuery v n) -> only_w phi (index_query v n).
Proof. intros H. apply only_w_request; [exact H|reflexivity]. Qed.

Lemma only_w_index_upsert k v md :
  phi (PineconeUpsert k v md) -> only_w phi (index_upsert k v md).
Proof. intros H. apply only_w_request; [exact H|reflexivity]. Qed.

Lemma only_w_optimize_query_lens lens : only_w phi (optimize_query_lens lens).
Proof. apply only_w_quiet. reflexivity. Qed.

Lemma only_w_messages_create model messages temperature limit :
  phi (MessagesCreate model messages temperature limit) ->
  only_w phi (ClaudeAutomation.messages_create model messages temperature limit).
Proof. intros H. apply only_w_request; [exact H|reflexivity]. Qed.

End OnlyWorld.

(** One step of the descent into a computation; the leaves are the events
    themselves. *)
Ltac only_step :=
  lazymatch goal with
  | |- only _ (bind _ _) => apply only_bind; [|intros ?]
  | |- only _ (try_except _ _) => apply only_try_except; [|intros ?]
  | |- only _ (ret _) => apply only_ret
  | |- only _ (raise _) => apply only_raise
  | |- only _ (lift_result _) => apply only_lift_result
  | |- only _ (self _) => apply only_self
  | |- only _ (update_self _) => apply only_update_self
  | |- only _ (in_world _) => apply only_in_world
  | |- only _ (ClaudeAutomation.on _ _ _) => apply only_on
  | |- only _ (as_number ?v) => destruct v; unfold as_number
  | |- only _ (item _ _) => unfold item
  | |- only _ (match ?x with _ => _ end) => destruct x
  | |- only_w _ (bind _ _) => apply only_w_bind; [|intros ?]
  | |- only_w _ (emit _) => apply only_w_emit
  | |- only_w _ time_time => apply only_w_time_time
  | |- only_w _ uuid4 => apply only_w_uuid4
  | |- only_w _ (document_get _) => apply only_w_document_get
  | |- only_w _ (optimize_query_lens _) => apply only_w_optimize_query_lens
  | |- only_w _ (query_hash_key _) => apply only_w_query_hash_key
  | |- only_w _ (document_delete _) => apply only_w_document_delete
  | |- only_w _ (transaction_set _ _) => apply only_w_transaction_set
  | |- only_w _ (index_fetch _) => apply only_w_index_fetch
  | |- only_w _ (index_query _ _) => apply only_w_index_query
  | |- only_w _ (index_upsert _ _ _) => apply only_w_index_upsert
  | |- only_w _ (ClaudeAutomation.messages_create _ _ _ _) =>
      apply only_w_messages_create
  | |- only_w _ (rpc _) => apply only_w_rpc
  | |- only_w _ (gets _) => apply only_w_gets
  | |- only_w _ (ret _) => apply only_w_quiet; reflexivity
  end.

Ltac only_descent := repeat only_step.

Ltac unfold_methods :=
  unfold ClaudeAutomation.check_persistent_memory,
    ClaudeAutomation.try_semantic_search, ClaudeAutomation.memory_hit,
    ClaudeAutomation.semantic_hit,
    ClaudeAutomation.check_standard_cache,
    ClaudeAutomation.attempt_body, ClaudeAutomation.send_request,
    ClaudeAutomation.store_in_persistent_memory,
    ClaudeAutomation.record_request, ClaudeAutomation.governance_record,
    ClaudeAutomation.on_persistent_memory, ClaudeAutomation.on_cache_manager,
    ClaudeAutomation.record_latency, ClaudeAutomation.count,
    S2DOGovernance.record_transaction, S2DOGovernance._add_to_audit_trail,
    PersistentMemoryManager.retrieve_by_key,
    PersistentMemoryManager.search_semantic,
    PersistentMemoryManager.store_memory,
    PersistentMemoryManager._generate_embedding,
    CacheManager.get, CacheManager.set, CacheManager.check_memory_cache,
    CacheManager.del_memory_cache, CacheManager.del_memory_cache_expiry,
    CacheManager.check_firebase_cache, CacheManager.use_document.

Ltac unfold_methods_in H :=
  unfold ClaudeAutomation.check_persistent_memory,
    ClaudeAutomation.try_semantic_search, ClaudeAutomation.memory_hit,
    ClaudeAutomation.semantic_hit,
    ClaudeAutomation.check_standard_cache,
    ClaudeAutomation.attempt_body, ClaudeAutomation.send_request,
    ClaudeAutomation.store_in_persistent_memory,
    ClaudeAutomation.record_request, ClaudeAutomation.governance_record,
    ClaudeAutomation.on_persistent_memory, ClaudeAutomation.on_cache_manager,
    ClaudeAutomation.record_latency, ClaudeAutomation.count,
    S2DOGovernance.record_transaction, S2DOGovernance._add_to_audit_trail,
    PersistentMemoryManager.retrieve_by_key,
    PersistentMemoryManager.search_semantic,
    PersistentMemoryManager.store_memory,
    PersistentMemoryManager._generate_embedding,
    CacheManager.get, CacheManager.set, CacheManager.check_memory_cache,
    CacheManager.del_memory_cache, CacheManager.del_memory_cache_expiry,
    CacheManager.check_firebase_cache, CacheManager.use_document in H.

Ltac allowed :=
  cbn; first [ exact I | split; [discriminate | reflexivity] ].

Ltac only_all := unfold_methods; only_descent; allowed.

(** The look into persistent memory sends nothing to Firestore. *)
Lemma check_persistent_memory_no_firestore prompt tid start :
  only not_firestore_request
       (ClaudeAutomation.check_persistent_memory prompt tid start).
Proof. only_all. Qed.

(** After the look into persistent memory, no similarity query is sent. *)
Lemma check_standard_cache_no_similarity prompt tid start :
  only not_similarity_query
       (ClaudeAutomation.check_standard_cache prompt tid start).
Proof. only_all. Qed.

Lemma attempt_body_no_similarity data prompt tid start model :
  only not_similarity_query
       (ClaudeAutomation.attempt_body data prompt tid start model).
Proof. only_all. Qed.

Lemma attempts_no_similarity remaining : forall attempt data prompt tid start
                                                model retries delay,
  only not_similarity_query
       (ClaudeAutomation.attempts remaining attempt data prompt tid start
                                  model retries delay).
Proof.
  induction remaining as [|n IH]; intros; cbn [ClaudeAutomation.attempts].
  - apply only_ret.
  - apply only_try_except; [apply attempt_body_no_similarity|].
    intros e. destruct (attempt <? retries).
    + apply only_bind; [only_all|]. intros _.
      apply only_bind; [only_all|]. intros _. apply IH.
    + only_all.
Qed.

(** Every audit record of the hit-or-compute phase refers to the
    transaction id of the request and is not a request record. *)
Lemma check_persistent_memory_follows prompt tid start :
  only (follows_request tid)
       (ClaudeAutomation.check_persistent_memory prompt tid start).
Proof. only_all. Qed.

Lemma check_standard_cache_follows prompt tid start :
  only (follows_request tid)
       (ClaudeAutomation.check_standard_cache prompt tid start).
Proof. only_all. Qed.

Lemma attempt_body_follows data prompt tid start model :
  only (follows_request tid)
       (ClaudeAutomation.attempt_body data prompt tid start model).
Proof. only_all. Qed.

Lemma attempts_follow remaining : forall attempt data prompt tid start model
                                         retries delay,
  only (follows_request tid)
       (ClaudeAutomation.attempts remaining attempt data prompt tid start
                                  model retries delay).
Proof.
  induction remaining as [|n IH]; intros; cbn [ClaudeAutomation.attempts].
  - apply only_ret.
  - apply only_try_except; [apply attempt_body_follows|].
    intros e. destruct (attempt <? retries).
    + apply only_bind; [only_all|]. intros _.
      apply only_bind; [only_all|]. intros _. apply IH.
    + only_all.
Qed.

Ltac unfold_monad_in H :=
  unfold bind, ret, raise, try_except, gets, modify, lift_result, in_world,
    self, update_self, emit, time_time, uuid4, rpc, ClaudeAutomation.on in H.

Ltac branch_in H :=
  match type of H with
  | context [match ?x with _ => _ end] =>
      lazymatch x with
      | context [match _ with _ => _ end] => fail
      | _ => destruct x eqn:?
      end
  end.

(** The phases of [process_data_with_claude] on a state. *)
Lemma process_data_with_claude_eq data au w :
  ClaudeAutomation.process_data_with_claude data (au, w) =
  let prompt := ClaudeAutomation.prompt_of data in
  let start_time := clock w (clock_reads w) in
  let transaction_id := uuids w (uuid_draws w) in
  let w0 := set_uuid_draws (S (uuid_draws w)) (ticked w) in
  if negb (ClaudeAutomation.client au) then
    (Raise (RuntimeError "Claude client not initialized"), (au, ticked w))
  else
    match ClaudeAutomation.record_request prompt (au, w0) with
    | (Raise e, s) => (Raise e, s)
    | (Ok _, s1) =>
        match ClaudeAutomation.check_persistent_memory
                prompt transaction_id start_time s1 with
        | (Raise e, s) => (Raise e, s)
        | (Ok (Some response), s2) => (Ok response, s2)
        | (Ok None, s2) =>
            match ClaudeAutomation.check_standard_cache
                    prompt transaction_id start_time s2 with
            | (Raise e, s) => (Raise e, s)
            | (Ok (Some cached), s3) => (Ok cached, s3)
            | (Ok None, (au3, w3)) =>
                ClaudeAutomation.attempts
                  (Z.to_nat (ClaudeAutomation.max_retries au3 + 1)) 0 data
                  prompt transaction_id start_time
                  (ClaudeAutomation.model au3)
                  (ClaudeAutomation.max_retries au3)
                  (ClaudeAutomation.retry_delay au3)
                  (ClaudeAutomation.set_metrics
                     (ClaudeAutomation.add_cache_misses
                        (ClaudeAutomation.the_metrics au3)) au3, w3)
            end
        end
    end.
Proof.
  unfold ClaudeAutomation.process_data_with_claude.
  unfold bind at 1 2. unfold in_world at 1, time_time, self at 1.
  cbv zeta. fold (ticked w).
  destruct (negb (ClaudeAutomation.client au)); [reflexivity|].
  unfold bind at 1 2. unfold in_world at 1, uuid4. cbn [uuids uuid_draws ticked set_clock_reads].
  destruct (ClaudeAutomation.record_request _ _) as [[[]|e] s1]; [|reflexivity].
  unfold bind at 1.
  destruct (ClaudeAutomation.check_persistent_memory _ _ _ s1)
    as [[[response|]|e] s2]; try reflexivity.
  unfold bind at 1.
  destruct (ClaudeAutomation.check_standard_cache _ _ _ s2)
    as [[[cached|]|e] [au3 w3]]; try reflexivity.
Qed.

Section Keeps.
Context {X : Type} (inv : X -> Prop) (phi : event -> Prop).

Lemma keeps_ret {A} (a : A) : keeps inv phi (ret a).
Proof.
  intros x w r x' w' Hx [= <- <- <-]. split; [exact Hx|].
  exists []. rewrite app_nil_r. auto.
Qed.

Lemma keeps_raise {A} e : keeps inv phi (raise (A := A) e).
Proof.
  intros x w r x' w' Hx [= <- <- <-]. split; [exact Hx|].
  exists []. rewrite app_nil_r. auto.
Qed.

Lemma keeps_lift_result {A} (v : result A) : keeps inv phi (lift_result v).
Proof.
  intros x w r x' w' Hx [= <- <- <-]. split; [exact Hx|].
  exists []. rewrite app_nil_r. auto.
Qed.

Lemma keeps_self {A} (f : X -> A) : keeps inv phi (self f).
Proof.
  intros x w r x' w' Hx [= <- <- <-]. split; [exact Hx|].
  exists []. rewrite app_nil_r. auto.
Qed.

Lemma keeps_update_self (f : X -> X) :
  (forall x, inv x -> inv (f x)) -> keeps inv phi (update_self f).
Proof.
  intros Hf x w r x' w' Hx [= <- <- <-]. split; [auto|].
  exists []. rewrite app_nil_r. auto.
Qed.

Lemma keeps_bind {A B} (m : M (X * World) A) (f : A -> M (X * World) B) :
  keeps inv phi m -> (forall a, keeps inv phi (f a)) -> keeps inv phi (bind m f).
Proof.
  intros Hm Hf x w r x' w' Hx Hrun. unfold bind in Hrun.
  destruct (m (x, w)) as [[a|e] [x1 w1]] eqn:Hm1.
  - destruct (Hm _ _ _ _ _ Hx Hm1) as (Hx1 & n1 & Ht1 & Hn1).
    destruct (Hf a _ _ _ _ _ Hx1 Hrun) as (Hx2 & n2 & Ht2 & Hn2).
    split; [exact Hx2|].
    exists (n1 ++ n2). rewrite Ht2, Ht1, app_assoc.
    split; [reflexivity|]. apply Forall_app; auto.
  - injection Hrun as <- <- <-. eauto.
Qed.

Lemma keeps_try_except {A} (m : M (X * World) A) (h : exn -> M (X * World) A) :
  keeps inv phi m -> (forall e, keeps inv phi (h e)) ->
  keeps inv phi (try_except m h).
Proof.
  intros Hm Hh x w r x' w' Hx Hrun. unfold try_except in Hrun.
  destruct (m (x, w)) as [[a|e] [x1 w1]] eqn:Hm1.
  - injection Hrun as <- <- <-. eauto.
  - destruct (Hm _ _ _ _ _ Hx Hm1) as (Hx1 & n1 & Ht1 & Hn1).
    destruct (Hh e _ _ _ _ _ Hx1 Hrun) as (Hx2 & n2 & Ht2 & Hn2).
    split; [exact Hx2|].
    exists (n1 ++ n2). rewrite Ht2, Ht1, app_assoc.
    split; [reflexivity|]. apply Forall_app; auto.
Qed.

Lemma keeps_in_world {A} (m : M World A) :
  only_w phi m -> keeps inv phi (in_world m).
Proof.
  intros Hm x w r x' w' Hx Hrun. unfold in_world in Hrun.
  destruct (m w) as [r1 w1] eqn:Hm1. injection Hrun as <- <- <-.
  split; [exact Hx|]. eauto.
Qed.

Lemma keeps_on {Y A} (getter : X -> Y) (setter : Y -> X -> X)
      (m : M (Y * World) A) :
  only phi m -> (forall y x, inv x -> inv (setter y x)) ->
  keeps inv phi (ClaudeAutomation.on getter setter m).
Proof.
  intros Hm Hset x w r x' w' Hx Hrun. unfold ClaudeAutomation.on in Hrun.
  destruct (m (getter x, w)) as [r1 [y1 w1]] eqn:Hm1.
  injection Hrun as <- <- <-. split; [auto|]. eauto.
Qed.

End Keeps.

(** Without an audit trail, a call of the governance hook writes no audit
    record and leaves the automation without an audit trail. *)
Lemma governance_record_without_audit ty data :
  keeps (fun a => audit_on a = false) not_audit_record
        (ClaudeAutomation.governance_record ty data).
Proof.
  intros au w r au' w' Hoff H.
  unfold audit_on in *.
  unfold_methods_in H. unfold_monad_in H. cbn in H.
  destruct (ClaudeAutomation.s2do_governance au) as [g|] eqn:Hg.
  - rewrite Hoff in H. cbn in H.
    repeat (branch_in H; cbn in H); simplify_eq; cbn; rewrite ?Hoff.
    all: split; [reflexivity|].
    all: first [ exists []; rewrite app_nil_r; split; [reflexivity|constructor]
               | eexists; split; [reflexivity|]; repeat constructor ].
  - simplify_eq. rewrite Hg. split; [reflexivity|].
    exists []. rewrite app_nil_r. split; [reflexivity|constructor].
Qed.

Ltac keeps_step :=
  lazymatch goal with
  | |- keeps _ _ (ClaudeAutomation.governance_record _ _) =>
      apply governance_record_without_audit
  | |- keeps _ _ (bind _ _) => apply keeps_bind; [|intros ?]
  | |- keeps _ _ (try_except _ _) => apply keeps_try_except; [|intros ?]
  | |- keeps _ _ (ret _) => apply keeps_ret
  | |- keeps _ _ (raise _) => apply keeps_raise
  | |- keeps _ _ (lift_result _) => apply keeps_lift_result
  | |- keeps _ _ (self _) => apply keeps_self
  | |- keeps _ _ (update_self _) =>
      apply keeps_update_self; intros ? ?; assumption
  | |- keeps _ _ (in_world _) => apply keeps_in_world
  | |- keeps _ _ (ClaudeAutomation.on _ _ _) =>
      apply keeps_on; [|intros ? ? ?; assumption]
  | |- keeps _ _ (match ?x with _ => _ end) => destruct x
  end.

Ltac unfold_automation :=
  unfold ClaudeAutomation.check_persistent_memory,
    ClaudeAutomation.try_semantic_search, ClaudeAutomation.memory_hit,
    ClaudeAutomation.semantic_hit,
    ClaudeAutomation.check_standard_cache,
    ClaudeAutomation.attempt_body, ClaudeAutomation.send_request,
    ClaudeAutomation.store_in_persistent_memory,
    ClaudeAutomation.on_persistent_memory, ClaudeAutomation.on_cache_manager,
    ClaudeAutomation.record_latency, ClaudeAutomation.count.

Ltac keeps_all :=
  unfold_automation; repeat keeps_step; only_all.

Lemma check_persistent_memory_without_audit prompt tid start :
  keeps (fun a => audit_on a = false) not_audit_record
        (ClaudeAutomation.check_persistent_memory prompt tid start).
Proof. keeps_all. Qed.

Lemma check_standard_cache_without_audit prompt tid start :
  keeps (fun a => audit_on a = false) not_audit_record
        (ClaudeAutomation.check_standard_cache prompt tid start).
Proof. keeps_all. Qed.

Lemma attempt_body_without_audit data prompt tid start model :
  keeps (fun a => audit_on a = false) not_audit_record
        (ClaudeAutomation.attempt_body data prompt tid start model).
Proof. keeps_all. Qed.

Lemma attempts_without_audit remaining : forall attempt data prompt tid start
                                                model retries delay,
  keeps (fun a => audit_on a = false) not_audit_record
        (ClaudeAutomation.attempts remaining attempt data prompt tid start
                                   model retries delay).
Proof.
  induction remaining as [|n IH]; intros; cbn [ClaudeAutomation.attempts].
  - apply keeps_ret.
  - apply keeps_try_except; [apply attempt_body_without_audit|].
    intros e. destruct (attempt <? retries).
    + apply keeps_bind; [keeps_all|]. intros _.
      apply keeps_bind; [keeps_all|]. intros _. apply IH.
    + keeps_all.
Qed.

Lemma audit_records_app a b :
  audit_records (a ++ b) = audit_records a ++ audit_records b.
Proof. apply omap_app. Qed.

Lemma audit_records_none l : Forall not_audit_record l -> audit_records l = [].
Proof.
  induction 1 as [|e l He _ IH]; [reflexivity|].
  destruct e; cbn in *; try exact IH. contradiction.
Qed.

Lemma audit_records_follow tid l :
  Forall (follows_request tid) l ->
  Forall (fun r => tr_type r <> "claude_request"%string
                   /\ referenced_transaction (tr_data r) = Some tid)
         (audit_records l).
Proof.
  induction 1 as [|e l He _ IH]; [constructor|].
  destruct e; cbn in *; try exact IH. constructor; assumption.
Qed.

Lemma record_request_audit prompt au w r au' w' :
  ClaudeAutomation.record_request prompt (au, w) = (r, (au', w')) ->
  audit_on au' = audit_on au
  /\ exists new,
      trace w' = trace w ++ new
      /\ match r with
         | Raise _ => audit_records new = []
         | Ok _ =>
             if audit_on au then
               exists request,
                 audit_records new = [request]
                 /\ tr_type request = "claude_request"%string
             else audit_records new = []
         end.
Proof.
  intros H. unfold audit_on.
  unfold_methods_in H. unfold_monad_in H. cbn in H.
  repeat (branch_in H; cbn in H); simplify_eq; cbn.
  all: repeat match goal with
         | E : ?x = _ |- context [match ?x with _ => _ end] => rewrite E; cbn
         end.
  all: split; [reflexivity|].
  all: try (exists []; rewrite app_nil_r; split; reflexivity).
  all: rewrite <- ?app_assoc; eexists; (split; [reflexivity|]); cbn; eauto.
Qed.

(** C9.  In every run of [process_data_with_claude], the audit records that
    the run writes are none at all, or one record of type "claude_request"
    followed only by records of other types, each of which refers to the
    transaction id drawn for this request: no hit or compute record of a
    request is written before its request record. *)
Theorem request_record_precedes_hit_and_compute_records
        (au : ClaudeAutomation.state) (w : World)
        (data : ClaudeAutomation.request_data) :
  let transaction_id := uuids w (uuid_draws w) in
  exists new,
    trace (ClaudeAutomation.process_data_with_claude data (au, w)).2.2
    = trace w ++ new
    /\ (audit_records new = []
        \/ exists request rest,
            audit_records new = request :: rest
            /\ tr_type request = "claude_request"%string
            /\ Forall (fun r =>
                         tr_type r <> "claude_request"%string
                         /\ referenced_transaction (tr_data r)
                            = Some transaction_id) rest).
Proof.
  cbv zeta. rewrite process_data_with_claude_eq. cbv zeta.
  set (tid := uuids w (uuid_draws w)).
  set (start := clock w (clock_reads w)).
  set (prompt := ClaudeAutomation.prompt_of data).
  destruct (negb (ClaudeAutomation.client au)).
  { exists []. rewrite app_nil_r. split; [reflexivity|left; reflexivity]. }
  destruct (ClaudeAutomation.record_request prompt _) as [r0 [au0 w0]] eqn:H0.
  apply record_request_audit in H0.
  destruct H0 as (Hon & n0 & Ht0 & Ha0). cbn [trace set_uuid_draws ticked set_clock_reads] in Ht0.
  destruct r0 as [[]|e]; [|exists n0; cbn; auto].
  destruct (audit_on au) eqn:Hau.
  - (* an audit trail is written *)
    destruct Ha0 as (request & Ha0 & Hty).
    assert (Hrest : forall (s : ClaudeAutomation.state * World) n,
               trace s.2 = trace w0 ++ n -> Forall (follows_request tid) n ->
               exists new,
                 trace s.2 = trace w ++ new
                 /\ (audit_records new = []
                     \/ exists request rest,
                         audit_records new = request :: rest
                         /\ tr_type request = "claude_request"%string
                         /\ Forall (fun r =>
                                      tr_type r <> "claude_request"%string
                                      /\ referenced_transaction (tr_data r)
                                         = Some tid) rest)).
    { intros s n Hs Hn. exists (n0 ++ n). rewrite Hs, Ht0, app_assoc.
      split; [reflexivity|]. right. exists request, (audit_records n).
      rewrite audit_records_app, Ha0.
      repeat split; auto using audit_records_follow. }
    destruct (ClaudeAutomation.check_persistent_memory prompt tid start _)
      as [r1 [au1 w1]] eqn:H1.
    destruct (check_persistent_memory_follows _ _ _ _ _ _ _ _ H1)
      as (n1 & Ht1 & Hn1).
    destruct r1 as [[response|]|e];
      [apply (Hrest (au1, w1) n1); assumption | |
       apply (Hrest (au1, w1) n1); assumption].
    destruct (ClaudeAutomation.check_standard_cache prompt tid start _)
      as [r2 [au2 w2]] eqn:H2.
    destruct (check_standard_cache_follows _ _ _ _ _ _ _ _ H2)
      as (n2 & Ht2 & Hn2).
    assert (Hn12 : Forall (follows_request tid) (n1 ++ n2))
      by (apply Forall_app; auto).
    assert (Ht12 : trace w2 = trace w0 ++ (n1 ++ n2))
      by (rewrite Ht2, Ht1, app_assoc; reflexivity).
    destruct r2 as [[cached|]|e];
      [apply (Hrest (au2, w2) (n1 ++ n2)); assumption | |
       apply (Hrest (au2, w2) (n1 ++ n2)); assumption].
    match goal with
    | |- context [ClaudeAutomation.attempts ?a ?b ?c ?d ?e ?f ?g ?h ?i ?s] =>
        destruct (ClaudeAutomation.attempts a b c d e f g h i s)
          as [r3 [au3 w3]] eqn:H3
    end.
    destruct (attempts_follow _ _ _ _ _ _ _ _ _ _ _ _ _ _ H3)
      as (n3 & Ht3 & Hn3).
    apply (Hrest (au3, w3) ((n1 ++ n2) ++ n3)).
    + cbn. rewrite Ht3, Ht12, <- !app_assoc. reflexivity.
    + apply Forall_app; auto.
  - (* no audit trail *)
    assert (Hoff : audit_on au0 = false) by congruence.
    assert (Hrest : forall (s : ClaudeAutomation.state * World) n,
               trace s.2 = trace w0 ++ n -> Forall not_audit_record n ->
               exists new,
                 trace s.2 = trace w ++ new
                 /\ (audit_records new = []
                     \/ exists request rest,
                         audit_records new = request :: rest
                         /\ tr_type request = "claude_request"%string
                         /\ Forall (fun r =>
                                      tr_type r <> "claude_request"%string
                                      /\ referenced_transaction (tr_data r)
                                         = Some tid) rest)).
    { intros s n Hs Hn. exists (n0 ++ n). rewrite Hs, Ht0, app_assoc.
      split; [reflexivity|]. left.
      rewrite audit_records_app, Ha0, (audit_records_none _ Hn). reflexivity. }
    destruct (ClaudeAutomation.check_persistent_memory prompt tid start _)
      as [r1 [au1 w1]] eqn:H1.
    destruct (check_persistent_memory_without_audit _ _ _ _ _ _ _ _ Hoff H1)
      as (Hoff1 & n1 & Ht1 & Hn1).
    destruct r1 as [[response|]|e];
      [apply (Hrest (au1, w1) n1); assumption | |
       apply (Hrest (au1, w1) n1); assumption].
    destruct (ClaudeAutomation.check_standard_cache prompt tid start _)
      as [r2 [au2 w2]] eqn:H2.
    destruct (check_standard_cache_without_audit _ _ _ _ _ _ _ _ Hoff1 H2)
      as (Hoff2 & n2 & Ht2 & Hn2).
    assert (Hn12 : Forall not_audit_record (n1 ++ n2))
      by (apply Forall_app; auto).
    assert (Ht12 : trace w2 = trace w0 ++ (n1 ++ n2))
      by (rewrite Ht2, Ht1, app_assoc; reflexivity).
    destruct r2 as [[cached|]|e];
      [apply (Hrest (au2, w2) (n1 ++ n2)); assumption | |
       apply (Hrest (au2, w2) (n1 ++ n2)); assumption].
    match goal with
    | |- context [ClaudeAutomation.attempts ?a ?b ?c ?d ?e ?f ?g ?h ?i ?s] =>
        destruct (ClaudeAutomation.attempts a b c d e f g h i s)
          as [r3 [au3 w3]] eqn:H3
    end.
    assert (Hoff2' : audit_on
              (ClaudeAutomation.set_metrics
                 (ClaudeAutomation.add_cache_misses
                    (ClaudeAutomation.the_metrics au2)) au2) = false)
      by exact Hoff2.
    destruct (attempts_without_audit _ _ _ _ _ _ _ _ _ _ _ _ _ _ Hoff2' H3)
      as (_ & n3 & Ht3 & Hn3).
    apply (Hrest (au3, w3) ((n1 ++ n2) ++ n3)).
    + cbn. rewrite Ht3, Ht12, <- !app_assoc. reflexivity.
    + apply Forall_app; auto.
Qed.

(** ** The semantic fallback *)

(** The early return of an accepted candidate never fails. *)
Lemma semantic_hit_tail au w key score tid start (response : pyval) :
  exists au' w' new,
    ClaudeAutomation.semantic_hit key score tid start response (au, w)
    = (Ok (Some response), (au', w'))
    /\ trace w' = trace w ++ new
    /\ ClaudeAutomation.cache_hits (ClaudeAutomation.the_metrics au')
       = ClaudeAutomation.cache_hits (ClaudeAutomation.the_metrics au) + 1
    /\ (if audit_on au then
          exists record,
            audit_records new = [record]
            /\ tr_type record = "semantic_hit"%string
            /\ tr_data record = SemanticHitData key score tid
        else audit_records new = []).
Proof.
  unfold audit_on. unfold_methods. unfold bind, ret, raise, try_except, gets,
    modify, lift_result, in_world, self, update_self, emit, time_time, uuid4,
    rpc, ClaudeAutomation.on.
  cbn.
  repeat (branch; cbn); simplify_eq.
  all: do 2 eexists.
  all: try (exists []; rewrite app_nil_r; repeat split; reflexivity).
  all: rewrite <- ?app_assoc; eexists; repeat split; cbn; eauto.
Qed.

(** C4, as amended.  For the first candidate that the similarity query
    returns: with a score strictly above 0.92 its entry is fetched and, when
    it has a response, returned as a hit, counted as a cache hit and
    recorded as "semantic_hit" with the score; with any other score,
    0.92 itself included, the fallback ends in a miss at once, with no fetch
    and no record. *)
Theorem semantic_candidate_accepted_strictly_above_threshold
        (au : ClaudeAutomation.state) (w : World) (prompt : pystr)
        (tid : uuid) (start : float) (first : scored_match)
        (rest : list scored_match) (au1 : ClaudeAutomation.state) (w1 : World) :
  ClaudeAutomation.semantic_modeling au && ClaudeAutomation.auto_enrichment au
  = true ->
  ClaudeAutomation.on_persistent_memory
    (PersistentMemoryManager.search_semantic prompt 1) (au, w)
  = (Ok (first :: rest), (au1, w1)) ->
  ((0.92 <? match_score first)%float = false ->
   ClaudeAutomation.try_semantic_search prompt tid start (au, w)
   = (Ok None, (au1, w1)))
  /\ ((0.92 <? match_score first)%float = true ->
      forall md response au2 w2,
        ClaudeAutomation.on_persistent_memory
          (PersistentMemoryManager.retrieve_by_key (match_id first)) (au1, w1)
        = (Ok (Some md), (au2, w2)) ->
        dict_get "response" md = Some response ->
        exists au3 w3 new,
          ClaudeAutomation.try_semantic_search prompt tid start (au, w)
          = (Ok (Some response), (au3, w3))
          /\ trace w3 = trace w2 ++ new
          /\ ClaudeAutomation.cache_hits (ClaudeAutomation.the_metrics au3)
             = ClaudeAutomation.cache_hits (ClaudeAutomation.the_metrics au2) + 1
          /\ (if audit_on au2 then
                exists record,
                  audit_records new = [record]
                  /\ tr_type record = "semantic_hit"%string
                  /\ tr_data record
                     = SemanticHitData (match_id first) (match_score first) tid
              else audit_records new = [])).
Proof.
  intros Hon Hsearch. split.
  - intros Hlow. unfold ClaudeAutomation.try_semantic_search.
    unfold bind at 1. unfold self at 1. rewrite Hon.
    unfold bind at 1. rewrite Hsearch.
    unfold ClaudeAutomation.similar_enough. rewrite Hlow. reflexivity.
  - intros Hhigh md response au2 w2 Hfetch Hresp.
    destruct (semantic_hit_tail au2 w2 (match_id first) (match_score first)
                tid start response) as (au3 & w3 & new & Htail & Hrest).
    exists au3, w3, new. split; [|exact Hrest].
    unfold ClaudeAutomation.try_semantic_search.
    unfold bind at 1. unfold self at 1. rewrite Hon.
    unfold bind at 1. rewrite Hsearch.
    unfold ClaudeAutomation.similar_enough. rewrite Hhigh.
    unfold bind at 1. rewrite Hfetch.
    unfold ClaudeAutomation.response_in. rewrite Hresp.
    exact Htail.
Qed.

Lemma semantic_candidate_accepted_strictly_above_threshold_witness :
  ClaudeAutomation.try_semantic_search (py "hi") (py "tid") 1000%float
    (demo_automation, candidate_world 0.92)
  = (Ok None,
     (ClaudeAutomation.on_persistent_memory
        (PersistentMemoryManager.search_semantic (py "hi") 1)
        (demo_automation, candidate_world 0.92)).2).
Proof.
  refine (proj1 (semantic_candidate_accepted_strictly_above_threshold
                   demo_automation (candidate_world 0.92) (py "hi") (py "tid")
                   1000%float
                   (ScoredMatch (py "prompt_similar") 0.92 similar_metadata) []
                   _ _ _ _) _).
  - reflexivity.
  - vm_compute. reflexivity.
  - vm_compute. reflexivity.
Defined.

(** C4 as stated does not hold: a candidate whose score is exactly 0.92 is
    not accepted.  The request goes on to the API (its audit records are the
    request and the API call, no "semantic_hit"), while the same candidate
    with the next float above 0.92 is returned as a hit. *)
Lemma score_at_threshold_is_a_miss :
  let at_threshold :=
    ClaudeAutomation.process_data_with_claude
      (ClaudeAutomation.DataStr (py "hi"))
      (demo_automation, candidate_world 0.92) in
  let above :=
    ClaudeAutomation.process_data_with_claude
      (ClaudeAutomation.DataStr (py "hi"))
      (demo_automation, candidate_world (PrimFloat.next_up 0.92)) in
  ClaudeAutomation.similar_enough
    [ScoredMatch (py "prompt_similar") 0.92 similar_metadata] = None
  /\ at_threshold.1
     = Ok (ClaudeAutomation.response_dict_of demo_reply (py "hello"))
  /\ map tr_type (audit_records (trace at_threshold.2.2))
     = ["claude_request"; "api_call_success"]%string
  /\ above.1 = Ok other_value
  /\ map tr_type (audit_records (trace above.2.2))
     = ["claude_request"; "semantic_hit"]%string.
Proof. vm_compute. repeat split. Qed.

(** ** The order of the lookups *)

Lemma set_persistent_memory_same au pm :
  ClaudeAutomation.persistent_memory au = Some pm ->
  ClaudeAutomation.set_persistent_memory (Some pm) au = au.
Proof. destruct au. cbn. intros ->. reflexivity. Qed.

(** The exact lookup in persistent memory: nothing is sent when Pinecone is
    off, and one fetch otherwise. *)
Lemma retrieve_by_key_eq key au w pm :
  ClaudeAutomation.persistent_memory au = Some pm ->
  ClaudeAutomation.on_persistent_memory
    (PersistentMemoryManager.retrieve_by_key key) (au, w)
  = if negb (PersistentMemoryManager.pinecone_enabled pm)
       || negb (PersistentMemoryManager.index pm)
    then (Ok None, (au, w))
    else
      match fault w (rpcs w) with
      | Some _ => (Ok None, (au, sent (PineconeFetch key) w))
      | None => (Ok (pinecone_vectors w !! key), (au, sent (PineconeFetch key) w))
      end.
Proof.
  intros Hpm.
  unfold ClaudeAutomation.on_persistent_memory,
    PersistentMemoryManager.retrieve_by_key, index_fetch.
  unfold bind, ret, raise, try_except, gets, modify, lift_result, in_world,
    self, update_self, emit, rpc, ClaudeAutomation.on, sent.
  cbn. rewrite Hpm. cbn.
  destruct (negb (PersistentMemoryManager.pinecone_enabled pm)
            || negb (PersistentMemoryManager.index pm));
    cbn; rewrite ?(set_persistent_memory_same _ _ Hpm); [reflexivity|].
  destruct (fault w (rpcs w)); cbn;
    rewrite ?(set_persistent_memory_same _ _ Hpm); [reflexivity|].
  destruct (pinecone_vectors w !! key); cbn;
    rewrite ?(set_persistent_memory_same _ _ Hpm); reflexivity.
Qed.

(** With Pinecone off the semantic search sends nothing and finds
    nothing. *)
Lemma try_semantic_search_off prompt tid start au w pm :
  ClaudeAutomation.persistent_memory au = Some pm ->
  negb (PersistentMemoryManager.pinecone_enabled pm)
  || negb (PersistentMemoryManager.index pm) = true ->
  ClaudeAutomation.try_semantic_search prompt tid start (au, w)
  = (Ok None, (au, w)).
Proof.
  intros Hpm Hoff.
  unfold ClaudeAutomation.try_semantic_search,
    ClaudeAutomation.on_persistent_memory,
    PersistentMemoryManager.search_semantic.
  unfold bind, ret, raise, try_except, gets, modify, lift_result, in_world,
    self, update_self, ClaudeAutomation.on.
  cbn.
  destruct (ClaudeAutomation.semantic_modeling au
            && ClaudeAutomation.auto_enrichment au); [|reflexivity].
  cbn. rewrite Hpm. cbn. rewrite Hoff. cbn.
  rewrite (set_persistent_memory_same _ _ Hpm). reflexivity.
Qed.

Lemma memory_hit_quiet key tid start response :
  only no_query_no_firestore
       (ClaudeAutomation.memory_hit key tid start response).
Proof. only_all. Qed.

Lemma try_semantic_search_no_firestore prompt tid start :
  only not_firestore_request
       (ClaudeAutomation.try_semantic_search prompt tid start).
Proof. only_all. Qed.

Lemma record_request_quiet prompt :
  only no_query_no_firestore (ClaudeAutomation.record_request prompt).
Proof. only_all. Qed.

Lemma memory_hit_returns key tid start (response : pyval) au w :
  exists au' w',
    ClaudeAutomation.memory_hit key tid start response (au, w)
    = (Ok (Some response), (au', w')).
Proof.
  unfold_methods. unfold bind, ret, raise, try_except, gets,
    modify, lift_result, in_world, self, update_self, emit, time_time, uuid4,
    rpc, ClaudeAutomation.on.
  cbn. repeat (branch; cbn); simplify_eq; eauto.
Qed.

(** The look into persistent memory sends nothing to Firestore, and its
    first request, if it sends one at all, is the fetch of the exact key. *)
Lemma check_persistent_memory_trace prompt tid start au w r au' w' :
  ClaudeAutomation.check_persistent_memory prompt tid start (au, w)
  = (r, (au', w')) ->
  exists new,
    trace w' = trace w ++ new
    /\ Forall not_firestore_request new
    /\ (new = []
        \/ exists key rest,
            ClaudeAutomation.memory_key_of prompt = Ok key
            /\ new = PineconeFetch key :: rest).
Proof.
  intros Hrun.
  destruct (check_persistent_memory_no_firestore _ _ _ _ _ _ _ _ Hrun)
    as (new & Ht & Hnf).
  exists new. split; [exact Ht|]. split; [exact Hnf|].
  unfold ClaudeAutomation.check_persistent_memory in Hrun.
  unfold bind at 1 in Hrun. unfold self at 1 in Hrun.
  destruct (ClaudeAutomation.persistent_memory au) as [pm|] eqn:Hpm.
  2:{ injection Hrun as <- <- <-. left.
      apply (app_inv_head (trace w)). rewrite app_nil_r. symmetry. exact Ht. }
  unfold try_except, bind at 1, lift_result in Hrun.
  destruct (ClaudeAutomation.memory_key_of prompt) as [key|e] eqn:Hkey.
  2:{ injection Hrun as <- <- <-. left.
      apply (app_inv_head (trace w)). rewrite app_nil_r. symmetry. exact Ht. }
  unfold bind at 1 in Hrun.
  rewrite (retrieve_by_key_eq _ _ _ _ Hpm) in Hrun.
  destruct (negb (PersistentMemoryManager.pinecone_enabled pm)
            || negb (PersistentMemoryManager.index pm)) eqn:Hoff.
  - (* Pinecone off: nothing is found and nothing is sent *)
    cbn [ClaudeAutomation.response_in] in Hrun.
    rewrite (try_semantic_search_off _ _ _ _ _ _ Hpm Hoff) in Hrun.
    injection Hrun as <- <- <-. left.
    apply (app_inv_head (trace w)). rewrite app_nil_r. symmetry. exact Ht.
  - (* Pinecone on: the fetch comes first *)
    right. exists key.
    assert (Hgrow : exists rest, trace w' = (trace w ++ [PineconeFetch key]) ++ rest).
    { destruct (fault w (rpcs w)).
      - cbn [ClaudeAutomation.response_in] in Hrun.
        destruct (ClaudeAutomation.try_semantic_search prompt tid start _)
          as [r1 [au1 w1]] eqn:H1.
        destruct (try_semantic_search_no_firestore _ _ _ _ _ _ _ _ H1)
          as (n1 & Ht1 & _).
        exists n1. destruct r1; injection Hrun as <- <- <-; exact Ht1.
      - destruct (ClaudeAutomation.response_in (pinecone_vectors w !! key))
          as [response|].
        + destruct (ClaudeAutomation.memory_hit key tid start response _)
            as [r1 [au1 w1]] eqn:H1.
          destruct (memory_hit_quiet _ _ _ _ _ _ _ _ _ H1) as (n1 & Ht1 & _).
          exists n1. destruct r1; injection Hrun as <- <- <-; exact Ht1.
        + destruct (ClaudeAutomation.try_semantic_search prompt tid start _)
            as [r1 [au1 w1]] eqn:H1.
          destruct (try_semantic_search_no_firestore _ _ _ _ _ _ _ _ H1)
            as (n1 & Ht1 & _).
          exists n1. destruct r1; injection Hrun as <- <- <-; exact Ht1. }
    destruct Hgrow as (rest & Hgrow). exists rest. split; [reflexivity|].
    apply (app_inv_head (trace w)). rewrite <- Ht, Hgrow, <- app_assoc.
    reflexivity.
Qed.

Lemma check_persistent_memory_hit prompt tid start au w pm key md response :
  ClaudeAutomation.persistent_memory au = Some pm ->
  PersistentMemoryManager.pinecone_enabled pm = true ->
  PersistentMemoryManager.index pm = true ->
  ClaudeAutomation.memory_key_of prompt = Ok key ->
  fault w (rpcs w) = None ->
  pinecone_vectors w !! key = Some md ->
  dict_get "response" md = Some response ->
  exists au' w' new,
    ClaudeAutomation.check_persistent_memory prompt tid start (au, w)
    = (Ok (Some response), (au', w'))
    /\ trace w' = trace w ++ new
    /\ Forall no_query_no_firestore new.
Proof.
  intros Hpm Hen Hix Hkey Hf Hmd Hresp.
  destruct (memory_hit_returns key tid start response au
              (sent (PineconeFetch key) w)) as (au' & w' & Hhit).
  destruct (memory_hit_quiet _ _ _ _ _ _ _ _ _ Hhit) as (n & Ht & Hn).
  exists au', w', (PineconeFetch key :: n).
  split; [|split].
  - unfold ClaudeAutomation.check_persistent_memory.
    unfold bind at 1. unfold self at 1. rewrite Hpm.
    unfold try_except, bind at 1, lift_result. rewrite Hkey.
    unfold bind at 1. rewrite (retrieve_by_key_eq _ _ _ _ Hpm), Hen, Hix, Hf.
    cbn [negb orb]. rewrite Hmd. cbn [ClaudeAutomation.response_in].
    rewrite Hresp, Hhit. reflexivity.
  - rewrite Ht. cbn. rewrite <- app_assoc. reflexivity.
  - constructor; [exact I|exact Hn].
Qed.

Lemma record_request_frame prompt au w r au' w' :
  ClaudeAutomation.record_request prompt (au, w) = (r, (au', w')) ->
  ClaudeAutomation.persistent_memory au' = ClaudeAutomation.persistent_memory au
  /\ pinecone_vectors w' = pinecone_vectors w
  /\ fault w' = fault w
  /\ rpcs w' = rpcs w
  /\ match r with
     | Raise e => ClaudeAutomation.sha256_hex prompt = Raise e
     | Ok _ => True
     end.
Proof.
  intros H. unfold_methods_in H. unfold_monad_in H. cbn in H.
  repeat (branch_in H; cbn in H); simplify_eq; cbn; auto.
Qed.

Lemma memory_key_then_sha256 prompt key e :
  ClaudeAutomation.memory_key_of prompt = Ok key ->
  ClaudeAutomation.sha256_hex prompt <> Raise e.
Proof.
  unfold ClaudeAutomation.memory_key_of, ClaudeAutomation.sha256_hex.
  destruct (Utf8.encode prompt); congruence.
Qed.

(** C1, as amended.  The events of a run of [process_data_with_claude]
    come in three stretches: what is sent before the look into persistent
    memory, which contains neither a similarity query nor a Firestore
    request; the look into persistent memory, which sends nothing to
    Firestore and whose first request, if a similarity query is among its
    events, is the fetch of the exact key "prompt_<md5>"; and the rest (the
    standard cache and the API), which contains no similarity query.  So a
    similarity query comes after the exact lookup in persistent memory and
    before every lookup of the cache manager.  A request whose exact key
    is in persistent memory with a response is answered with that response,
    without any similarity query and without any Firestore request. *)
Theorem similarity_query_follows_exact_lookup_in_persistent_memory
        (au : ClaudeAutomation.state) (w : World)
        (data : ClaudeAutomation.request_data) :
  let prompt := ClaudeAutomation.prompt_of data in
  let run := ClaudeAutomation.process_data_with_claude data (au, w) in
  (exists before memory_phase after,
      trace run.2.2 = trace w ++ before ++ memory_phase ++ after
      /\ Forall no_query_no_firestore before
      /\ Forall not_firestore_request memory_phase
      /\ (Forall not_similarity_query memory_phase
          \/ exists key rest,
              ClaudeAutomation.memory_key_of prompt = Ok key
              /\ memory_phase = PineconeFetch key :: rest)
      /\ Forall not_similarity_query after)
  /\ (forall pm key md response,
        ClaudeAutomation.client au = true ->
        ClaudeAutomation.persistent_memory au = Some pm ->
        PersistentMemoryManager.pinecone_enabled pm = true ->
        PersistentMemoryManager.index pm = true ->
        ClaudeAutomation.memory_key_of prompt = Ok key ->
        fault w (rpcs w) = None ->
        pinecone_vectors w !! key = Some md ->
        dict_get "response" md = Some response ->
        run.1 = Ok response
        /\ exists new,
            trace run.2.2 = trace w ++ new
            /\ Forall no_query_no_firestore new).
Proof.
  cbv zeta. rewrite process_data_with_claude_eq. cbv zeta.
  set (tid := uuids w (uuid_draws w)).
  set (start := clock w (clock_reads w)).
  set (prompt := ClaudeAutomation.prompt_of data).
  set (w0 := set_uuid_draws (S (uuid_draws w)) (ticked w)).
  assert (Hw0 : trace w0 = trace w) by reflexivity.
  split.
  - destruct (negb (ClaudeAutomation.client au)).
    { exists [], [], []. cbn. rewrite app_nil_r.
      repeat split; auto. }
    destruct (ClaudeAutomation.record_request prompt (au, w0))
      as [r0 [au0 w0']] eqn:H0.
    destruct (record_request_quiet _ _ _ _ _ _ H0) as (n0 & Ht0 & Hn0).
    rewrite Hw0 in Ht0.
    destruct r0 as [[]|e].
    2:{ exists n0, [], []. cbn. rewrite app_nil_r. repeat split; auto. }
    destruct (ClaudeAutomation.check_persistent_memory prompt tid start _)
      as [r1 [au1 w1]] eqn:H1.
    destruct (check_persistent_memory_trace _ _ _ _ _ _ _ _ H1)
      as (n1 & Ht1 & Hnf1 & Hfirst).
    assert (Hshape : Forall not_similarity_query n1
                     \/ exists key rest,
                         ClaudeAutomation.memory_key_of prompt = Ok key
                         /\ n1 = PineconeFetch key :: rest).
    { destruct Hfirst as [->|Hfirst]; [left; constructor|right; exact Hfirst]. }
    assert (Hdone : forall (s : ClaudeAutomation.state * World) n,
               trace s.2 = trace w1 ++ n -> Forall not_similarity_query n ->
               exists before memory_phase after,
                 trace s.2 = trace w ++ before ++ memory_phase ++ after
                 /\ Forall no_query_no_firestore before
                 /\ Forall not_firestore_request memory_phase
                 /\ (Forall not_similarity_query memory_phase
                     \/ exists key rest,
                         ClaudeAutomation.memory_key_of prompt = Ok key
                         /\ memory_phase = PineconeFetch key :: rest)
                 /\ Forall not_similarity_query after).
    { intros s n Hs Hn. exists n0, n1, n.
      rewrite Hs, Ht1, Ht0, <- !app_assoc. repeat split; auto. }
    destruct r1 as [[response|]|e];
      [apply (Hdone (au1, w1) []); [cbn; rewrite app_nil_r; reflexivity|constructor]
      | | apply (Hdone (au1, w1) []); [cbn; rewrite app_nil_r; reflexivity|constructor]].
    destruct (ClaudeAutomation.check_standard_cache prompt tid start _)
      as [r2 [au2 w2]] eqn:H2.
    destruct (check_standard_cache_no_similarity _ _ _ _ _ _ _ _ H2)
      as (n2 & Ht2 & Hn2).
    destruct r2 as [[cached|]|e];
      [apply (Hdone (au2, w2) n2); assumption | |
       apply (Hdone (au2, w2) n2); assumption].
    match goal with
    | |- context [ClaudeAutomation.attempts ?a ?b ?c ?d ?e ?f ?g ?h ?i ?s] =>
        destruct (ClaudeAutomation.attempts a b c d e f g h i s)
          as [r3 [au3 w3]] eqn:H3
    end.
    destruct (attempts_no_similarity _ _ _ _ _ _ _ _ _ _ _ _ _ _ H3)
      as (n3 & Ht3 & Hn3).
    apply (Hdone (au3, w3) (n2 ++ n3)).
    + cbn. rewrite Ht3, Ht2, <- !app_assoc. reflexivity.
    + apply Forall_app; auto.
  - intros pm key md response Hclient Hpm Hen Hix Hkey Hf Hmd Hresp.
    rewrite Hclient. cbn [negb].
    destruct (ClaudeAutomation.record_request prompt (au, w0))
      as [r0 [au0 w0']] eqn:H0.
    destruct (record_request_quiet _ _ _ _ _ _ H0) as (n0 & Ht0 & Hn0).
    rewrite Hw0 in Ht0.
    destruct (record_request_frame _ _ _ _ _ _ H0)
      as (Hpm0 & Hvec0 & Hfault0 & Hrpc0 & Hr0).
    destruct r0 as [[]|e];
      [|exfalso; exact (memory_key_then_sha256 _ _ _ Hkey Hr0)].
    destruct (check_persistent_memory_hit prompt tid start au0 w0' pm key md
                response) as (au1 & w1 & n1 & Hhit & Ht1 & Hn1).
    + rewrite Hpm0. exact Hpm.
    + exact Hen.
    + exact Hix.
    + exact Hkey.
    + rewrite Hfault0, Hrpc0. exact Hf.
    + rewrite Hvec0. exact Hmd.
    + exact Hresp.
    + rewrite Hhit. cbn. split; [reflexivity|].
      exists (n0 ++ n1). rewrite Ht1, Ht0, <- app_assoc.
      split; [reflexivity|]. apply Forall_app; auto.
Qed.

Lemma similarity_query_follows_exact_lookup_in_persistent_memory_witness :
  (ClaudeAutomation.process_data_with_claude
     (ClaudeAutomation.DataStr (py "hi"))
     (demo_automation, remembered_world)).1 = Ok other_value.
Proof.
  refine (proj1 (proj2 (similarity_query_follows_exact_lookup_in_persistent_memory
                          demo_automation remembered_world
                          (ClaudeAutomation.DataStr (py "hi")))
                       (PersistentMemoryManager.mk true true)
                       (py "prompt_49f68a5c8493ec2c0bf489821c21fc3b")
                       similar_metadata other_value _ _ _ _ _ _ _ _)).
  all: vm_compute; reflexivity.
Defined.

(** C1 as stated does not hold: the prompt "summarize: X" has a live entry
    under its exact key in the fast tier and in Firestore, and the run still
    sends a similarity query: it looks into persistent memory first (fetch
    of the exact key, embedding, query) and only then asks the cache
    manager, which answers from the fast tier. *)
Lemma similarity_query_despite_exact_key_in_cache :
  let key := py (MD5.hexdigest (bytes_of "summarize: X")) in
  let run :=
    ClaudeAutomation.process_data_with_claude
      (ClaudeAutomation.DataStr (py "summarize: X"))
      (cached_automation, world_after_set) in
  CacheManager.memory_cache (ClaudeAutomation.cache_manager cached_automation)
    !! key = Some demo_value
  /\ CacheManager.memory_cache_expiry
       (ClaudeAutomation.cache_manager cached_automation) !! key
     = Some (Float 1700086400)
  /\ is_Some (firestore_docs world_after_set !! key)
  /\ run.1 = Ok demo_value
  /\ map event_kind (drop (length (trace world_after_set)) (trace run.2.2))
     = [ "claude_request"; "pinecone.fetch"; "embedding"; "pinecone.query";
         "cache_hit" ]%string.
Proof.
  vm_compute. repeat split. eexists. reflexivity.
Qed.

(** ** The scenarios of the specification on the model *)

(** Scenario A: a value cached for an hour is returned at once. *)
Example scenario_set_then_get :
  (CacheManager.get (py "summarize: X")
     (CacheManager.set (py "summarize: X") demo_value
        (CacheManager.__init__ true 3600%float false false, demo_world healthy)).2).1
  = Ok (Some demo_value).
Proof. vm_compute. reflexivity. Qed.

(** Scenario B: a value cached for one second is gone two seconds later,
    from both tiers. *)
Example scenario_expired :
  let world_later (w : World) := ticked w in
  let s := CacheManager.set (py "summarize: X") demo_value
             (CacheManager.__init__ true 1%float false false, demo_world healthy) in
  let g := CacheManager.get (py "summarize: X") (s.2.1, world_later s.2.2) in
  g.1 = Ok None
  /\ CacheManager.memory_cache g.2.1 = ∅
  /\ firestore_docs g.2.2 = ∅.
Proof. vm_compute. repeat split. Qed.

(** * Further properties of the automation *)

(** ** Relating what is sent to how the object changes *)

Section Links.
Context {X : Type} (R : X -> list event -> X -> Prop).
Hypothesis Rnil : forall x, R x [] x.
Hypothesis Rapp :
  forall x l x' l' x'', R x l x' -> R x' l' x'' -> R x (l ++ l') x''.

Lemma links_still {A} (m : M (X * World) A) :
  (forall s, (m s).2 = s) -> links R m.
Proof.
  intros Hm x w r x' w' Hrun. specialize (Hm (x, w)). rewrite Hrun in Hm.
  cbn in Hm. injection Hm as -> ->. exists []. rewrite app_nil_r. auto.
Qed.

Lemma links_ret {A} (a : A) : links R (ret a).
Proof. apply links_still. reflexivity. Qed.

Lemma links_raise {A} e : links R (raise (A := A) e).
Proof. apply links_still. reflexivity. Qed.

Lemma links_lift_result {A} (v : result A) : links R (lift_result v).
Proof. apply links_still. reflexivity. Qed.

Lemma links_self {A} (f : X -> A) : links R (self f).
Proof. apply links_still. intros [x w]. reflexivity. Qed.

Lemma links_update_self (f : X -> X) :
  (forall x, R x [] (f x)) -> links R (update_self f).
Proof.
  intros Hf x w r x' w' [= <- <- <-]. exists []. rewrite app_nil_r. auto.
Qed.

Lemma links_bind {A B} (m : M (X * World) A) (f : A -> M (X * World) B) :
  links R m -> (forall a, links R (f a)) -> links R (bind m f).
Proof.
  intros Hm Hf x w r x' w' Hrun. unfold bind in Hrun.
  destruct (m (x, w)) as [[a|e] [x1 w1]] eqn:Hm1.
  - destruct (Hm _ _ _ _ _ Hm1) as (n1 & Ht1 & Hn1).
    destruct (Hf a _ _ _ _ _ Hrun) as (n2 & Ht2 & Hn2).
    exists (n1 ++ n2). rewrite Ht2, Ht1, app_assoc. eauto.
  - injection Hrun as <- <- <-. eauto.
Qed.

Lemma links_try_except {A} (m : M (X * World) A) (h : exn -> M (X * World) A) :
  links R m -> (forall e, links R (h e)) -> links R (try_except m h).
Proof.
  intros Hm Hh x w r x' w' Hrun. unfold try_except in Hrun.
  destruct (m (x, w)) as [[a|e] [x1 w1]] eqn:Hm1.
  - injection Hrun as <- <- <-. eauto.
  - destruct (Hm _ _ _ _ _ Hm1) as (n1 & Ht1 & Hn1).
    destruct (Hh e _ _ _ _ _ Hrun) as (n2 & Ht2 & Hn2).
    exists (n1 ++ n2). rewrite Ht2, Ht1, app_assoc. eauto.
Qed.

Lemma links_in_world {A} phi (m : M World A) :
  (forall x l, Forall phi l -> R x l x) ->
  only_w phi m -> links R (in_world m).
Proof.
  intros Hphi Hm x w r x' w' Hrun. unfold in_world in Hrun.
  destruct (m w) as [r1 w1] eqn:Hm1. injection Hrun as <- <- <-.
  destruct (Hm _ _ _ Hm1) as (new & Ht & Hn). eauto.
Qed.

Lemma links_on {Y A} phi (getter : X -> Y) (setter : Y -> X -> X)
      (m : M (Y * World) A) :
  (forall x y l, Forall phi l -> R x l (setter y x)) ->
  only phi m -> links R (ClaudeAutomation.on getter setter m).
Proof.
  intros Hphi Hm x w r x' w' Hrun. unfold ClaudeAutomation.on in Hrun.
  destruct (m (getter x, w)) as [r1 [y1 w1]] eqn:Hm1.
  injection Hrun as <- <- <-.
  destruct (Hm _ _ _ _ _ Hm1) as (new & Ht & Hn). eauto.
Qed.

End Links.

(** ** Walking through a computation *)

Ltac leaf := cbn; first [ exact I | reflexivity | tauto ].

Ltac only_walk := unfold_methods; only_descent; leaf.

Ltac keeps_walk_step :=
  lazymatch goal with
  | |- keeps _ _ (ClaudeAutomation.governance_record _ _) =>
      unfold ClaudeAutomation.governance_record
  | |- keeps _ _ (bind _ _) => apply keeps_bind; [|intros ?]
  | |- keeps _ _ (try_except _ _) => apply keeps_try_except; [|intros ?]
  | |- keeps _ _ (ret _) => apply keeps_ret
  | |- keeps _ _ (raise _) => apply keeps_raise
  | |- keeps _ _ (lift_result _) => apply keeps_lift_result
  | |- keeps _ _ (self _) => apply keeps_self
  | |- keeps _ _ (update_self _) =>
      apply keeps_update_self; intros ? ?; assumption
  | |- keeps _ _ (in_world _) => apply keeps_in_world
  | |- keeps _ _ (ClaudeAutomation.on _ _ _) =>
      apply keeps_on; [|intros ? ? ?; assumption]
  | |- keeps _ _ (match ?x with _ => _ end) => destruct x
  end.

Ltac keeps_walk :=
  unfold ClaudeAutomation.check_persistent_memory,
    ClaudeAutomation.try_semantic_search, ClaudeAutomation.memory_hit,
    ClaudeAutomation.semantic_hit, ClaudeAutomation.check_standard_cache,
    ClaudeAutomation.store_in_persistent_memory,
    ClaudeAutomation.record_request,
    ClaudeAutomation.on_persistent_memory, ClaudeAutomation.on_cache_manager,
    ClaudeAutomation.record_latency, ClaudeAutomation.count;
  repeat keeps_walk_step; try only_walk.

(** ** The sampling parameters of the economy mode *)

Lemma send_request_economy data model :
  keeps (fun a => ClaudeAutomation.pilot_mode a = py "economy") economy_request
        (ClaudeAutomation.send_request data model).
Proof.
  intros a w r a' w' Hmode Hrun.
  unfold ClaudeAutomation.send_request in Hrun.
  unfold bind at 1 2 3, self in Hrun. rewrite Hmode in Hrun.
  rewrite bool_decide_false in Hrun by (vm_compute; discriminate).
  rewrite bool_decide_true in Hrun by reflexivity.
  refine (keeps_in_world
            (fun a => ClaudeAutomation.pilot_mode a = py "economy")
            economy_request _ _ _ _ _ _ _ Hmode Hrun).
  apply only_w_messages_create. cbn. split; [reflexivity|lia].
Qed.

Lemma attempt_body_economy data prompt tid start model :
  keeps (fun a => ClaudeAutomation.pilot_mode a = py "economy") economy_request
        (ClaudeAutomation.attempt_body data prompt tid start model).
Proof.
  unfold ClaudeAutomation.attempt_body.
  apply keeps_bind; [keeps_walk|]. intros _.
  apply keeps_bind; [apply send_request_economy|]. intros response.
  keeps_walk.
Qed.

Lemma attempts_economy remaining : forall attempt data prompt tid start model
                                          retries delay,
  keeps (fun a => ClaudeAutomation.pilot_mode a = py "economy") economy_request
        (ClaudeAutomation.attempts remaining attempt data prompt tid start
                                   model retries delay).
Proof.
  induction remaining as [|n IH]; intros; cbn [ClaudeAutomation.attempts].
  - apply keeps_ret.
  - apply keeps_try_except; [apply attempt_body_economy|].
    intros e. destruct (attempt <? retries).
    + apply keeps_bind; [keeps_walk|]. intros _.
      apply keeps_bind; [keeps_walk|]. intros _. apply IH.
    + keeps_walk.
Qed.

Lemma process_data_with_claude_economy data :
  keeps (fun a => ClaudeAutomation.pilot_mode a = py "economy") economy_request
        (ClaudeAutomation.process_data_with_claude data).
Proof.
  unfold ClaudeAutomation.process_data_with_claude.
  repeat first
    [ apply attempts_economy
    | keeps_walk_step
    | progress (unfold ClaudeAutomation.check_persistent_memory,
        ClaudeAutomation.try_semantic_search, ClaudeAutomation.memory_hit,
        ClaudeAutomation.semantic_hit, ClaudeAutomation.check_standard_cache,
        ClaudeAutomation.record_request,
        ClaudeAutomation.on_persistent_memory,
        ClaudeAutomation.on_cache_manager,
        ClaudeAutomation.record_latency, ClaudeAutomation.count) ].
  all: only_walk.
Qed.

(** X1.  In the economy mode, every request that a run of
    [process_data_with_claude] sends to the API, retries included, carries
    temperature 0.3 and asks for at most 1024 output tokens, whatever
    [max_tokens] and [temperature] are configured. *)
Theorem economy_mode_caps_every_request
        (data : ClaudeAutomation.request_data) (a : ClaudeAutomation.state)
        (w : World) :
  ClaudeAutomation.pilot_mode a = py "economy" ->
  exists new,
    trace (ClaudeAutomation.process_data_with_claude data (a, w)).2.2
    = trace w ++ new
    /\ Forall economy_request new.
Proof.
  intros Hmode.
  destruct (ClaudeAutomation.process_data_with_claude data (a, w))
    as [r [a' w']] eqn:Hrun.
  destruct (process_data_with_claude_economy data _ _ _ _ _ Hmode Hrun)
    as (_ & new & Ht & Hn).
  exists new. auto.
Qed.

Lemma economy_mode_caps_every_request_witness :
  exists new,
    trace (ClaudeAutomation.process_data_with_claude
             (ClaudeAutomation.DataStr (py "summarize: X"))
             (in_mode "economy" demo_automation, demo_world unavailable)).2.2
    = trace (demo_world unavailable) ++ new
    /\ Forall economy_request new.
Proof.
  apply (economy_mode_caps_every_request
           (ClaudeAutomation.DataStr (py "summarize: X"))
           (in_mode "economy" demo_automation) (demo_world unavailable)).
  reflexivity.
Defined.

Example economy_requests_of_a_failing_run :
  omap (fun e => match e with
                 | MessagesCreate _ _ t m => Some (t, m)
                 | _ => None
                 end)
       (trace (ClaudeAutomation.process_data_with_claude
                 (ClaudeAutomation.DataStr (py "summarize: X"))
                 (in_mode "economy" demo_automation,
                  demo_world unavailable)).2.2)
  = [ (0.3%float, 1024); (0.3%float, 1024); (0.3%float, 1024);
      (0.3%float, 1024) ].
Proof. vm_compute. reflexivity. Qed.

(** ** Requests, waits and the counter of API calls *)

Lemma api_requests_app a b :
  api_requests (a ++ b) = (api_requests a + api_requests b)%nat.
Proof. unfold api_requests. rewrite List.filter_app, length_app. reflexivity. Qed.

Lemma sleeps_app a b : sleeps (a ++ b) = sleeps a ++ sleeps b.
Proof. apply omap_app. Qed.

Lemma calm_quiet l : Forall calm l -> api_requests l = 0%nat /\ sleeps l = [].
Proof.
  induction 1 as [|e l [He Hs] _ [IH1 IH2]]; [split; reflexivity|].
  unfold api_requests in *. cbn. rewrite He. split; [exact IH1|].
  destruct e; cbn in *; try exact IH2. contradiction.
Qed.

Lemma quiet_step_nil a : quiet_step a [] a.
Proof. repeat split. Qed.

Lemma quiet_step_app a l a' l' a'' :
  quiet_step a l a' -> quiet_step a' l' a'' -> quiet_step a (l ++ l') a''.
Proof.
  intros (H1 & H2 & H3 & H4 & H5) (K1 & K2 & K3 & K4 & K5).
  unfold quiet_step. rewrite api_requests_app, sleeps_app, H1, H2, K1, K2.
  repeat split; congruence.
Qed.

Lemma quiet_step_calm a l : Forall calm l -> quiet_step a l a.
Proof. intros H. destruct (calm_quiet l H). repeat split; assumption. Qed.

Ltac links_quiet_step :=
  lazymatch goal with
  | |- links _ (ClaudeAutomation.governance_record _ _) =>
      unfold ClaudeAutomation.governance_record
  | |- links _ (bind _ _) =>
      apply (links_bind quiet_step quiet_step_app); [|intros ?]
  | |- links _ (try_except _ _) =>
      apply (links_try_except quiet_step quiet_step_app); [|intros ?]
  | |- links _ (ret _) => apply (links_ret quiet_step quiet_step_nil)
  | |- links _ (raise _) => apply (links_raise quiet_step quiet_step_nil)
  | |- links _ (lift_result _) =>
      apply (links_lift_result quiet_step quiet_step_nil)
  | |- links _ (self _) => apply (links_self quiet_step quiet_step_nil)
  | |- links _ (update_self _) =>
      apply links_update_self; intros ?; repeat split
  | |- links _ (in_world _) =>
      apply (links_in_world quiet_step calm);
      [intros ? ? ?; apply quiet_step_calm; assumption|]
  | |- links _ (ClaudeAutomation.on _ _ _) =>
      apply (links_on quiet_step calm);
      [let H := fresh in
       intros ? ? ? H; destruct (calm_quiet _ H); repeat split; assumption|]
  | |- links _ (match ?x with _ => _ end) => destruct x
  end.

Ltac links_quiet :=
  unfold ClaudeAutomation.check_persistent_memory,
    ClaudeAutomation.try_semantic_search, ClaudeAutomation.memory_hit,
    ClaudeAutomation.semantic_hit, ClaudeAutomation.check_standard_cache,
    ClaudeAutomation.store_in_persistent_memory,
    ClaudeAutomation.record_request,
    ClaudeAutomation.on_persistent_memory, ClaudeAutomation.on_cache_manager,
    ClaudeAutomation.record_latency, ClaudeAutomation.count;
  repeat links_quiet_step;
  try (unfold_methods; only_descent; (split; [reflexivity|exact I])).

Lemma record_request_quiet_step prompt :
  links quiet_step (ClaudeAutomation.record_request prompt).
Proof. links_quiet. Qed.

Lemma check_persistent_memory_quiet_step prompt tid start :
  links quiet_step (ClaudeAutomation.check_persistent_memory prompt tid start).
Proof. links_quiet. Qed.

Lemma check_standard_cache_quiet_step prompt tid start :
  links quiet_step (ClaudeAutomation.check_standard_cache prompt tid start).
Proof. links_quiet. Qed.

Lemma send_request_shape data model a w r a' w' :
  ClaudeAutomation.send_request data model (a, w) = (r, (a', w')) ->
  a' = a /\ exists e, trace w' = trace w ++ [e] /\ is_api_request e = true.
Proof.
  intros H.
  unfold ClaudeAutomation.send_request, ClaudeAutomation.messages_create in H.
  unfold_monad_in H. cbn in H.
  repeat (branch_in H; cbn in H); simplify_eq; cbn; eauto.
Qed.

(** One attempt sends exactly one request and counts it. *)
Lemma attempt_body_shape data prompt tid start model a w r a' w' :
  ClaudeAutomation.attempt_body data prompt tid start model (a, w)
  = (r, (a', w')) ->
  exists new,
    trace w' = trace w ++ new
    /\ api_requests new = 1%nat
    /\ sleeps new = []
    /\ ClaudeAutomation.api_calls (ClaudeAutomation.the_metrics a')
       = ClaudeAutomation.api_calls (ClaudeAutomation.the_metrics a) + 1
    /\ ClaudeAutomation.max_retries a' = ClaudeAutomation.max_retries a
    /\ ClaudeAutomation.retry_delay a' = ClaudeAutomation.retry_delay a.
Proof.
  intros H. unfold ClaudeAutomation.attempt_body in H.
  unfold bind at 1 in H.
  unfold ClaudeAutomation.count at 1, update_self at 1 in H.
  unfold bind at 1 in H.
  destruct (ClaudeAutomation.send_request data model _)
    as [[resp|e] [a2 w2]] eqn:Hs;
    apply send_request_shape in Hs as (-> & e0 & Ht & He).
  - match type of H with
    | ?k _ = _ => assert (Hk : links quiet_step k) by links_quiet
    end.
    destruct (Hk _ _ _ _ _ H) as (new & Ht2 & Hq1 & Hq2 & Hq3 & Hq4 & Hq5).
    exists (e0 :: new). rewrite Ht2, Ht, <- app_assoc.
    split; [reflexivity|].
    unfold api_requests in *. cbn. rewrite He. cbn. rewrite Hq1.
    destruct e0; try discriminate. cbn in *.
    repeat split; assumption.
  - injection H as <- <- <-. exists [e0]. split; [exact Ht|].
    unfold api_requests. cbn. rewrite He.
    destruct e0; try discriminate. cbn. repeat split.
Qed.

Lemma back_off_shift delay attempt n :
  0 <= attempt ->
  delay * 2 ^ attempt
  :: map (fun k => delay * 2 ^ (attempt + 1 + Z.of_nat k)) (seq 0 n)
  = map (fun k => delay * 2 ^ (attempt + Z.of_nat k)) (seq 0 (S n)).
Proof.
  intros _. cbn [seq map]. rewrite Z.add_0_r. f_equal.
  rewrite <- seq_shift, map_map. apply map_ext. intros k.
  do 2 f_equal. lia.
Qed.

(** The loop of attempts, from attempt number [attempt] on with [remaining]
    iterations left: one request per iteration run, a wait before every
    iteration but the first, each wait twice the one before. *)
Lemma attempts_shape remaining :
  forall attempt data prompt tid start model retries delay a w r a' w',
    0 <= attempt ->
    Z.of_nat remaining = Z.max 0 (retries + 1 - attempt) ->
    ClaudeAutomation.attempts remaining attempt data prompt tid start model
                              retries delay (a, w)
    = (r, (a', w')) ->
    exists new n,
      trace w' = trace w ++ new
      /\ api_requests new = (if remaining is O then O else S n)
      /\ (n < Nat.max 1 remaining)%nat
      /\ sleeps new = map (fun k => delay * 2 ^ (attempt + Z.of_nat k)) (seq 0 n)
      /\ ClaudeAutomation.api_calls (ClaudeAutomation.the_metrics a')
         = ClaudeAutomation.api_calls (ClaudeAutomation.the_metrics a)
           + Z.of_nat (api_requests new).
Proof.
  induction remaining as [|rem IH]; intros attempt data prompt tid start model
    retries delay a w r a' w' Hatt Hrem H; cbn [ClaudeAutomation.attempts] in H.
  - injection H as <- <- <-. exists [], 0%nat. rewrite app_nil_r.
    repeat split; [cbn; lia|cbn; lia].
  - unfold try_except in H.
    destruct (ClaudeAutomation.attempt_body _ _ _ _ _ _)
      as [[v|e] [a1 w1]] eqn:Hbody;
      apply attempt_body_shape in Hbody
        as (n1 & Ht1 & Hr1 & Hs1 & Hc1 & Hm1 & Hd1).
    + injection H as <- <- <-. exists n1, 0%nat.
      rewrite Hr1, Hs1, Hc1. repeat split; [exact Ht1|lia].
    + destruct (attempt <? retries) eqn:Hlt.
      * apply Z.ltb_lt in Hlt.
        unfold bind at 1 in H.
        destruct (ClaudeAutomation.governance_record _ _ _)
          as [[[]|e2] [a2 w2]] eqn:Hgov;
          (assert (Hg : links quiet_step
                          (ClaudeAutomation.governance_record "api_call_error"
                             (ApiCallErrorData tid e (attempt + 1))))
            by links_quiet);
          apply Hg in Hgov as (n2 & Ht2 & Hr2 & Hs2 & Hc2 & Hm2 & Hd2).
        2:{ injection H as <- <- <-. exists (n1 ++ n2), 0%nat.
            rewrite Ht2, Ht1, <- app_assoc, api_requests_app, sleeps_app,
              Hr1, Hr2, Hs1, Hs2, Hc2, Hc1.
            repeat split; lia. }
        unfold bind at 1, in_world at 1, emit, modify in H.
        cbv beta iota zeta in H.
        destruct (ClaudeAutomation.attempts rem _ _ _ _ _ _ _ _ _)
          as [r3 [a3 w3]] eqn:Hrec.
        injection H as <- <- <-.
        apply IH in Hrec as (n3 & k & Ht3 & Hr3 & Hk & Hs3 & Hc3);
          [|lia|lia].
        destruct rem as [|rem]; [lia|].
        exists (n1 ++ n2 ++ Sleep (delay * 2 ^ attempt) :: n3), (S k).
        rewrite Ht3. cbn [trace set_trace]. rewrite Ht2, Ht1.
        rewrite <- !app_assoc. split; [reflexivity|].
        rewrite !api_requests_app, !sleeps_app.
        change (Sleep (delay * 2 ^ attempt) :: n3)
          with ([Sleep (delay * 2 ^ attempt)] ++ n3).
        rewrite api_requests_app, sleeps_app, Hr1, Hr2, Hs1, Hs2, Hr3, Hs3.
        cbn [app]. change (sleeps [Sleep (delay * 2 ^ attempt)])
                     with [delay * 2 ^ attempt].
        cbn [app]. rewrite back_off_shift by exact Hatt.
        repeat split; [lia|].
        rewrite Hc3. cbn [ClaudeAutomation.the_metrics]. rewrite Hc2, Hc1, Hr3.
        change (api_requests [Sleep (delay * 2 ^ attempt)]) with 0%nat. lia.
      * match type of H with
        | ?k _ = _ => assert (Hk : links quiet_step k) by links_quiet
        end.
        destruct (Hk _ _ _ _ _ H) as (n2 & Ht2 & Hr2 & Hs2 & Hc2 & _).
        exists (n1 ++ n2), 0%nat.
        rewrite Ht2, Ht1, <- app_assoc, api_requests_app, sleeps_app,
          Hr1, Hr2, Hs1, Hs2, Hc2, Hc1.
        repeat split; lia.
Qed.

Lemma process_data_with_claude_shape data a w r a' w' :
  ClaudeAutomation.process_data_with_claude data (a, w) = (r, (a', w')) ->
  exists new n,
    trace w' = trace w ++ new
    /\ (api_requests new = 0%nat /\ n = 0%nat
        \/ api_requests new = S n
           /\ Z.of_nat (S n) <= ClaudeAutomation.max_retries a + 1)
    /\ sleeps new
       = map (fun k => ClaudeAutomation.retry_delay a * 2 ^ Z.of_nat k)
             (seq 0 n)
    /\ ClaudeAutomation.api_calls (ClaudeAutomation.the_metrics a')
       = ClaudeAutomation.api_calls (ClaudeAutomation.the_metrics a)
         + Z.of_nat (api_requests new).
Proof.
  intros H. rewrite process_data_with_claude_eq in H. cbv zeta in H.
  assert (Hquiet : forall x new, trace x = trace w ++ new ->
            quiet_step a new a' ->
            exists new n,
              trace x = trace w ++ new
              /\ (api_requests new = 0%nat /\ n = 0%nat
                  \/ api_requests new = S n
                     /\ Z.of_nat (S n) <= ClaudeAutomation.max_retries a + 1)
              /\ sleeps new
                 = map (fun k => ClaudeAutomation.retry_delay a * 2 ^ Z.of_nat k)
                       (seq 0 n)
              /\ ClaudeAutomation.api_calls (ClaudeAutomation.the_metrics a')
                 = ClaudeAutomation.api_calls (ClaudeAutomation.the_metrics a)
                   + Z.of_nat (api_requests new)).
  { intros x new Ht (Hr & Hs & Hc & _). exists new, 0%nat.
    rewrite Hr, Hs, Hc. repeat split; [exact Ht|auto|cbn; lia]. }
  destruct (negb (ClaudeAutomation.client a)).
  { injection H as <- <- <-. apply (Hquiet _ []); [|apply quiet_step_nil].
    rewrite app_nil_r. reflexivity. }
  destruct (ClaudeAutomation.record_request _ _) as [[[]|e] [a1 w1]] eqn:H1;
    apply record_request_quiet_step in H1 as (n1 & Ht1 & Hq1);
    cbn [trace set_uuid_draws ticked set_clock_reads] in Ht1.
  2:{ injection H as <- <- <-. eauto. }
  destruct (ClaudeAutomation.check_persistent_memory _ _ _ _)
    as [[[response|]|e] [a2 w2]] eqn:H2;
    apply check_persistent_memory_quiet_step in H2 as (n2 & Ht2 & Hq2);
    rewrite Ht1, <- app_assoc in Ht2;
    pose proof (quiet_step_app _ _ _ _ _ Hq1 Hq2) as Hq12.
  1,3: injection H as <- <- <-; eauto.
  destruct (ClaudeAutomation.check_standard_cache _ _ _ _)
    as [[[cached|]|e] [a3 w3]] eqn:H3;
    apply check_standard_cache_quiet_step in H3 as (n3 & Ht3 & Hq3);
    rewrite Ht2, <- app_assoc in Ht3;
    pose proof (quiet_step_app _ _ _ _ _ Hq12 Hq3) as Hq123.
  1,3: injection H as <- <- <-; eauto.
  destruct Hq123 as (Hr & Hs & Hc & Hm & Hd).
  apply attempts_shape in H as (n4 & k & Ht4 & Hr4 & Hk & Hs4 & Hc4);
    [|lia|lia].
  cbn [trace] in Ht4. cbn [ClaudeAutomation.the_metrics ClaudeAutomation.set_metrics
                           ClaudeAutomation.api_calls
                           ClaudeAutomation.add_cache_misses] in Hc4.
  exists (((n1 ++ n2) ++ n3) ++ n4), k.
  rewrite Ht4, Ht3, api_requests_app, sleeps_app, Hr, Hs, Hc4, Hc, Hs4, Hr4.
  rewrite <- !app_assoc. split; [reflexivity|].
  rewrite Hd, Hm in *.
  destruct (Z.to_nat (ClaudeAutomation.max_retries a + 1)) eqn:Hn.
  - cbn in Hk. assert (k = 0%nat) by lia. subst k.
    split; [left; auto|]. split; [reflexivity|]. cbn. lia.
  - split; [right; split; [reflexivity|lia]|].
    split; [|cbn; lia].
    cbn [app]. apply map_ext. intros i. rewrite Z.add_0_l. reflexivity.
Qed.

(** X2.  The counter [api_calls] counts the requests: in every run of
    [process_data_with_claude], however it ends, the counter grows by the
    number of requests sent to the API, and that number is at most
    [max_retries + 1] (none at all when [max_retries] is negative). *)
Theorem api_calls_counts_the_requests_sent
        (data : ClaudeAutomation.request_data) (a : ClaudeAutomation.state)
        (w : World) :
  exists new,
    trace (ClaudeAutomation.process_data_with_claude data (a, w)).2.2
    = trace w ++ new
    /\ ClaudeAutomation.api_calls
         (ClaudeAutomation.the_metrics
            (ClaudeAutomation.process_data_with_claude data (a, w)).2.1)
       = ClaudeAutomation.api_calls (ClaudeAutomation.the_metrics a)
         + Z.of_nat (api_requests new)
    /\ Z.of_nat (api_requests new)
       <= Z.max 0 (ClaudeAutomation.max_retries a + 1).
Proof.
  destruct (ClaudeAutomation.process_data_with_claude data (a, w))
    as [r [a' w']] eqn:H.
  apply process_data_with_claude_shape in H
    as (new & n & Ht & Hr & _ & Hc).
  exists new. cbn [fst snd]. repeat split; [exact Ht|exact Hc|].
  destruct Hr as [[-> _]|[-> Hn]]; lia.
Qed.

(** X3.  Exponential back-off: in every run of [process_data_with_claude] the
    waits between attempts are [retry_delay], twice that, four times
    that, ..., in this order; there is one wait before every request to the
    API but the first, so at most [max_retries] of them. *)
Theorem retries_wait_with_exponential_back_off
        (data : ClaudeAutomation.request_data) (a : ClaudeAutomation.state)
        (w : World) :
  exists new n,
    trace (ClaudeAutomation.process_data_with_claude data (a, w)).2.2
    = trace w ++ new
    /\ sleeps new
       = map (fun k => ClaudeAutomation.retry_delay a * 2 ^ Z.of_nat k)
             (seq 0 n)
    /\ (api_requests new = 0%nat /\ n = 0%nat \/ api_requests new = S n)
    /\ Z.of_nat n <= Z.max 0 (ClaudeAutomation.max_retries a).
Proof.
  destruct (ClaudeAutomation.process_data_with_claude data (a, w))
    as [r [a' w']] eqn:H.
  apply process_data_with_claude_shape in H
    as (new & n & Ht & Hr & Hs & _).
  exists new, n. cbn [fst snd]. repeat split; [exact Ht|exact Hs| |].
  - destruct Hr as [?|[? _]]; auto.
  - destruct Hr as [[_ ->]|[_ Hn]]; lia.
Qed.

Example back_off_of_a_failing_run :
  sleeps (trace (ClaudeAutomation.process_data_with_claude
                   (ClaudeAutomation.DataStr (py "summarize: X"))
                   (demo_automation, demo_world unavailable)).2.2)
  = [2; 4; 8].
Proof. vm_compute. reflexivity. Qed.

(** ** What a run leaves alone *)

Lemma same_oracles_refl w : same_oracles w w.
Proof. repeat split. Qed.

Lemma same_oracles_trans w1 w2 w3 :
  same_oracles w1 w2 -> same_oracles w2 w3 -> same_oracles w1 w3.
Proof.
  intros (A1 & A2 & A3 & A4 & A5 & A6) (B1 & B2 & B3 & B4 & B5 & B6).
  repeat split; congruence.
Qed.

Section MovesWorld.
Context (R : World -> World -> Prop).
Hypothesis Rrefl : forall w, R w w.
Hypothesis Rtrans : forall w1 w2 w3, R w1 w2 -> R w2 w3 -> R w1 w3.

Lemma moves_w_bind {A B} (m : M World A) (f : A -> M World B) :
  moves_w R m -> (forall a, moves_w R (f a)) -> moves_w R (bind m f).
Proof.
  intros Hm Hf w r w' Hrun. unfold bind in Hrun.
  destruct (m w) as [[a|e] w1] eqn:Hm1.
  - eapply Rtrans; [eapply Hm; exact Hm1|eapply Hf; exact Hrun].
  - injection Hrun as <- <-. eapply Hm. exact Hm1.
Qed.

Lemma moves_w_step {A} (m : M World A) :
  (forall w, R w (m w).2) -> moves_w R m.
Proof. intros H w r w' Hrun. specialize (H w). rewrite Hrun in H. exact H. Qed.

End MovesWorld.

Lemma steady_emit e : moves_w same_oracles (emit e).
Proof. apply moves_w_step. intros w. repeat split. Qed.

Lemma steady_time_time : moves_w same_oracles time_time.
Proof. apply moves_w_step. intros w. repeat split. Qed.

Lemma steady_uuid4 : moves_w same_oracles uuid4.
Proof. apply moves_w_step. intros w. repeat split. Qed.

Lemma steady_rpc svc : moves_w same_oracles (rpc svc).
Proof.
  apply moves_w_step. intros w. unfold rpc.
  destruct (fault w (rpcs w)); repeat split.
Qed.

Lemma steady_gets {A} (f : World -> A) : moves_w same_oracles (gets f).
Proof. apply moves_w_step. intros w. repeat split. Qed.

Lemma steady_ret {A} (a : A) : moves_w same_oracles (ret a).
Proof. apply moves_w_step. intros w. repeat split. Qed.

Lemma steady_optimize_query_lens lens :
  moves_w same_oracles (optimize_query_lens lens).
Proof. apply moves_w_step. intros w. repeat split. Qed.

Lemma steady_modify (f : World -> World) :
  (forall w, same_oracles w (f w)) -> moves_w same_oracles (modify f).
Proof. intros H. apply moves_w_step. intros w. apply H. Qed.

Ltac steady_step :=
  lazymatch goal with
  | |- moves_w _ (bind _ _) =>
      apply (moves_w_bind same_oracles same_oracles_trans); [|intros ?]
  | |- moves_w _ (emit _) => apply steady_emit
  | |- moves_w _ time_time => apply steady_time_time
  | |- moves_w _ uuid4 => apply steady_uuid4
  | |- moves_w _ (rpc _) => apply steady_rpc
  | |- moves_w _ (gets _) => apply steady_gets
  | |- moves_w _ (ret _) => apply steady_ret
  | |- moves_w _ (optimize_query_lens _) => apply steady_optimize_query_lens
  | |- moves_w _ (modify _) => apply steady_modify; intros ?; repeat split
  end.

Ltac steady :=
  unfold document_get, query_hash_key, document_delete, transaction_set,
    index_fetch, index_query, index_upsert, ClaudeAutomation.messages_create;
  repeat steady_step.

Section Moves.
Context {X : Type} (R : X * World -> X * World -> Prop).
Hypothesis Rrefl : forall s, R s s.
Hypothesis Rtrans : forall s1 s2 s3, R s1 s2 -> R s2 s3 -> R s1 s3.

Lemma moves_still {A} (m : M (X * World) A) :
  (forall s, (m s).2 = s) -> moves R m.
Proof.
  intros Hm s r s' Hrun. specialize (Hm s). rewrite Hrun in Hm.
  cbn in Hm. subst s'. apply Rrefl.
Qed.

Lemma moves_ret {A} (a : A) : moves R (ret a).
Proof. apply moves_still. reflexivity. Qed.

Lemma moves_raise {A} e : moves R (raise (A := A) e).
Proof. apply moves_still. reflexivity. Qed.

Lemma moves_lift_result {A} (v : result A) : moves R (lift_result v).
Proof. apply moves_still. reflexivity. Qed.

Lemma moves_self {A} (f : X -> A) : moves R (self f).
Proof. apply moves_still. intros [x w]. reflexivity. Qed.

Lemma moves_update_self (f : X -> X) :
  (forall x w, R (x, w) (f x, w)) -> moves R (update_self f).
Proof. intros Hf [x w] r s' [= <- <-]. apply Hf. Qed.

Lemma moves_bind {A B} (m : M (X * World) A) (f : A -> M (X * World) B) :
  moves R m -> (forall a, moves R (f a)) -> moves R (bind m f).
Proof.
  intros Hm Hf s r s' Hrun. unfold bind in Hrun.
  destruct (m s) as [[a|e] s1] eqn:Hm1.
  - eapply Rtrans; [eapply Hm; exact Hm1|eapply Hf; exact Hrun].
  - injection Hrun as <- <-. eapply Hm. exact Hm1.
Qed.

Lemma moves_try_except {A} (m : M (X * World) A) (h : exn -> M (X * World) A) :
  moves R m -> (forall e, moves R (h e)) -> moves R (try_except m h).
Proof.
  intros Hm Hh s r s' Hrun. unfold try_except in Hrun.
  destruct (m s) as [[a|e] s1] eqn:Hm1.
  - injection Hrun as <- <-. eapply Hm. exact Hm1.
  - eapply Rtrans; [eapply Hm; exact Hm1|eapply Hh; exact Hrun].
Qed.

Lemma moves_in_world {A} (m : M World A) :
  (forall x w w', same_oracles w w' -> R (x, w) (x, w')) ->
  moves_w same_oracles m -> moves R (in_world m).
Proof.
  intros HR Hm [x w] r s' Hrun. unfold in_world in Hrun.
  destruct (m w) as [r1 w1] eqn:Hm1. injection Hrun as <- <-.
  apply HR. eapply Hm. exact Hm1.
Qed.

Lemma moves_on {Y A} (R' : Y * World -> Y * World -> Prop)
      (getter : X -> Y) (setter : Y -> X -> X) (m : M (Y * World) A) :
  (forall x w y' w', R' (getter x, w) (y', w') -> R (x, w) (setter y' x, w')) ->
  moves R' m -> moves R (ClaudeAutomation.on getter setter m).
Proof.
  intros HR Hm [x w] r s' Hrun. unfold ClaudeAutomation.on in Hrun.
  destruct (m (getter x, w)) as [r1 [y1 w1]] eqn:Hm1.
  injection Hrun as <- <-. apply HR. eapply Hm. exact Hm1.
Qed.

End Moves.

Lemma world_kept_refl {Y} (s : Y * World) : world_kept s s.
Proof. apply same_oracles_refl. Qed.

Lemma world_kept_trans {Y} (s1 s2 s3 : Y * World) :
  world_kept s1 s2 -> world_kept s2 s3 -> world_kept s1 s3.
Proof. apply same_oracles_trans. Qed.

Lemma ttl_kept_refl s : ttl_kept s s.
Proof. split; [apply same_oracles_refl|reflexivity]. Qed.

Lemma ttl_kept_trans s1 s2 s3 : ttl_kept s1 s2 -> ttl_kept s2 s3 -> ttl_kept s1 s3.
Proof.
  intros [A1 A2] [B1 B2].
  split; [eapply same_oracles_trans; eassumption|congruence].
Qed.

Lemma kept_refl s : kept s s.
Proof. repeat split; auto. Qed.

Lemma kept_trans s1 s2 s3 : kept s1 s2 -> kept s2 s3 -> kept s1 s3.
Proof.
  intros (A1 & A2 & A3 & A4) (B1 & B2 & B3 & B4).
  split; [eapply same_oracles_trans; eassumption|].
  repeat split; [congruence|congruence|auto].
Qed.

Lemma kept_cache_refl s : kept_cache s s.
Proof. split; [apply kept_refl|reflexivity]. Qed.

Lemma kept_cache_trans s1 s2 s3 :
  kept_cache s1 s2 -> kept_cache s2 s3 -> kept_cache s1 s3.
Proof.
  intros [A1 A2] [B1 B2].
  split; [eapply kept_trans; eassumption|congruence].
Qed.

Lemma same_counters_refl s : same_counters s s.
Proof. repeat split. Qed.

Lemma same_counters_trans s1 s2 s3 :
  same_counters s1 s2 -> same_counters s2 s3 -> same_counters s1 s3.
Proof.
  intros (A1 & A2 & A3 & A4) (B1 & B2 & B3 & B4). repeat split; congruence.
Qed.

(** The side conditions of a walk: a relation between two states that
    differ by one assignment. *)
Ltac side :=
  intros;
  unfold kept_cache, kept, same_counters, world_kept, ttl_kept in *;
  cbn in *;
  repeat match goal with
         | H : _ /\ _ |- _ => destruct H
         end;
  repeat first [ assumption | reflexivity | apply same_oracles_refl
               | congruence | split | intros ? ].

Ltac moves_step Rrefl Rtrans :=
  lazymatch goal with
  | |- moves _ (bind _ _) => apply (moves_bind _ Rtrans); [|intros ?]
  | |- moves _ (try_except _ _) =>
      apply (moves_try_except _ Rtrans); [|intros ?]
  | |- moves _ (ret _) => apply (moves_ret _ Rrefl)
  | |- moves _ (raise _) => apply (moves_raise _ Rrefl)
  | |- moves _ (lift_result _) => apply (moves_lift_result _ Rrefl)
  | |- moves _ (self _) => apply (moves_self _ Rrefl)
  | |- moves _ (update_self _) => apply moves_update_self; side
  | |- moves _ (in_world _) => apply moves_in_world; [side|steady]
  | |- moves _ (as_number ?v) => destruct v; unfold as_number
  | |- moves _ (item _ _) => unfold item
  | |- moves _ (match ?x with _ => _ end) => destruct x
  end.

Ltac unfold_helpers :=
  unfold S2DOGovernance.record_transaction, S2DOGovernance._add_to_audit_trail,
    PersistentMemoryManager.retrieve_by_key,
    PersistentMemoryManager.search_semantic,
    PersistentMemoryManager.store_memory,
    PersistentMemoryManager._generate_embedding,
    CacheManager.get, CacheManager.set, CacheManager.check_memory_cache,
    CacheManager.del_memory_cache, CacheManager.del_memory_cache_expiry,
    CacheManager.check_firebase_cache, CacheManager.use_document.

Lemma record_transaction_world_kept ty data :
  moves world_kept (S2DOGovernance.record_transaction ty data).
Proof.
  unfold_helpers.
  repeat moves_step (@world_kept_refl S2DOGovernance.state)
                    (@world_kept_trans S2DOGovernance.state).
Qed.

Lemma retrieve_by_key_world_kept key :
  moves world_kept (PersistentMemoryManager.retrieve_by_key key).
Proof.
  unfold_helpers.
  repeat moves_step (@world_kept_refl PersistentMemoryManager.state)
                    (@world_kept_trans PersistentMemoryManager.state).
Qed.

Lemma search_semantic_world_kept query top_k :
  moves world_kept (PersistentMemoryManager.search_semantic query top_k).
Proof.
  unfold_helpers.
  repeat moves_step (@world_kept_refl PersistentMemoryManager.state)
                    (@world_kept_trans PersistentMemoryManager.state).
Qed.

Lemma store_memory_world_kept key content metadata :
  moves world_kept (PersistentMemoryManager.store_memory key content metadata).
Proof.
  unfold_helpers.
  repeat moves_step (@world_kept_refl PersistentMemoryManager.state)
                    (@world_kept_trans PersistentMemoryManager.state).
Qed.

Lemma get_ttl_kept prompt : moves ttl_kept (CacheManager.get prompt).
Proof. unfold_helpers. repeat moves_step ttl_kept_refl ttl_kept_trans. Qed.

Lemma set_ttl_kept prompt response :
  moves ttl_kept (CacheManager.set prompt response).
Proof. unfold_helpers. repeat moves_step ttl_kept_refl ttl_kept_trans. Qed.

Lemma on_persistent_memory_kept_cache {A}
      (m : M (PersistentMemoryManager.state * World) A) :
  moves world_kept m ->
  moves kept_cache (ClaudeAutomation.on_persistent_memory m).
Proof.
  intros Hm [a w] r s' Hrun.
  unfold ClaudeAutomation.on_persistent_memory, bind, self in Hrun.
  destruct (ClaudeAutomation.persistent_memory a) as [pm|] eqn:Hpm.
  - unfold ClaudeAutomation.on in Hrun.
    destruct (m (pm, w)) as [r1 [y1 w1]] eqn:Hm1. injection Hrun as <- <-.
    apply Hm in Hm1. unfold world_kept in Hm1. cbn in Hm1.
    repeat split; try exact Hm1; cbn; try apply Hm1. congruence.
  - injection Hrun as <- <-. apply kept_cache_refl.
Qed.

Lemma kept_cache_kept {A} (m : M (ClaudeAutomation.state * World) A) :
  moves kept_cache m -> moves kept m.
Proof. intros H s r s' Hrun. apply (H _ _ _ Hrun). Qed.

Ltac helper :=
  first [ apply record_transaction_world_kept
        | apply retrieve_by_key_world_kept
        | apply search_semantic_world_kept
        | apply store_memory_world_kept
        | apply get_ttl_kept
        | apply set_ttl_kept ].

Ltac walk_step Rrefl Rtrans :=
  lazymatch goal with
  | |- moves _ (ClaudeAutomation.governance_record _ _) =>
      unfold ClaudeAutomation.governance_record
  | |- moves kept_cache (ClaudeAutomation.on_persistent_memory _) =>
      apply on_persistent_memory_kept_cache; helper
  | |- moves kept (ClaudeAutomation.on_persistent_memory _) =>
      apply kept_cache_kept, on_persistent_memory_kept_cache; helper
  | |- moves _ (ClaudeAutomation.on_persistent_memory _) =>
      unfold ClaudeAutomation.on_persistent_memory
  | |- moves _ (ClaudeAutomation.on_cache_manager _) =>
      unfold ClaudeAutomation.on_cache_manager
  | |- moves _ (ClaudeAutomation.on _ _ _) =>
      eapply moves_on; cycle 1; [helper|side]
  | |- _ => moves_step Rrefl Rtrans
  end.

Ltac walk Rrefl Rtrans :=
  unfold ClaudeAutomation.check_persistent_memory,
    ClaudeAutomation.try_semantic_search, ClaudeAutomation.memory_hit,
    ClaudeAutomation.semantic_hit, ClaudeAutomation.check_standard_cache,
    ClaudeAutomation.attempt_body, ClaudeAutomation.send_request,
    ClaudeAutomation.store_in_persistent_memory,
    ClaudeAutomation.record_request,
    ClaudeAutomation.record_latency, ClaudeAutomation.count;
  repeat walk_step Rrefl Rtrans.

Lemma governance_record_kept_cache ty data :
  moves kept_cache (ClaudeAutomation.governance_record ty data).
Proof. walk kept_cache_refl kept_cache_trans. Qed.

Lemma record_request_kept_cache prompt :
  moves kept_cache (ClaudeAutomation.record_request prompt).
Proof. walk kept_cache_refl kept_cache_trans. Qed.

Lemma check_persistent_memory_kept_cache prompt tid start :
  moves kept_cache (ClaudeAutomation.check_persistent_memory prompt tid start).
Proof. walk kept_cache_refl kept_cache_trans. Qed.

Lemma check_standard_cache_kept prompt tid start :
  moves kept (ClaudeAutomation.check_standard_cache prompt tid start).
Proof. walk kept_refl kept_trans. Qed.

Lemma attempt_body_kept data prompt tid start model :
  moves kept (ClaudeAutomation.attempt_body data prompt tid start model).
Proof. walk kept_refl kept_trans. Qed.

Lemma attempts_kept remaining : forall attempt data prompt tid start model
                                       retries delay,
  moves kept (ClaudeAutomation.attempts remaining attempt data prompt tid start
                                        model retries delay).
Proof.
  induction remaining as [|n IH]; intros; cbn [ClaudeAutomation.attempts].
  - apply (moves_ret _ kept_refl).
  - apply (moves_try_except _ kept_trans); [apply attempt_body_kept|].
    intros e. destruct (attempt <? retries).
    + apply (moves_bind _ kept_trans); [walk kept_refl kept_trans|]. intros _.
      apply (moves_bind _ kept_trans); [walk kept_refl kept_trans|]. intros _.
      apply IH.
    + walk kept_refl kept_trans.
Qed.

Lemma governance_record_same_counters ty data :
  moves same_counters (ClaudeAutomation.governance_record ty data).
Proof. walk same_counters_refl same_counters_trans. Qed.

Lemma record_request_same_counters prompt :
  moves same_counters (ClaudeAutomation.record_request prompt).
Proof. walk same_counters_refl same_counters_trans. Qed.

(** ** Hits, misses, errors and latencies *)

(** The first step of a sequence, run on the state of [H]: its result and
    the state it leaves are named, and [H] goes on with the rest. *)
Ltac peel H E :=
  unfold bind at 1 in H;
  match type of H with
  | match ?m ?s with _ => _ end = _ =>
      let r := fresh "r" in
      let s1 := fresh "s" in
      destruct (m s) as [[r|r] s1] eqn:E
  end.

(** The governance hook never raises. *)
Lemma governance_record_returns ty data s :
  exists s', ClaudeAutomation.governance_record ty data s = (Ok tt, s').
Proof.
  destruct s as [a w].
  unfold ClaudeAutomation.governance_record, S2DOGovernance.record_transaction,
    S2DOGovernance._add_to_audit_trail.
  unfold bind, ret, raise, try_except, gets, modify, lift_result, in_world,
    self, update_self, emit, time_time, uuid4, ClaudeAutomation.on.
  cbn. repeat (branch; cbn); simplify_eq; eauto.
Qed.

(** The early return of a hit: one more hit, one more latency. *)
Lemma hit_core_counts ty data start (response : pyval) s r s' :
  (ClaudeAutomation.count ClaudeAutomation.add_cache_hits ;;
   ClaudeAutomation.record_latency start ;;
   ClaudeAutomation.governance_record ty data ;;
   ret (Some response)) s = (r, s') ->
  r = Ok (Some response) /\ one_hit s s'.
Proof.
  intros H. destruct s as [a w].
  unfold bind at 1, ClaudeAutomation.count at 1, update_self at 1 in H.
  unfold bind at 1, ClaudeAutomation.record_latency, bind at 1,
    in_world, time_time, ClaudeAutomation.count, update_self in H.
  unfold bind at 1 in H.
  match type of H with
  | context [ClaudeAutomation.governance_record ?t ?d ?s0] =>
      destruct (governance_record_returns t d s0) as [s2 Hs2];
      rewrite Hs2 in H;
      apply governance_record_same_counters in Hs2
  end.
  injection H as <- <-. split; [reflexivity|].
  destruct Hs2 as (B1 & B2 & B3 & B4).
  cbn in *. rewrite length_app in B4. cbn in B4.
  unfold one_hit. cbn. repeat split; try assumption. lia.
Qed.

Lemma memory_hit_counts key tid start (response : pyval) s r s' :
  ClaudeAutomation.memory_hit key tid start response s = (r, s') ->
  r = Ok (Some response) /\ one_hit s s'.
Proof.
  intros H. destruct s as [a w]. unfold ClaudeAutomation.memory_hit in H.
  unfold bind at 1, ClaudeAutomation.count at 1, update_self at 1 in H.
  apply hit_core_counts in H. exact H.
Qed.

Lemma semantic_hit_counts key score tid start (response : pyval) s r s' :
  ClaudeAutomation.semantic_hit key score tid start response s = (r, s') ->
  r = Ok (Some response) /\ one_hit s s'.
Proof.
  intros H. destruct s as [a w]. unfold ClaudeAutomation.semantic_hit in H.
  unfold bind at 1, ClaudeAutomation.count at 1, update_self at 1 in H.
  apply hit_core_counts in H. exact H.
Qed.

Lemma same_then_hit s1 s2 s3 :
  same_counters s1 s2 -> one_hit s2 s3 -> one_hit s1 s3.
Proof.
  intros (A1 & A2 & A3 & A4) (B1 & B2 & B3 & B4). repeat split; congruence.
Qed.

Lemma on_persistent_memory_same_counters {A}
      (m : M (PersistentMemoryManager.state * World) A) :
  moves world_kept m ->
  moves same_counters (ClaudeAutomation.on_persistent_memory m).
Proof.
  intros Hm. unfold ClaudeAutomation.on_persistent_memory.
  apply (moves_bind _ same_counters_trans);
    [apply (moves_self _ same_counters_refl)|].
  intros [pm|]; [|apply (moves_raise _ same_counters_refl)].
  eapply moves_on; [|exact Hm]. side.
Qed.

Lemma try_semantic_search_counts prompt tid start s r s' :
  ClaudeAutomation.try_semantic_search prompt tid start s = (r, s') ->
  match r with
  | Ok (Some _) => one_hit s s'
  | _ => same_counters s s'
  end.
Proof.
  intros H. unfold ClaudeAutomation.try_semantic_search in H.
  unfold bind at 1, self at 1 in H. destruct s as [a w].
  destruct (ClaudeAutomation.semantic_modeling a
            && ClaudeAutomation.auto_enrichment a).
  2:{ injection H as <- <-. apply same_counters_refl. }
  peel H E1;
    apply (on_persistent_memory_same_counters _
             (search_semantic_world_kept _ _)) in E1.
  2:{ injection H as <- <-. exact E1. }
  destruct (ClaudeAutomation.similar_enough r0) as [first|].
  2:{ injection H as <- <-. exact E1. }
  peel H E2;
    apply (on_persistent_memory_same_counters _
             (retrieve_by_key_world_kept _)) in E2;
    pose proof (same_counters_trans _ _ _ E1 E2) as E12.
  2:{ injection H as <- <-. exact E12. }
  destruct (ClaudeAutomation.response_in r1) as [response|].
  2:{ injection H as <- <-. exact E12. }
  apply semantic_hit_counts in H as [-> Hhit].
  eapply same_then_hit; eassumption.
Qed.

Lemma check_persistent_memory_counts prompt tid start s r s' :
  ClaudeAutomation.check_persistent_memory prompt tid start s = (r, s') ->
  match r with
  | Ok (Some _) => one_hit s s'
  | Ok None => same_counters s s'
  | Raise _ => False
  end.
Proof.
  intros H. unfold ClaudeAutomation.check_persistent_memory in H.
  unfold bind at 1, self at 1 in H. destruct s as [a w].
  destruct (ClaudeAutomation.persistent_memory a) as [pm|].
  2:{ injection H as <- <-. apply same_counters_refl. }
  unfold try_except in H.
  match type of H with
  | match ?m ?s with _ => _ end = _ =>
      destruct (m s) as [[v|e] s1] eqn:Hin
  end.
  - injection H as <- <-.
    unfold bind at 1, lift_result in Hin.
    destruct (ClaudeAutomation.memory_key_of prompt) as [key|e];
      [|discriminate].
    peel Hin E1;
      apply (on_persistent_memory_same_counters _
               (retrieve_by_key_world_kept _)) in E1; [|discriminate].
    destruct (ClaudeAutomation.response_in r) as [response|].
    + apply memory_hit_counts in Hin as [[= ->] Hhit].
      eapply same_then_hit; eassumption.
    + apply try_semantic_search_counts in Hin.
      destruct v as [v|];
        [eapply same_then_hit|eapply same_counters_trans]; eassumption.
  - injection H as <- <-.
    unfold bind at 1, lift_result in Hin.
    destruct (ClaudeAutomation.memory_key_of prompt) as [key|e'].
    2:{ injection Hin as <- <-. apply same_counters_refl. }
    peel Hin E1;
      apply (on_persistent_memory_same_counters _
               (retrieve_by_key_world_kept _)) in E1.
    2:{ injection Hin as <- <-. exact E1. }
    destruct (ClaudeAutomation.response_in r) as [response|].
    + apply memory_hit_counts in Hin as [[=] _].
    + apply try_semantic_search_counts in Hin. cbn in Hin.
      eapply same_counters_trans; eassumption.
Qed.

Lemma on_cache_manager_same_counters {A}
      (m : M (CacheManager.state * World) A) :
  moves ttl_kept m ->
  moves same_counters (ClaudeAutomation.on_cache_manager m).
Proof.
  intros Hm. unfold ClaudeAutomation.on_cache_manager.
  eapply moves_on; [|exact Hm]. side.
Qed.

Lemma check_standard_cache_counts prompt tid start s r s' :
  ClaudeAutomation.check_standard_cache prompt tid start s = (r, s') ->
  match r with
  | Ok (Some _) => one_hit s s'
  | _ => same_counters s s'
  end.
Proof.
  intros H. unfold ClaudeAutomation.check_standard_cache in H.
  peel H E1;
    apply (on_cache_manager_same_counters _ (get_ttl_kept _)) in E1.
  2:{ injection H as <- <-. exact E1. }
  destruct r0 as [cached|].
  2:{ injection H as <- <-. exact E1. }
  destruct (truthy cached).
  2:{ injection H as <- <-. exact E1. }
  apply hit_core_counts in H as [-> Hhit].
  eapply same_then_hit; eassumption.
Qed.

(** One step that leaves the counters alone: [Acc] relates the start to
    the state before the step, and then to the state after it. *)
Ltac through H Acc :=
  let E := fresh "E" in
  peel H E;
  [ match type of E with
    | ?m _ = _ =>
        let Hm := fresh in
        assert (Hm : moves same_counters m)
          by walk same_counters_refl same_counters_trans;
        apply Hm in E; clear Hm
    end;
    apply (same_counters_trans _ _ _ Acc) in E; clear Acc; rename E into Acc
  | match type of E with
    | ?m _ = _ =>
        let Hm := fresh in
        assert (Hm : moves same_counters m)
          by walk same_counters_refl same_counters_trans;
        apply Hm in E; clear Hm
    end;
    apply (same_counters_trans _ _ _ Acc) in E;
    injection H as <- <-; exact E ].

Lemma same_then_latency s1 s2 s3 :
  same_counters s1 s2 -> one_latency s2 s3 -> one_latency s1 s3.
Proof.
  intros (A1 & A2 & A3 & A4) (B1 & B2 & B3 & B4). repeat split; congruence.
Qed.

(** One attempt: an answer is a dictionary and comes with one more latency;
    a failure leaves the counters of hits, misses and errors alone. *)
Lemma attempt_body_counts data prompt tid start model s r s' :
  ClaudeAutomation.attempt_body data prompt tid start model s = (r, s') ->
  match r with
  | Ok v => v <> PyNone /\ one_latency s s'
  | Raise _ => same_counters s s'
  end.
Proof.
  intros H. unfold ClaudeAutomation.attempt_body in H.
  pose proof (same_counters_refl s) as Acc.
  do 9 through H Acc.
  destruct s8 as [a9 w9].
  unfold bind at 1, ClaudeAutomation.record_latency, bind at 1,
    in_world, time_time, ClaudeAutomation.count, update_self in H.
  unfold bind at 1, self at 1 in H.
  assert (Hlat : one_latency s
                   (ClaudeAutomation.set_metrics
                      (ClaudeAutomation.add_latency
                         (clock w9 (clock_reads w9) - start)
                         (ClaudeAutomation.the_metrics a9)) a9,
                    set_clock_reads (S (clock_reads w9)) w9)).
  { eapply same_then_latency; [exact Acc|].
    unfold one_latency. cbn. rewrite length_app. cbn.
    repeat split. lia. }
  cbn [ClaudeAutomation.pilot_mode ClaudeAutomation.set_metrics] in H.
  destruct (bool_decide (ClaudeAutomation.pilot_mode a9 = py "performance")).
  - unfold bind, in_world, time_time, ret in H. injection H as <- <-.
    split; [discriminate|].
    destruct Hlat as (L1 & L2 & L3 & L4). repeat split; assumption.
  - unfold bind, ret in H. injection H as <- <-.
    split; [discriminate|exact Hlat].
Qed.

Lemma same_then_error s1 s2 s3 :
  same_counters s1 s2 -> one_error s2 s3 -> one_error s1 s3.
Proof.
  intros (A1 & A2 & A3 & A4) (B1 & B2 & B3 & B4). repeat split; congruence.
Qed.

(** The loop of attempts: an answer comes with one more latency, a failure
    with one more error. *)
Lemma attempts_counts remaining :
  forall attempt data prompt tid start model retries delay s r s',
    Z.of_nat remaining = Z.max 0 (retries + 1 - attempt) ->
    ClaudeAutomation.attempts remaining attempt data prompt tid start model
                              retries delay s
    = (r, s') ->
    match r with
    | Ok v =>
        remaining <> O /\ v <> PyNone /\ one_latency s s'
        \/ remaining = O /\ v = PyNone /\ same_counters s s'
    | Raise _ => one_error s s'
    end.
Proof.
  induction remaining as [|rem IH]; intros attempt data prompt tid start model
    retries delay s r s' Hrem H; cbn [ClaudeAutomation.attempts] in H.
  - injection H as <- <-. right. repeat split.
  - unfold try_except in H.
    destruct (ClaudeAutomation.attempt_body _ _ _ _ _ _)
      as [[v|e] s1] eqn:Hbody; apply attempt_body_counts in Hbody.
    + injection H as <- <-. left. destruct Hbody.
      split; [discriminate|]. split; assumption.
    + destruct (attempt <? retries) eqn:Hlt.
      * apply Z.ltb_lt in Hlt.
        unfold bind at 1 in H.
        destruct (governance_record_returns "api_call_error"
                    (ApiCallErrorData tid e (attempt + 1)) s1) as [s2 Hgov].
        rewrite Hgov in H. apply governance_record_same_counters in Hgov.
        destruct s2 as [a2 w2].
        unfold bind at 1, in_world at 1, emit, modify in H.
        cbv beta iota zeta in H.
        apply IH in H; [|lia].
        pose proof (same_counters_trans _ _ _ Hbody Hgov) as Hsame.
        assert (Hsleep : same_counters s (a2, set_trace (trace w2 ++ [Sleep (delay * 2 ^ attempt)]) w2))
          by exact Hsame.
        destruct r as [v|e'].
        -- destruct H as [(_ & Hv & Hl)|(Hz & _)]; [|lia].
           left. split; [discriminate|]. split; [exact Hv|].
           eapply same_then_latency; eassumption.
        -- eapply same_then_error; eassumption.
      * unfold bind at 1 in H.
        destruct (governance_record_returns "api_call_failure"
                    (ApiCallFailureData tid e (retries + 1)) s1) as [s2 Hgov].
        rewrite Hgov in H. apply governance_record_same_counters in Hgov.
        destruct s2 as [a2 w2].
        unfold bind, ClaudeAutomation.count, update_self, raise in H.
        injection H as <- <-.
        eapply same_then_error;
          [eapply same_counters_trans; eassumption|].
        unfold one_error. cbn. repeat split.
Qed.

(** X4.  Every run of [process_data_with_claude] is counted once.  A run that
    returns was served from a cache tier (one more hit), or was answered by
    the API (one more miss), or found [max_retries] negative and returned
    [None] without an attempt (one more miss); a latency is recorded in the
    first two cases and the error counter is untouched.  A run that raises
    records no latency and no hit; it either failed before the API was
    tried, with all counters untouched, or failed in the last attempt, which
    counts one miss and one error. *)
Theorem every_run_is_counted_once
        (data : ClaudeAutomation.request_data) (a : ClaudeAutomation.state)
        (w : World) :
  let s := (a, w) in
  let run := ClaudeAutomation.process_data_with_claude data s in
  let hits x := ClaudeAutomation.cache_hits (ClaudeAutomation.the_metrics x) in
  let misses x :=
    ClaudeAutomation.cache_misses (ClaudeAutomation.the_metrics x) in
  let errors x := ClaudeAutomation.errors (ClaudeAutomation.the_metrics x) in
  let latencies x :=
    length (ClaudeAutomation.latency (ClaudeAutomation.the_metrics x)) in
  let a' := run.2.1 in
  match run.1 with
  | Ok v =>
      errors a' = errors a
      /\ (hits a' = hits a + 1 /\ misses a' = misses a
          /\ latencies a' = S (latencies a)
          \/ hits a' = hits a /\ misses a' = misses a + 1
             /\ latencies a' = S (latencies a)
             /\ 0 <= ClaudeAutomation.max_retries a /\ v <> PyNone
          \/ hits a' = hits a /\ misses a' = misses a + 1
             /\ latencies a' = latencies a
             /\ ClaudeAutomation.max_retries a < 0 /\ v = PyNone)
  | Raise _ =>
      hits a' = hits a /\ latencies a' = latencies a
      /\ (misses a' = misses a /\ errors a' = errors a
          \/ misses a' = misses a + 1 /\ errors a' = errors a + 1)
  end.
Proof.
  cbv zeta.
  destruct (ClaudeAutomation.process_data_with_claude data (a, w))
    as [r [a' w']] eqn:H.
  cbn [fst snd].
  rewrite process_data_with_claude_eq in H. cbv zeta in H.
  destruct (negb (ClaudeAutomation.client a)).
  { injection H as <- <- <-. repeat split. left. split; reflexivity. }
  destruct (ClaudeAutomation.record_request _ _) as [[[]|e] [a1 w1]] eqn:H1;
    destruct (record_request_quiet_step _ _ _ _ _ _ H1)
      as (n1 & _ & _ & _ & _ & M1 & _);
    apply record_request_same_counters in H1;
    destruct H1 as (A1 & A2 & A3 & A4); cbn [fst snd] in A1, A2, A3, A4.
  2:{ injection H as <- <- <-. repeat split; try assumption. left. auto. }
  destruct (ClaudeAutomation.check_persistent_memory _ _ _ _)
    as [[[response|]|e] [a2 w2]] eqn:H2;
    destruct (check_persistent_memory_quiet_step _ _ _ _ _ _ _ _ H2)
      as (n2 & _ & _ & _ & _ & M2 & _);
    apply check_persistent_memory_counts in H2; [| |contradiction];
    destruct H2 as (B1 & B2 & B3 & B4); cbn [fst snd] in B1, B2, B3, B4.
  { injection H as <- <- <-. split; [congruence|]. left.
    repeat split; congruence. }
  destruct (ClaudeAutomation.check_standard_cache _ _ _ _)
    as [[[cached|]|e] [a3 w3]] eqn:H3;
    destruct (check_standard_cache_quiet_step _ _ _ _ _ _ _ _ H3)
      as (n3 & _ & _ & _ & _ & M3 & _);
    apply check_standard_cache_counts in H3;
    destruct H3 as (C1 & C2 & C3 & C4); cbn [fst snd] in C1, C2, C3, C4.
  { injection H as <- <- <-. split; [congruence|]. left.
    repeat split; congruence. }
  2:{ injection H as <- <- <-. repeat split; try congruence. left.
      split; congruence. }
  assert (Hm : ClaudeAutomation.max_retries a3 = ClaudeAutomation.max_retries a)
    by congruence.
  apply attempts_counts in H; [|lia].
  destruct r as [v|e].
  - destruct H as [(Hn & Hv & D1 & D2 & D3 & D4)|(Hn & Hv & D1 & D2 & D3 & D4)];
      cbn [fst snd ClaudeAutomation.the_metrics ClaudeAutomation.set_metrics
           ClaudeAutomation.cache_hits ClaudeAutomation.cache_misses
           ClaudeAutomation.errors ClaudeAutomation.latency
           ClaudeAutomation.add_cache_misses] in D1, D2, D3, D4.
    + split; [congruence|]. right. left.
      repeat split; try congruence; lia.
    + split; [congruence|]. right. right.
      repeat split; try congruence; lia.
  - destruct H as (D1 & D2 & D3 & D4);
      cbn [fst snd ClaudeAutomation.the_metrics ClaudeAutomation.set_metrics
           ClaudeAutomation.cache_hits ClaudeAutomation.cache_misses
           ClaudeAutomation.errors ClaudeAutomation.latency
           ClaudeAutomation.add_cache_misses] in D1, D2, D3, D4.
    repeat split; try congruence. right. split; congruence.
Qed.

(** ** An answer of the API is cached *)

(** As [through], for the relation with the given proofs of reflexivity
    and transitivity, in a run that does not raise. *)
Ltac through_rel H Acc R Rrefl Rtrans :=
  let E := fresh "E" in
  peel H E;
  [ match type of E with
    | ?m _ = _ =>
        let Hm := fresh in
        assert (Hm : moves R m) by walk Rrefl Rtrans;
        apply Hm in E; clear Hm
    end;
    apply (Rtrans _ _ _ Acc) in E; clear Acc; rename E into Acc
  | discriminate H ].

Lemma attempt_body_cached data prompt tid start model b v r a1 w1 :
  ClaudeAutomation.attempt_body data prompt tid start model (b, v)
  = (Ok r, (a1, w1)) ->
  ClaudeAutomation.persistent_memory b = None ->
  exists key n,
    CacheManager._generate_cache_key prompt = Ok key
    /\ CacheManager.memory_cache (ClaudeAutomation.cache_manager a1) !! key
       = Some r
    /\ CacheManager.memory_cache_expiry (ClaudeAutomation.cache_manager a1)
         !! key
       = Some (Float (clock v n
                      + CacheManager.cache_ttl
                          (ClaudeAutomation.cache_manager b)))
    /\ truthy r = true.
Proof.
  intros H Hpm. unfold ClaudeAutomation.attempt_body in H.
  pose proof (kept_refl (b, v)) as Acc.
  do 5 through_rel H Acc kept kept_refl kept_trans.
  destruct s3 as [b5 v5]. destruct Acc as (Ho & _ & Httl & Hnone).
  cbn [fst snd] in Ho, Httl, Hnone. specialize (Hnone Hpm).
  unfold bind at 1, ClaudeAutomation.on_cache_manager, ClaudeAutomation.on in H.
  rewrite set_eq in H.
  destruct (CacheManager._generate_cache_key prompt) as [key|e] eqn:Hkey;
    [|discriminate H].
  cbv zeta in H.
  match type of H with
  | context [if ?c then (Ok tt, (?cm6, ?wa)) else (Ok tt, (?cm6, ?wb))] =>
      replace (if c then (Ok tt, (cm6, wa)) else (Ok tt, (cm6, wb)))
        with (Ok tt, (cm6, if c then wa else wb)) in H
        by (destruct c; reflexivity);
      generalize dependent (if c then wa else wb); intros w6 H
  end.
  cbv beta iota zeta in H.
  match type of H with
  | _ ?s6 = _ => pose proof (kept_cache_refl s6) as Acc
  end.
  do 6 through_rel H Acc kept_cache kept_cache_refl kept_cache_trans.
  unfold ret in H. injection H as <- ->.
  destruct Acc as [_ Hcm]. cbn [fst snd] in Hcm.
  exists key, (clock_reads v5). split; [reflexivity|].
  rewrite Hcm. cbn [ClaudeAutomation.cache_manager
                      ClaudeAutomation.set_cache_manager].
  destruct (populate_lookup key (ClaudeAutomation.response_dict_of r1 r4)
              (Float (clock v5 (clock_reads v5)
                      + CacheManager.cache_ttl
                          (ClaudeAutomation.cache_manager b5)))
              (ClaudeAutomation.cache_manager b5)) as [Hv He].
  rewrite Hv, He. destruct Ho as (Hc & _). rewrite Hc, Httl.
  repeat split.
Qed.

Lemma attempts_cached remaining :
  forall attempt data prompt tid start model retries delay b v r a1 w1,
    remaining <> O ->
    Z.of_nat remaining = Z.max 0 (retries + 1 - attempt) ->
    ClaudeAutomation.persistent_memory b = None ->
    ClaudeAutomation.attempts remaining attempt data prompt tid start model
                              retries delay (b, v)
    = (Ok r, (a1, w1)) ->
    exists key n,
      CacheManager._generate_cache_key prompt = Ok key
      /\ CacheManager.memory_cache (ClaudeAutomation.cache_manager a1) !! key
         = Some r
      /\ CacheManager.memory_cache_expiry (ClaudeAutomation.cache_manager a1)
           !! key
         = Some (Float (clock v n
                        + CacheManager.cache_ttl
                            (ClaudeAutomation.cache_manager b)))
      /\ truthy r = true.
Proof.
  induction remaining as [|rem IH]; intros attempt data prompt tid start model
    retries delay b v r a1 w1 Hpos Hrem Hpm H; [contradiction|].
  cbn [ClaudeAutomation.attempts] in H. unfold try_except in H.
  destruct (ClaudeAutomation.attempt_body _ _ _ _ _ _)
    as [[v0|e] [b1 v1]] eqn:Hbody.
  - injection H as <- <- <-. eapply attempt_body_cached; eassumption.
  - apply attempt_body_kept in Hbody.
    destruct (attempt <? retries) eqn:Hlt.
    + apply Z.ltb_lt in Hlt.
      unfold bind at 1 in H.
      destruct (ClaudeAutomation.governance_record _ _ _)
        as [[[]|e2] [b2 v2]] eqn:Hgov; [|discriminate H].
      apply governance_record_kept_cache in Hgov. destruct Hgov as [Hgov _].
      pose proof (kept_trans _ _ _ Hbody Hgov) as (Ho & _ & Httl & Hnone).
      cbn [fst snd] in Ho, Httl, Hnone.
      unfold bind at 1, in_world at 1, emit, modify in H.
      cbv beta iota zeta in H.
      apply IH in H; [|lia|lia|auto].
      destruct H as (key & n & Hkey & Hv & He & Htr).
      exists key, n. cbn [clock set_trace] in He.
      destruct Ho as (Hc & _). rewrite Hc, Httl in He. auto.
    + unfold bind at 1 in H.
      destruct (ClaudeAutomation.governance_record _ _ _)
        as [[[]|e2] [b2 v2]]; [|discriminate H].
      unfold bind, ClaudeAutomation.count, update_self, raise in H.
      discriminate H.
Qed.

Lemma generate_cache_key_then_sha256 prompt key e :
  CacheManager._generate_cache_key prompt = Ok key ->
  ClaudeAutomation.sha256_hex prompt <> Raise e.
Proof.
  unfold CacheManager._generate_cache_key, ClaudeAutomation.sha256_hex.
  destruct (Utf8.encode prompt); congruence.
Qed.

Lemma check_persistent_memory_absent prompt tid start a w :
  ClaudeAutomation.persistent_memory a = None ->
  ClaudeAutomation.check_persistent_memory prompt tid start (a, w)
  = (Ok None, (a, w)).
Proof.
  intros Hpm. unfold ClaudeAutomation.check_persistent_memory, bind, self.
  rewrite Hpm. reflexivity.
Qed.

Lemma set_cache_manager_same a :
  ClaudeAutomation.set_cache_manager (ClaudeAutomation.cache_manager a) a = a.
Proof. destruct a. reflexivity. Qed.

(** A live entry of the fast tier is returned as a hit. *)
Lemma check_standard_cache_live prompt tid start key (r : pyval) e c x :
  CacheManager._generate_cache_key prompt = Ok key ->
  CacheManager.memory_cache (ClaudeAutomation.cache_manager c) !! key = Some r ->
  CacheManager.memory_cache_expiry (ClaudeAutomation.cache_manager c) !! key
  = Some e ->
  number_gt e (clock x (clock_reads x)) = true ->
  truthy r = true ->
  exists c' x' new,
    ClaudeAutomation.check_standard_cache prompt tid start (c, x)
    = (Ok (Some r), (c', x'))
    /\ one_hit (c, x) (c', x')
    /\ trace x' = trace x ++ new
    /\ api_requests new = 0%nat.
Proof.
  intros Hkey Hv He Hlt Htruthy.
  destruct (ClaudeAutomation.check_standard_cache prompt tid start (c, x))
    as [res [c' x']] eqn:Hrun.
  exists c', x'.
  destruct (check_standard_cache_quiet_step _ _ _ _ _ _ _ _ Hrun)
    as (new & Ht & Hq & _).
  exists new.
  unfold ClaudeAutomation.check_standard_cache in Hrun.
  unfold bind at 1, ClaudeAutomation.on_cache_manager, ClaudeAutomation.on
    in Hrun.
  rewrite (get_live_entry _ _ _ _ _ _ Hkey Hv He Hlt) in Hrun.
  rewrite set_cache_manager_same, Htruthy in Hrun.
  apply hit_core_counts in Hrun as [-> Hhit].
  repeat split; try assumption; apply Hhit.
Qed.

(** X5.  An answer of the API is cached: when a run of
    [process_data_with_claude] without persistent memory was answered by
    the API, a following run with the same data, while every reading of
    the clock is below the binary64 sum of any other reading and the
    time-to-live, returns the same answer from the cache: it sends no
    request to the API and counts one hit. *)
Theorem api_answer_is_served_from_the_cache_next_time
        (data : ClaudeAutomation.request_data)
        (a a1 : ClaudeAutomation.state) (w w1 : World) (r : pyval)
        (sent : list event) :
  ClaudeAutomation.persistent_memory a = None ->
  (forall m n,
      (clock w m
       <? clock w n
          + CacheManager.cache_ttl (ClaudeAutomation.cache_manager a))%float
      = true) ->
  ClaudeAutomation.process_data_with_claude data (a, w) = (Ok r, (a1, w1)) ->
  trace w1 = trace w ++ sent ->
  api_requests sent <> 0%nat ->
  exists a2 w2 again,
    ClaudeAutomation.process_data_with_claude data (a1, w1)
    = (Ok r, (a2, w2))
    /\ trace w2 = trace w1 ++ again
    /\ api_requests again = 0%nat
    /\ ClaudeAutomation.cache_hits (ClaudeAutomation.the_metrics a2)
       = ClaudeAutomation.cache_hits (ClaudeAutomation.the_metrics a1) + 1.
Proof.
  intros Hpm Hclock H Ht Hsent.
  rewrite process_data_with_claude_eq in H. cbv zeta in H.
  destruct (ClaudeAutomation.client a) eqn:Hclient; [|discriminate H].
  cbn [negb] in H.
  destruct (ClaudeAutomation.record_request _ _) as [[[]|e] [b1 v1]] eqn:H1;
    [|discriminate H].
  destruct (record_request_quiet_step _ _ _ _ _ _ H1) as (n1 & Ht1 & Q1).
  cbn [trace set_uuid_draws ticked set_clock_reads] in Ht1.
  apply record_request_kept_cache in H1.
  destruct H1 as [(O1 & C1 & T1 & P1) _]. cbn [fst snd] in O1, C1, T1, P1.
  specialize (P1 Hpm).
  rewrite (check_persistent_memory_absent _ _ _ _ _ P1) in H.
  destruct (ClaudeAutomation.check_standard_cache _ _ _ _)
    as [[[cached|]|e] [b3 v3]] eqn:H3; [|  |discriminate H].
  { (* a hit: no request was sent *)
    injection H as <- <- <-.
    destruct (check_standard_cache_quiet_step _ _ _ _ _ _ _ _ H3)
      as (n3 & Ht3 & Q3).
    pose proof (quiet_step_app _ _ _ _ _ Q1 Q3) as (Hr & _).
    rewrite Ht3, Ht1, <- app_assoc in Ht. apply app_inv_head in Ht.
    subst sent. contradiction. }
  destruct (check_standard_cache_quiet_step _ _ _ _ _ _ _ _ H3)
    as (n3 & Ht3 & Q3).
  pose proof (quiet_step_app _ _ _ _ _ Q1 Q3) as (Hr13 & _ & _ & Hm13 & _).
  apply check_standard_cache_kept in H3.
  destruct H3 as (O3 & C3 & T3 & P3). cbn [fst snd] in O3, C3, T3, P3.
  specialize (P3 P1).
  destruct (Z.to_nat (ClaudeAutomation.max_retries b3 + 1)) as [|rem] eqn:Hrem.
  { cbn [ClaudeAutomation.attempts] in H. injection H as <- <- <-.
    cbn [trace] in Ht. rewrite Ht3, Ht1, <- app_assoc in Ht.
    apply app_inv_head in Ht. subst sent. contradiction. }
  pose proof H as Hkept. apply attempts_kept in Hkept.
  destruct Hkept as (O4 & C4 & T4 & P4). cbn [fst snd] in O4, C4, T4, P4.
  apply attempts_cached in H; [|discriminate|lia|exact P3].
  destruct H as (key & n & Hkey & Hv & He & Htruthy).
  cbn [ClaudeAutomation.cache_manager ClaudeAutomation.set_metrics] in He, T4.
  specialize (P4 P3).
  cbn [ClaudeAutomation.client ClaudeAutomation.set_metrics] in C4.
  (* the second run *)
  rewrite process_data_with_claude_eq. cbv zeta.
  assert (Hclient1 : ClaudeAutomation.client a1 = true) by congruence.
  rewrite Hclient1. cbn [negb].
  destruct (ClaudeAutomation.record_request _ _) as [[[]|e] [c1 x1]] eqn:G1.
  2:{ apply record_request_frame in G1 as (_ & _ & _ & _ & Hraise).
      apply generate_cache_key_then_sha256 with (e := e) in Hkey.
      contradiction. }
  destruct (record_request_quiet_step _ _ _ _ _ _ G1) as (m1 & Hs1 & R1).
  cbn [trace set_uuid_draws ticked set_clock_reads] in Hs1.
  pose proof (record_request_same_counters _ _ _ _ G1) as (S1 & _).
  cbn [fst snd] in S1.
  apply record_request_kept_cache in G1.
  destruct G1 as [(O5 & C5 & T5 & P5) Hcm5].
  cbn [fst snd] in O5, C5, T5, P5, Hcm5. specialize (P5 P4).
  rewrite (check_persistent_memory_absent _ _ _ _ _ P5).
  assert (Hlive : number_gt
                    (Float (clock v3 n
                            + CacheManager.cache_ttl
                                (ClaudeAutomation.cache_manager b3)))
                    (clock x1 (clock_reads x1)) = true).
  { cbn [number_gt].
    destruct O1 as (K1 & _), O3 as (K3 & _), O4 as (K4 & _), O5 as (K5 & _).
    cbn [clock set_uuid_draws ticked set_clock_reads] in K1, K5.
    rewrite K5, K4, K3, K1, T3, T1. apply Hclock. }
  rewrite <- Hcm5 in Hv, He.
  destruct (check_standard_cache_live (ClaudeAutomation.prompt_of data)
              (uuids w1 (uuid_draws w1)) (clock w1 (clock_reads w1))
              key r _ c1 x1 Hkey Hv He Hlive Htruthy)
    as (c2 & x2 & m3 & Hrun & Hhit & Hs3 & R3).
  rewrite Hrun. exists c2, x2, (m1 ++ m3).
  split; [reflexivity|].
  split; [rewrite Hs3, Hs1, app_assoc; reflexivity|].
  split.
  - rewrite api_requests_app, R3. destruct R1 as (-> & _). reflexivity.
  - destruct Hhit as (Hh & _). cbn [fst snd] in Hh. rewrite Hh, S1.
    reflexivity.
Qed.

Lemma api_answer_is_served_from_the_cache_next_time_witness :
  exists a2 w2 again,
    ClaudeAutomation.process_data_with_claude
      (ClaudeAutomation.DataStr (py "summarize: X"))
      (first_run.2.1, first_run.2.2)
    = (Ok demo_answer, (a2, w2))
    /\ trace w2 = trace first_run.2.2 ++ again
    /\ api_requests again = 0%nat
    /\ ClaudeAutomation.cache_hits (ClaudeAutomation.the_metrics a2)
       = ClaudeAutomation.cache_hits
           (ClaudeAutomation.the_metrics first_run.2.1) + 1.
Proof.
  apply (api_answer_is_served_from_the_cache_next_time
           (ClaudeAutomation.DataStr (py "summarize: X"))
           memoryless_automation first_run.2.1
           frozen_world first_run.2.2
           demo_answer (trace first_run.2.2)).
  - reflexivity.
  - intros m n. vm_compute. reflexivity.
  - vm_compute. reflexivity.
  - vm_compute. reflexivity.
  - vm_compute. discriminate.
Defined.

(** * Further properties of the cache manager *)

Lemma cache_data_fields prompt response expiry key s2 :
  expiry_of (CacheManager.cache_data prompt response expiry key s2)
  = Some (Float expiry)
  /\ dict_get "response" (CacheManager.cache_data prompt response expiry key s2)
     = Some response.
Proof. destruct s2; split; reflexivity. Qed.

(** X6.  The durable tier survives a restart: what [set] wrote to Firestore is
    returned by [get] of a manager that starts with an empty fast tier
    ([__init__]) and looks documents up by name, the standard path, as long
    as the clock reading of that [get] is below the expiry that [set]
    computed, the binary64 sum of its clock reading and the time-to-live,
    and neither call fails; the entry is copied into the fast tier of the
    new manager with that expiry. *)
Theorem durable_entry_survives_a_restart
        (prompt : pystr) (response : pyval) (key : pystr)
        (cm : CacheManager.state) (w : World) (ttl' : float) (s2' : bool) :
  CacheManager._generate_cache_key prompt = Ok key ->
  CacheManager.firebase_enabled cm = true ->
  fault w (rpcs w) = None ->
  fault w (S (rpcs w)) = None ->
  (clock w (S (clock_reads w))
   <? clock w (clock_reads w) + CacheManager.cache_ttl cm)%float = true ->
  let expiry := (clock w (clock_reads w) + CacheManager.cache_ttl cm)%float in
  let restarted := CacheManager.__init__ true ttl' s2' false in
  exists w2,
    CacheManager.get prompt
      (restarted, (CacheManager.set prompt response (cm, w)).2.2)
    = (Ok (Some response),
       (populate key response (Float expiry) restarted, w2)).
Proof.
  intros Hkey Hfb Hf1 Hf2 Hlive expiry restarted.
  rewrite set_eq, Hkey, Hfb. cbv zeta. cbn [snd].
  rewrite transaction_set_eq.
  cbn [fault rpcs ticked set_clock_reads]. rewrite Hf1. cbn [snd].
  fold expiry.
  set (data := CacheManager.cache_data prompt response expiry key
                 (CacheManager.s2_persistence_enabled cm)).
  rewrite get_eq, Hkey. cbv zeta.
  rewrite check_memory_cache_eq.
  assert (Hempty : CacheManager.memory_cache restarted !! key = None)
    by apply lookup_empty.
  rewrite Hempty.
  cbn [CacheManager.firebase_enabled restarted CacheManager.__init__].
  rewrite check_firebase_cache_eq.
  cbn [CacheManager.q4d_lens_enabled].
  rewrite document_get_eq.
  cbn [fault rpcs ticked set_clock_reads set_firestore_docs sent set_rpcs
       set_trace firestore_docs].
  rewrite Hf2, lookup_insert_eq, use_document_eq.
  destruct (cache_data_fields prompt response expiry key
              (CacheManager.s2_persistence_enabled cm)) as [He Hr].
  fold data in He, Hr. rewrite He, Hr.
  cbn [number_gt clock clock_reads ticked set_clock_reads set_firestore_docs
       sent set_rpcs set_trace].
  unfold expiry. rewrite Hlive.
  eexists. reflexivity.
Qed.

Lemma durable_entry_survives_a_restart_witness :
  exists w2,
    CacheManager.get (py "summarize: X")
      (restarted_manager,
       (CacheManager.set (py "summarize: X") demo_value
          (demo_manager false, demo_world healthy)).2.2)
    = (Ok (Some demo_value),
       (populate demo_key demo_value
          (Float (clock (demo_world healthy)
                    (clock_reads (demo_world healthy))
                  + CacheManager.cache_ttl (demo_manager false)))
          restarted_manager, w2)).
Proof.
  apply (durable_entry_survives_a_restart
           (py "summarize: X") demo_value demo_key
           (demo_manager false) (demo_world healthy) 86400%float false).
  - vm_compute. reflexivity.
  - reflexivity.
  - reflexivity.
  - reflexivity.
  - vm_compute. reflexivity.
Defined.

(** X7.  What the cache manager sends: [get] sends at most two requests, a read
    and possibly a delete, never a write, so the collection can only
    shrink; [set] sends at most one request, the
    write of the document named by the key, and leaves every other document
    as it is.  Without Firebase neither sends anything. *)
Theorem cache_requests_are_bounded
        (prompt : pystr) (response : pyval) (cm : CacheManager.state)
        (w : World) :
  (exists new,
      trace (CacheManager.get prompt (cm, w)).2.2 = trace w ++ new
      /\ (length new <= 2)%nat
      /\ Forall (lookup_or_delete cm) new
      /\ firestore_docs (CacheManager.get prompt (cm, w)).2.2
         ⊆ firestore_docs w)
  /\ (exists new,
         trace (CacheManager.set prompt response (cm, w)).2.2 = trace w ++ new
         /\ (length new <= 1)%nat
         /\ (forall key,
                CacheManager._generate_cache_key prompt = Ok key ->
                Forall (write_of cm key) new
                /\ forall id,
                    id <> key ->
                    firestore_docs (CacheManager.set prompt response (cm, w)).2.2
                      !! id
                    = firestore_docs w !! id)).
Proof.
  split.
  - rewrite get_eq.
    destruct (CacheManager._generate_cache_key prompt) as [key|e].
    2:{ exists []. rewrite app_nil_r. cbn. repeat split; auto. }
    cbv zeta. rewrite check_memory_cache_eq.
    destruct (CacheManager.memory_cache cm !! key) as [v|].
    + destruct (CacheManager.memory_cache_expiry cm !! key) as [e|].
      2:{ exists []. rewrite app_nil_r. cbn. repeat split; auto. }
      destruct (number_gt e (clock w (clock_reads w))).
      { exists []. rewrite app_nil_r. cbn. repeat split; auto. }
      change (CacheManager.firebase_enabled (evict key cm))
        with (CacheManager.firebase_enabled cm).
      destruct (CacheManager.firebase_enabled cm) eqn:Hfb.
      2:{ exists []. rewrite app_nil_r. cbn. repeat split; auto. }
      run_cache; simplify_eq; cbn [fst snd].
      all: cbn; rewrite <- ?app_assoc.
      all: first [ eexists; (split; [reflexivity|]); cbn
                 | exists []; rewrite app_nil_r; (split; [reflexivity|]); cbn ].
      all: repeat split; repeat constructor; auto using delete_subseteq.
      all: first [exact Hfb | reflexivity | apply delete_subseteq].
    + destruct (CacheManager.firebase_enabled cm) eqn:Hfb.
      2:{ exists []. rewrite app_nil_r. cbn. repeat split; auto. }
      run_cache; simplify_eq; cbn [fst snd].
      all: cbn; rewrite <- ?app_assoc.
      all: first [ eexists; (split; [reflexivity|]); cbn
                 | exists []; rewrite app_nil_r; (split; [reflexivity|]); cbn ].
      all: repeat split; repeat constructor; auto using delete_subseteq.
      all: first [exact Hfb | reflexivity | apply delete_subseteq].
  - rewrite set_eq.
    destruct (CacheManager._generate_cache_key prompt) as [key|e].
    2:{ exists []. rewrite app_nil_r. cbn. repeat split; auto. }
    cbv zeta.
    destruct (CacheManager.firebase_enabled cm) eqn:Hfb.
    2:{ exists []. rewrite app_nil_r. cbn. repeat split; auto. }
    rewrite transaction_set_eq.
    destruct (fault (ticked w) (rpcs (ticked w))); cbn.
    all: eexists; (split; [reflexivity|]); cbn.
    all: split; [lia|].
    all: intros key' [= <-]; split; [repeat constructor; auto|].
    all: intros id Hne; rewrite ?lookup_insert_ne by congruence; reflexivity.
Qed.

Lemma cache_requests_are_bounded_witness :
  exists new,
    trace (CacheManager.set (py "summarize: X") demo_value
             (demo_manager false, demo_world healthy)).2.2
    = trace (demo_world healthy) ++ new
    /\ (length new <= 1)%nat
    /\ Forall (write_of (demo_manager false) demo_key) new.
Proof.
  destruct (cache_requests_are_bounded
              (py "summarize: X") demo_value
              (demo_manager false) (demo_world healthy))
    as [_ (new & Ht & Hl & Hk)].
  exists new. split; [exact Ht|]. split; [exact Hl|].
  apply (Hk demo_key). vm_compute. reflexivity.
Defined.

(** * Persistent memory *)

Lemma dict_get_set k k' v d :
  dict_get k (dict_set k' v d)
  = if String.eqb k k' then Some v else dict_get k d.
Proof.
  induction d as [|[k0 v0] d IH]; cbn.
  - destruct (String.eqb k k'); reflexivity.
  - destruct (String.eqb k' k0) eqn:H0; cbn.
    + apply String.eqb_eq in H0. subst k0.
      destruct (String.eqb k k'); reflexivity.
    + destruct (String.eqb k k0) eqn:H1.
      * apply String.eqb_eq in H1. subst k0.
        rewrite String.eqb_sym in H0. rewrite H0. reflexivity.
      * exact IH.
Qed.

(** X8.  The three methods of the persistent memory catch whatever Pinecone or
    the embedding service raise: each returns normally in every world, and
    none changes the manager. *)
Theorem persistent_memory_never_raises
        (pm : PersistentMemoryManager.state) (w : World) (key : pystr)
        (content : pyval) (metadata : pydict) (query : pystr) (top_k : nat) :
  (exists stored w',
      PersistentMemoryManager.store_memory key content metadata (pm, w)
      = (Ok stored, (pm, w')))
  /\ (exists found w',
         PersistentMemoryManager.retrieve_by_key key (pm, w)
         = (Ok found, (pm, w')))
  /\ (exists matches w',
         PersistentMemoryManager.search_semantic query top_k (pm, w)
         = (Ok matches, (pm, w'))).
Proof.
  unfold PersistentMemoryManager.store_memory,
    PersistentMemoryManager.retrieve_by_key,
    PersistentMemoryManager.search_semantic,
    PersistentMemoryManager._generate_embedding,
    index_fetch, index_query, index_upsert.
  unfold bind, ret, raise, try_except, gets, modify, lift_result, in_world,
    self, update_self, emit, time_time, rpc.
  cbn. repeat split; repeat (branch; cbn); simplify_eq; eauto.
Qed.

(** X9.  A stored entry is retrieved by its key: after [store_memory] returned
    [True], a [retrieve_by_key] of the same key whose fetch does not fail
    returns the metadata that was passed in, with the field "key" set to
    the key; only the fields "timestamp", "content_preview" and "key" may
    differ from what the caller passed. *)
Theorem stored_memory_is_retrieved_by_key
        (pm pm1 : PersistentMemoryManager.state) (w w1 : World) (key : pystr)
        (content : pyval) (metadata : pydict) :
  PersistentMemoryManager.store_memory key content metadata (pm, w)
  = (Ok true, (pm1, w1)) ->
  fault w1 (rpcs w1) = None ->
  exists md,
    PersistentMemoryManager.retrieve_by_key key (pm1, w1)
    = (Ok (Some md), (pm1, sent (PineconeFetch key) w1))
    /\ dict_get "key" md = Some (PyStr key)
    /\ forall field,
        field <> "timestamp"%string -> field <> "content_preview"%string ->
        field <> "key"%string ->
        dict_get field md = dict_get field metadata.
Proof.
  intros Hstore Hfault.
  unfold PersistentMemoryManager.store_memory,
    PersistentMemoryManager._generate_embedding, index_upsert in Hstore.
  unfold bind, ret, raise, try_except, gets, modify, lift_result, in_world,
    self, update_self, emit, time_time, rpc in Hstore.
  cbn in Hstore.
  destruct (negb (PersistentMemoryManager.pinecone_enabled pm)
            || negb (PersistentMemoryManager.index pm)) eqn:Hoff;
    [discriminate Hstore|].
  repeat (branch_in Hstore; cbn in Hstore); simplify_eq.
  all: unfold PersistentMemoryManager.retrieve_by_key, index_fetch.
  all: unfold bind, ret, raise, try_except, gets, modify, lift_result,
         in_world, self, update_self, emit, rpc.
  all: cbn; rewrite Hoff; cbn in Hfault |- *; rewrite Hfault; cbn.
  all: rewrite lookup_insert_eq; cbn.
  all: eexists; split; [reflexivity|].
  all: unfold dict_update; cbn [fold_left fst snd].
  all: split;
    [ rewrite dict_get_set; reflexivity
    | intros field H1 H2 H3; rewrite !dict_get_set;
      destruct (String.eqb_spec field "key"); [contradiction|];
      destruct (String.eqb_spec field "timestamp"); [contradiction|];
      reflexivity ].
Qed.

Lemma stored_memory_is_retrieved_by_key_witness :
  exists md,
    PersistentMemoryManager.retrieve_by_key (py "prompt_x")
      (demo_store.2.1, demo_store.2.2)
    = (Ok (Some md),
       (demo_store.2.1, sent (PineconeFetch (py "prompt_x")) demo_store.2.2))
    /\ dict_get "key" md = Some (PyStr (py "prompt_x"))
    /\ dict_get "response" md = Some demo_value.
Proof.
  destruct (stored_memory_is_retrieved_by_key
              demo_memory demo_store.2.1 (demo_world healthy) demo_store.2.2
              (py "prompt_x") demo_value
              [ ("response", demo_value); ("model", PyStr (py "claude")) ]%string)
    as (md & Hget & Hkey & Hrest).
  - vm_compute. reflexivity.
  - reflexivity.
  - exists md. split; [exact Hget|]. split; [exact Hkey|].
    rewrite (Hrest "response"%string) by discriminate. reflexivity.
Defined.

(** * The configuration *)

Section Carries.
Context {S : Type} (R : S -> S -> Prop).
Hypothesis Rrefl : forall s, R s s.
Hypothesis Rtrans : forall s1 s2 s3, R s1 s2 -> R s2 s3 -> R s1 s3.

Lemma carries_ret {A} (a : A) : carries R (ret a).
Proof. intros s r s' [= <- <-]. apply Rrefl. Qed.

Lemma carries_gets {A} (f : S -> A) : carries R (gets f).
Proof. intros s r s' [= <- <-]. apply Rrefl. Qed.

Lemma carries_bind {A B} (m : M S A) (f : A -> M S B) :
  carries R m -> (forall a, carries R (f a)) -> carries R (bind m f).
Proof.
  intros Hm Hf s r s' Hrun. unfold bind in Hrun.
  destruct (m s) as [[a|e] s1] eqn:Hm1.
  - eapply Rtrans; [eapply Hm; exact Hm1|eapply Hf; exact Hrun].
  - injection Hrun as <- <-. eapply Hm. exact Hm1.
Qed.

End Carries.

Lemma grows_refl c : grows c c.
Proof. repeat split; auto. Qed.

Lemma grows_trans c1 c2 c3 : grows c1 c2 -> grows c2 c3 -> grows c1 c3.
Proof.
  intros (A1 & A2 & A3) (B1 & B2 & B3). repeat split; auto.
Qed.

Lemma setting_of_assigned c section key v s0 section' key' :
  c !! section = Some s0 ->
  setting_of (<[section := <[key := v]> s0]> c) section' key'
  = if decide (section' = section /\ key' = key) then Some v
    else setting_of c section' key'.
Proof.
  intros Hs. unfold setting_of.
  destruct (decide (section' = section)) as [->|Hne].
  - rewrite lookup_insert_eq, Hs.
    destruct (decide (key' = key)) as [->|Hk].
    + rewrite lookup_insert_eq. rewrite decide_True by auto. reflexivity.
    + rewrite lookup_insert_ne by congruence.
      rewrite decide_False by tauto. reflexivity.
  - rewrite lookup_insert_ne by congruence.
    rewrite decide_False by tauto. reflexivity.
Qed.

Lemma assign_grows section key v : carries grows (assign section key v).
Proof.
  intros c r c' H. unfold assign in H.
  destruct (c !! section) as [s0|] eqn:Hs; injection H as <- <-;
    [|apply grows_refl].
  split; [|split].
  - intros s1 H1. destruct (decide (s1 = section)) as [->|Hne].
    + rewrite lookup_insert_eq. eauto.
    + rewrite lookup_insert_ne by congruence. exact H1.
  - intros s1 k1 H1. rewrite (setting_of_assigned _ _ _ _ _ _ _ Hs).
    destruct (decide _); eauto.
  - intros Hnone. destruct (decide ("firestore"%string = section)) as [<-|Hne].
    + congruence.
    + rewrite lookup_insert_ne by congruence. exact Hnone.
Qed.

Lemma assign_if_firestore_grows key : carries grows (assign_if_firestore key).
Proof.
  unfold assign_if_firestore.
  apply (carries_bind _ grows_trans); [apply (carries_gets _ grows_refl)|].
  intros []; [apply assign_grows|apply (carries_ret _ grows_refl)].
Qed.

Lemma create_section_grows section s :
  section <> "firestore"%string ->
  carries grows
    (present <- has_section section ;;
     if present then ret tt else put_section section s).
Proof.
  intros Hne c r c' H.
  unfold bind, has_section, gets, put_section, modify, ret in H.
  destruct (bool_decide (is_Some (c !! section))) eqn:Hp;
    injection H as <- <-; [apply grows_refl|].
  apply bool_decide_eq_false in Hp.
  assert (Hnone : c !! section = None)
    by (destruct (c !! section); [exfalso; eauto|reflexivity]).
  split; [|split].
  - intros s1 H1. destruct (decide (s1 = section)) as [->|Hn].
    + rewrite lookup_insert_eq. eauto.
    + rewrite lookup_insert_ne by congruence. exact H1.
  - intros s1 k1 H1. unfold setting_of in *.
    destruct (decide (s1 = section)) as [->|Hn].
    + rewrite Hnone in H1. destruct H1. discriminate.
    + rewrite lookup_insert_ne by congruence. exact H1.
  - intros Hf. rewrite lookup_insert_ne by congruence. exact Hf.
Qed.

Lemma create_section_then_grows {A} section s (k : M config_dict A) :
  section <> "firestore"%string ->
  carries grows k ->
  carries grows
    (present <- has_section section ;;
     (if present then ret tt else put_section section s) ;;
     k).
Proof.
  intros Hne Hk c r c' H.
  destruct ((present <- has_section section ;;
             if present then ret tt else put_section section s) c)
    as [r1 c1] eqn:H1.
  pose proof (create_section_grows section s Hne _ _ _ H1) as Hg.
  unfold bind, has_section, gets, put_section, modify, ret in H, H1.
  destruct (bool_decide (is_Some (c !! section)));
    injection H1 as <- <-; apply Hk in H;
    eapply grows_trans; eassumption.
Qed.

Ltac grows_step :=
  lazymatch goal with
  | |- carries grows (bind (has_section _) _) =>
      apply create_section_then_grows; [discriminate|]
  | |- carries grows (bind _ _) =>
      apply (carries_bind _ grows_trans); [|intros ?]
  | |- carries grows (assign _ _ _) => apply assign_grows
  | |- carries grows (assign_if_firestore _) => apply assign_if_firestore_grows
  | |- carries grows (ret _) => apply (carries_ret _ grows_refl)
  | |- carries grows (if ?b then _ else _) => destruct b
  end.

Lemma configure_pilot_mode_grows mode : carries grows (configure_pilot_mode mode).
Proof. unfold configure_pilot_mode. repeat grows_step. Qed.

Lemma has_section_eq section (c : config_dict) :
  has_section section c
  = (Ok match c !! section with Some _ => true | None => false end, c).
Proof.
  unfold has_section, gets. destruct (c !! section); reflexivity.
Qed.

(** One step of the run of a sequence of assignments on a dictionary. *)
Ltac config_step c :=
  first
    [ rewrite has_section_eq
    | rewrite lookup_insert_eq
    | rewrite lookup_insert_ne by discriminate
    | progress cbv beta iota zeta
    | progress unfold bind at 1
    | progress unfold assign at 1
    | progress unfold ret at 1
    | match goal with
      | H : c !! ?s = _ |- context [c !! ?s] => rewrite H
      end
    | match goal with
      | |- context [match c !! ?s with _ => _ end] => destruct (c !! s) eqn:?
      end ].

(** X10.  Which configurations a pilot mode accepts: [configure_pilot_mode]
    returns normally when the configuration has every section that the
    mode writes to, and otherwise raises [KeyError] for the first of them
    that is missing; the section "pilot_panel" is created when missing and
    "firestore" is written to only if present, so neither is needed. *)
Theorem configure_pilot_mode_needs_its_sections
        (mode : pystr) (c : config_dict) :
  (configure_pilot_mode mode c).1
  = match first_missing (required_sections mode) c with
    | None => Ok tt
    | Some section => Raise (KeyError (py section))
    end.
Proof.
  unfold configure_pilot_mode, required_sections.
  unfold bind at 1. rewrite has_section_eq. cbv beta iota zeta.
  unfold bind at 1.
  assert (Hpanel :
    exists c1 : config_dict,
      (if match c !! "pilot_panel"%string with Some _ => true | None => false end
       then ret tt
       else put_section "pilot_panel"
              (list_to_map [ ("mode", cstr "standard"); ("ui_enabled", cflag true);
                             ("metrics_collection", cflag true) ]%string)) c
      = (Ok tt, c1)
      /\ is_Some (c1 !! "pilot_panel"%string)
      /\ forall s, s <> "pilot_panel"%string -> c1 !! s = c !! s).
  { destruct (c !! "pilot_panel"%string) eqn:Hp.
    - exists c. rewrite Hp. repeat split; eauto.
    - eexists. split; [reflexivity|]. split.
      + rewrite lookup_insert_eq. eauto.
      + intros s Hs. rewrite lookup_insert_ne by congruence. reflexivity. }
  destruct Hpanel as (c1 & -> & [panel Hpanel] & Hsame).
  unfold bind at 1, assign at 1. rewrite Hpanel.
  unfold assign_if_firestore.
  repeat match goal with
         | |- context [bool_decide (mode = ?m)] => destruct (bool_decide (mode = m))
         end;
    cbn [first_missing].
  all: rewrite <- ?(Hsame "automation"%string), <- ?(Hsame "firebase"%string),
         <- ?(Hsame "governance"%string), <- ?(Hsame "pinecone"%string),
         <- ?(Hsame "anthropic"%string),
         <- ?(Hsame "semantic_modeling"%string),
         <- ?(Hsame "blockchain"%string) by discriminate.
  all: clear Hsame; revert Hpanel; generalize c1; clear c c1; intros c Hpanel.
  all: repeat config_step c.
  all: reflexivity.
Qed.

Lemma mode_ttl_bounds mode : 43200 <= mode_ttl mode <= 1209600.
Proof.
  unfold mode_ttl.
  repeat match goal with
         | |- context [bool_decide ?P] => destruct (bool_decide P)
         end; lia.
Qed.

Lemma get_setting c s k v d :
  setting_of c s k = Some v -> ConfigurationManager.get c s k d = v.
Proof.
  unfold setting_of, ConfigurationManager.get.
  destruct (c !! s) as [s0|]; [|discriminate]. intros ->. reflexivity.
Qed.

(** The settings that every pilot mode writes. *)
Lemma configure_pilot_mode_sets (mode : pystr) (c c' : config_dict) :
  configure_pilot_mode mode c = (Ok tt, c') ->
  setting_of c' "pilot_panel" "mode" = Some (PyStr mode)
  /\ setting_of c' "pinecone" "enabled" = Some (cflag true)
  /\ setting_of c' "automation" "cache_ttl" = Some (cint (mode_ttl mode)).
Proof.
  intros H. revert H.
  unfold configure_pilot_mode, mode_ttl, setting_of.
  unfold bind at 1. rewrite has_section_eq. cbv beta iota zeta.
  unfold bind at 1.
  assert (Hpanel :
    exists c1 : config_dict,
      (if match c !! "pilot_panel"%string with Some _ => true | None => false end
       then ret tt
       else put_section "pilot_panel"
              (list_to_map [ ("mode", cstr "standard"); ("ui_enabled", cflag true);
                             ("metrics_collection", cflag true) ]%string)) c
      = (Ok tt, c1)
      /\ is_Some (c1 !! "pilot_panel"%string)).
  { destruct (c !! "pilot_panel"%string) eqn:Hp.
    - exists c. rewrite Hp. repeat split; eauto.
    - eexists. split; [reflexivity|]. rewrite lookup_insert_eq. eauto. }
  destruct Hpanel as (c1 & -> & [panel Hpanel]).
  unfold bind at 1, assign at 1. rewrite Hpanel.
  unfold assign_if_firestore.
  repeat match goal with
         | |- context [bool_decide (mode = ?m)] => destruct (bool_decide (mode = m))
         end.
  all: revert Hpanel; generalize c1; clear c c1; intros c Hpanel.
  all: repeat config_step c.
  all: intros [= <-].
  all: repeat first [ rewrite lookup_insert_eq
                    | rewrite lookup_insert_ne by discriminate ].
  all: repeat split; reflexivity.
Qed.

(** X11.  What every pilot mode sets: after [configure_pilot_mode] returned
    normally, the configuration holds the mode under "pilot_panel",
    persistent memory is enabled, and the time-to-live of the cache is the
    one of the mode, between twelve hours and fourteen days, whatever the
    file said; no section and no setting was removed, and the section
    "firestore" was not created. *)
Theorem configure_pilot_mode_settings
        (mode : pystr) (c c' : config_dict) (default : setting) :
  configure_pilot_mode mode c = (Ok tt, c') ->
  ConfigurationManager.get c' "pilot_panel" "mode" default
  = PyStr mode
  /\ ConfigurationManager.get c' "pinecone" "enabled" default = cflag true
  /\ ConfigurationManager.get c' "automation" "cache_ttl" default
     = cint (mode_ttl mode)
  /\ 43200 <= mode_ttl mode <= 1209600
  /\ grows c c'.
Proof.
  intros H.
  destruct (configure_pilot_mode_sets _ _ _ H) as (H1 & H2 & H3).
  split; [exact (get_setting _ _ _ _ _ H1)|].
  split; [exact (get_setting _ _ _ _ _ H2)|].
  split; [exact (get_setting _ _ _ _ _ H3)|].
  split; [exact (mode_ttl_bounds mode)|].
  exact (configure_pilot_mode_grows mode _ _ _ H).
Qed.

(** With its own fallback configuration, the Claude script can be put into
    every pilot mode. *)
Example fallback_configuration_accepts_every_mode (mode : pystr) :
  (configure_pilot_mode mode ConfigurationManager.default_config).1 = Ok tt.
Proof.
  rewrite configure_pilot_mode_needs_its_sections. unfold required_sections.
  repeat match goal with
         | |- context [bool_decide ?P] => destruct (bool_decide P)
         end; vm_compute; reflexivity.
Qed.

Lemma configure_pilot_mode_settings_witness :
  ConfigurationManager.get economy_configured.2 "pilot_panel" "mode" cnone
  = PyStr (py "economy")
  /\ ConfigurationManager.get economy_configured.2 "pinecone" "enabled" cnone
     = cflag true
  /\ ConfigurationManager.get economy_configured.2 "automation" "cache_ttl" cnone
     = cint (mode_ttl (py "economy"))
  /\ 43200 <= mode_ttl (py "economy") <= 1209600
  /\ grows ConfigurationManager.default_config economy_configured.2.
Proof.
  apply (configure_pilot_mode_settings
           (py "economy") ConfigurationManager.default_config
           economy_configured.2 cnone).
  pose proof (fallback_configuration_accepts_every_mode (py "economy")) as H.
  unfold economy_configured.
  destruct (configure_pilot_mode (py "economy")
              ConfigurationManager.default_config) as [r c'].
  cbn [fst snd] in *. rewrite H. reflexivity.
Defined.

(** A lookup in a dictionary written as a literal. *)
Ltac lookup_in_literal :=
  unfold ConfigurationManager.default_config in *;
  subst;
  repeat (rewrite list_to_map_cons;
          first [ rewrite lookup_insert_eq
                | rewrite lookup_insert_ne by discriminate ]);
  rewrite ?list_to_map_nil, ?lookup_empty;
  try reflexivity.

(** ** The options of the command line *)

Lemma same_setting_refl s k c : same_setting s k c c.
Proof. reflexivity. Qed.

Lemma same_setting_trans s k c1 c2 c3 :
  same_setting s k c1 c2 -> same_setting s k c2 c3 -> same_setting s k c1 c3.
Proof. unfold same_setting. congruence. Qed.

Lemma assign_other s k s' k' v :
  s' <> s \/ k' <> k -> carries (same_setting s k) (assign s' k' v).
Proof.
  intros Hne c r c' H. unfold assign in H.
  destruct (c !! s') as [s0|] eqn:Hs; injection H as <- <-; [|reflexivity].
  unfold same_setting. rewrite (setting_of_assigned _ _ _ _ _ _ _ Hs).
  rewrite decide_False; [reflexivity|]. intros [-> ->]. tauto.
Qed.

Lemma assign_sets s k v c c' :
  assign s k v c = (Ok tt, c') -> setting_of c' s k = Some v.
Proof.
  unfold assign. destruct (c !! s) as [s0|] eqn:Hs; intros [= <-].
  rewrite (setting_of_assigned _ _ _ _ _ _ _ Hs).
  rewrite decide_True by auto. reflexivity.
Qed.

Lemma put_section_other s k s' d :
  s' <> s -> carries (same_setting s k) (put_section s' d).
Proof.
  intros Hne c r c' [= <- <-]. unfold same_setting, setting_of.
  rewrite lookup_insert_ne by congruence. reflexivity.
Qed.

Lemma ensure_firestore_config_present c :
  is_Some (c !! "firestore"%string) -> ensure_firestore_config c = (Ok tt, c).
Proof.
  intros [s Hs]. unfold ensure_firestore_config, bind.
  rewrite has_section_eq, Hs. reflexivity.
Qed.

Lemma setting_of_section c s k v :
  setting_of c s k = Some v -> is_Some (c !! s).
Proof. unfold setting_of. destruct (c !! s); [eauto|discriminate]. Qed.

Ltac same_setting_step :=
  lazymatch goal with
  | |- carries (same_setting ?s ?k) (bind _ _) =>
      apply (carries_bind _ (same_setting_trans s k)); [|intros ?]
  | |- carries _ (assign_given ?x _ _ _) => unfold assign_given; destruct x
  | |- carries _ ensure_firestore_config => unfold ensure_firestore_config
  | |- carries _ (assign _ _ _) =>
      apply assign_other; first [left; discriminate | right; discriminate]
  | |- carries _ (put_section _ _) => apply put_section_other; discriminate
  | |- carries (same_setting ?s ?k) (has_section _) =>
      apply (carries_gets _ (same_setting_refl s k))
  | |- carries (same_setting ?s ?k) (ret _) =>
      apply (carries_ret _ (same_setting_refl s k))
  | |- carries _ (if ?b then _ else _) => destruct b
  | |- carries _ (match ?x with _ => _ end) => destruct x
  end.

(** The setting survives the step of [E]. *)
Ltac survives Hset E :=
  match type of E with
  | ?m ?c = (_, ?c') =>
      match type of Hset with
      | setting_of c ?s ?k = _ =>
          let Hm := fresh in
          assert (Hm : carries (same_setting s k) m)
            by (repeat same_setting_step);
          let Hsame := fresh in
          pose proof (Hm _ _ _ E) as Hsame; unfold same_setting in Hsame;
          rewrite <- Hsame in Hset; clear Hm Hsame
      end
  end.

(** The setting survives the steps that follow. *)
Ltac chain Hset :=
  repeat match goal with
         | E : _ = (Ok tt, _) |- _ => survives Hset E
         end.

Ltac peel_ok H E :=
  peel H E; [|discriminate H];
  match type of E with _ = (Ok ?u, _) => destruct u end.

(** X13.  The options of the command line win over the pilot mode.  After the
    part of [main] that prepares the configuration returned normally: the
    mode is the one asked for; the time-to-live of the cache is the one of
    [--cache-ttl] when it is given and the one of the mode otherwise;
    persistent memory is enabled unless [--no-memory] is given, whatever
    the file said; [--s2-persistence] and [--q4d-lens] are both in effect
    when both are given; [--no-governance] disables the governance even
    with [--governance-mode]. *)
Theorem command_line_options_override_the_pilot_mode
        (args : arguments) (c c' : config_dict) (default : setting) :
  main_configure args c = (Ok tt, c') ->
  ConfigurationManager.get c' "pilot_panel" "mode" default
  = PyStr (arg_mode args)
  /\ ConfigurationManager.get c' "automation" "cache_ttl" default
     = cint (match arg_cache_ttl args with
             | Some ttl => ttl
             | None => mode_ttl (arg_mode args)
             end)
  /\ ConfigurationManager.get c' "pinecone" "enabled" default
     = cflag (negb (arg_no_memory args))
  /\ (arg_s2_persistence args = true ->
      ConfigurationManager.get c' "firestore" "s2_persistence_enabled" default
      = cflag true)
  /\ (arg_q4d_lens args = true ->
      ConfigurationManager.get c' "firestore" "q4d_lens_enabled" default
      = cflag true)
  /\ (arg_no_governance args = true ->
      ConfigurationManager.get c' "governance" "enabled" default
      = cflag false).
Proof.
  intros H. unfold main_configure in H.
  peel_ok H E0. peel_ok H E1. peel_ok H E2. peel_ok H E3. peel_ok H E4.
  peel_ok H E5. peel_ok H E6. peel_ok H E7. peel_ok H E8. peel_ok H E9.
  peel_ok H E10. peel_ok H E11.
  destruct (configure_pilot_mode_sets _ _ _ E0) as (Hmode & Hmem & Httl).
  clear E0.
  split; [|split; [|split; [|split; [|split]]]].
  - chain Hmode. exact (get_setting _ _ _ _ _ Hmode).
  - chain Httl. apply get_setting.
    destruct (arg_cache_ttl args) as [ttl|]; cbn [assign_given] in E3.
    + apply assign_sets in E3 as Hset. clear Httl. chain Hset. exact Hset.
    + chain Httl. exact Httl.
  - chain Hmem. apply get_setting.
    destruct (arg_no_memory args); cbn [negb].
    + apply assign_sets in E8 as Hset. clear Hmem. chain Hset. exact Hset.
    + chain Hmem. exact Hmem.
  - intros Hs2. rewrite Hs2 in E4. apply get_setting.
    peel_ok E4 E4a. apply assign_sets in E4 as Hset.
    destruct (arg_q4d_lens args).
    + peel_ok E5 E5a.
      rewrite ensure_firestore_config_present in E5a
        by (eapply setting_of_section; exact Hset).
      injection E5a as <-. chain Hset. exact Hset.
    + chain Hset. exact Hset.
  - intros Hq4d. rewrite Hq4d in E5. apply get_setting.
    peel_ok E5 E5a. apply assign_sets in E5 as Hset.
    chain Hset. exact Hset.
  - intros Hgov. rewrite Hgov in E6. apply get_setting.
    apply assign_sets in E6 as Hset. chain Hset. exact Hset.
Qed.

(** Runs the steps of a configuration whose sections are known. *)
Ltac run_configuration :=
  repeat (try unfold bind at 1;
          repeat first [ rewrite has_section_eq
                       | progress unfold ret at 1
                       | progress unfold assign at 1
                       | progress unfold put_section, modify
                       | rewrite lookup_insert_eq
                       | rewrite lookup_insert_ne by discriminate
                       | match goal with
                         | H : _ !! _ = _ |- _ => rewrite H
                         end
                       | progress cbv beta iota ]).

(** The fallback configuration accepts the options of [demo_arguments]. *)
Example demo_arguments_are_accepted : demo_configured.1 = Ok tt.
Proof.
  unfold demo_configured, main_configure, demo_arguments.
  cbn [arg_mode arg_interval arg_no_cache arg_cache_ttl arg_s2_persistence
       arg_q4d_lens arg_no_governance arg_governance_mode arg_blockchain
       arg_no_memory arg_semantic_modeling arg_auto_enrichment arg_model
       arg_max_tokens arg_temperature given_str given_int assign_given].
  pose proof (fallback_configuration_accepts_every_mode (py "economy")) as H0.
  destruct (configure_pilot_mode (py "economy")
              ConfigurationManager.default_config) as [r c0] eqn:E0.
  cbn [fst] in H0. subst r.
  destruct (configure_pilot_mode_sets _ _ _ E0) as (_ & Hmem & Httl).
  apply setting_of_section in Hmem as [pinecone Hmem].
  apply setting_of_section in Httl as [automation Httl].
  unfold bind at 1. rewrite E0.
  unfold ensure_firestore_config.
  run_configuration.
  destruct (c0 !! "firestore"%string) as [firestore|] eqn:Hfire;
    run_configuration; reflexivity.
Qed.

Lemma command_line_options_override_the_pilot_mode_witness :
  ConfigurationManager.get demo_configured.2 "pilot_panel" "mode" cnone
  = PyStr (arg_mode demo_arguments)
  /\ ConfigurationManager.get demo_configured.2 "automation" "cache_ttl" cnone
     = cint (match arg_cache_ttl demo_arguments with
             | Some ttl => ttl
             | None => mode_ttl (arg_mode demo_arguments)
             end)
  /\ ConfigurationManager.get demo_configured.2 "pinecone" "enabled" cnone
     = cflag (negb (arg_no_memory demo_arguments))
  /\ (arg_s2_persistence demo_arguments = true ->
      ConfigurationManager.get demo_configured.2
        "firestore" "s2_persistence_enabled" cnone
      = cflag true)
  /\ (arg_q4d_lens demo_arguments = true ->
      ConfigurationManager.get demo_configured.2
        "firestore" "q4d_lens_enabled" cnone
      = cflag true)
  /\ (arg_no_governance demo_arguments = true ->
      ConfigurationManager.get demo_configured.2 "governance" "enabled" cnone
      = cflag false).
Proof.
  apply (command_line_options_override_the_pilot_mode
           demo_arguments ConfigurationManager.default_config
           demo_configured.2 cnone).
  pose proof demo_arguments_are_accepted as H.
  unfold demo_configured in *.
  destruct (main_configure demo_arguments
              ConfigurationManager.default_config) as [r c'].
  cbn [fst snd] in *. rewrite H. reflexivity.
Defined.

(** ** The construction of the configuration manager *)

(** X14.  [ConfigurationManager.__init__] builds none of its components.  The
    constructors of the governance, of the persistent memory and of the
    semantic modelling are given the dictionary itself and read it with
    the three-argument [get] of the manager, which the built-in dictionary
    rejects.  So the constructor returns exactly when the sections
    "governance" and "pinecone" both leave [enabled] false, and the manager
    it returns has no governance, no persistent memory and no semantic
    modelling; otherwise it raises [TypeError], whatever the remaining
    statements of the three constructors do.  With the fallback dictionary
    of [_load_config], which enables both, it always raises. *)
Theorem configuration_manager_builds_no_component
        {G P D : Type} (file : option config_dict)
        (governance_rest : Dict.value -> M World G)
        (memory_rest : Dict.value -> M World P)
        (modeling_rest : P -> Dict.value -> M World D) (w : World) :
  let config := ConfigurationManager._load_config file in
  let enabled section :=
    setting_truthy
      (ConfigurationManager.get config section "enabled" (cflag false)) in
  ConfigurationManager.__init__ file governance_rest memory_rest modeling_rest w
  = (if enabled "governance"%string || enabled "pinecone"%string
     then Raise (TypeError "get expected at most 2 arguments, got 3")
     else Ok (ConfigurationManager.Manager config None None None),
     w)
  /\ ConfigurationManager.__init__ None governance_rest memory_rest
                                   modeling_rest w
     = (Raise (TypeError "get expected at most 2 arguments, got 3"), w).
Proof.
  cbv zeta.
  assert (Hinit : forall file,
    ConfigurationManager.__init__ file governance_rest memory_rest
                                  modeling_rest w
    = (if setting_truthy
            (ConfigurationManager.get (ConfigurationManager._load_config file)
               "governance" "enabled" (cflag false))
          || setting_truthy
               (ConfigurationManager.get
                  (ConfigurationManager._load_config file)
                  "pinecone" "enabled" (cflag false))
       then Raise (TypeError "get expected at most 2 arguments, got 3")
       else Ok (ConfigurationManager.Manager
                  (ConfigurationManager._load_config file) None None None),
       w)).
  { intros f.
    unfold ConfigurationManager.__init__, S2DOGovernance__init__,
      PersistentMemoryManager__init__, SemanticDataModeling__init__.
    destruct (setting_truthy
                (ConfigurationManager.get _ "governance" "enabled" _));
      [reflexivity|].
    destruct (setting_truthy
                (ConfigurationManager.get _ "pinecone" "enabled" _));
      reflexivity. }
  split; [apply Hinit|].
  rewrite Hinit. unfold ConfigurationManager._load_config.
  unfold ConfigurationManager.get. lookup_in_literal.
Qed.

(** ** The embedding computed from hashes *)

Lemma encode_from_plain pos t :
  Forall (fun c => Utf8.is_surrogate c = false) t ->
  exists bs, Utf8.encode_from pos t = Ok bs.
Proof.
  intros H. revert pos. induction H as [|c t Hc _ IH]; intros pos; cbn.
  - eauto.
  - rewrite Hc. destruct (IH (S pos)) as [bs ->]. eauto.
Qed.

Lemma encode_from_app_plain pos s t :
  Forall (fun c => Utf8.is_surrogate c = false) t ->
  match Utf8.encode_from pos s with
  | Ok _ => exists bs, Utf8.encode_from pos (s ++ t) = Ok bs
  | Raise e => Utf8.encode_from pos (s ++ t) = Raise e
  end.
Proof.
  intros Ht. revert pos. induction s as [|c s IH]; intros pos; cbn.
  - apply encode_from_plain, Ht.
  - destruct (Utf8.is_surrogate c); [reflexivity|].
    specialize (IH (S pos)).
    destruct (Utf8.encode_from (S pos) s).
    + destruct IH as [bs ->]. eauto.
    + rewrite IH. reflexivity.
Qed.

Lemma digits_plain u : Forall (fun c => Utf8.is_surrogate c = false) (digits u).
Proof. induction u; cbn; constructor; auto. Qed.

(** The chaining state of SHA-256 keeps its eight words. *)
Lemma round_length w st t : length st = 8%nat -> length (SHA256.round w st t) = 8%nat.
Proof.
  intros H. do 9 (destruct st as [|? st]; try discriminate H). reflexivity.
Qed.

Lemma compress_length st block :
  length st = 8%nat -> length (SHA256.compress st block) = 8%nat.
Proof.
  intros H. unfold SHA256.compress.
  rewrite length_map, length_combine, H.
  assert (Hfold : forall ts st0, length st0 = 8%nat ->
            length (fold_left (SHA256.round (SHA256.schedule block)) ts st0)
            = 8%nat).
  { induction ts as [|t ts IH]; intros st0 H0; cbn [fold_left]; [exact H0|].
    apply IH, round_length, H0. }
  rewrite Hfold by exact H. reflexivity.
Qed.

Lemma absorb_length st buf bs :
  length st = 8%nat ->
  length (Bytes.absorb SHA256.compress st buf bs) = 8%nat.
Proof.
  revert st buf. induction bs as [|b bs IH]; intros st buf H;
    cbn [Bytes.absorb]; [exact H|].
  destruct (_ =? _)%nat; apply IH; [apply compress_length|]; exact H.
Qed.

Lemma digest_not_empty msg : SHA256.digest msg <> [].
Proof.
  unfold SHA256.digest.
  pose proof (absorb_length SHA256.init [] (SHA256.pad msg) eq_refl) as H.
  destruct (Bytes.absorb _ _ _ _) as [|x st]; [discriminate H|].
  cbn [flat_map]. unfold Bytes.be_bytes, Bytes.le_bytes.
  cbn [seq map rev app]. discriminate.
Qed.

Lemma hex_value_of_byte b :
  exists d1 d2,
    hex_value (Bytes.hex_digit (Byte.to_N b / 16)) = Some d1
    /\ hex_value (Bytes.hex_digit (Byte.to_N b mod 16)) = Some d2.
Proof. destruct b; vm_compute; eauto. Qed.

Lemma int16_from_hex bs acc : is_Some (int16_from acc (Bytes.hex bs)).
Proof.
  revert acc. induction bs as [|b bs IH]; intros acc; cbn [Bytes.hex int16_from].
  - eauto.
  - destruct (hex_value_of_byte b) as (d1 & d2 & -> & ->). apply IH.
Qed.

Lemma int16_hexdigest msg : is_Some (int16 (SHA256.hexdigest msg)).
Proof.
  unfold SHA256.hexdigest. pose proof (digest_not_empty msg) as H.
  destruct (SHA256.digest msg) as [|b bs]; [congruence|].
  apply (int16_from_hex (b :: bs) 0).
Qed.

Lemma normalized_in_range r :
  0 <= r < 10000 -> in_range (normalized r) = true.
Proof.
  intros Hr.
  assert (Hall : forallb (fun n => in_range (normalized (Z.of_nat n)))
                         (seq 0 (Z.to_nat 10000)) = true)
    by (vm_compute; reflexivity).
  rewrite forallb_forall in Hall.
  specialize (Hall (Z.to_nat r)). rewrite Z2Nat.id in Hall by lia.
  apply Hall, in_seq. lia.
Qed.

(** One turn of the loop fails only on a text that cannot be encoded. *)
Lemma hash_component_some text i :
  match hash_component text i with
  | Some x => in_range x = true
  | None => exists e, Utf8.encode text = Raise e
  end.
Proof.
  unfold hash_component, Utf8.encode.
  pose proof (encode_from_app_plain 0 text (py ":" ++ str_of_nat i)) as H.
  destruct (Utf8.encode_from 0 text) as [bs|e] eqn:E.
  - destruct H as [encoded ->].
    { constructor; [reflexivity|apply digits_plain]. }
    destruct (int16_hexdigest encoded) as [h ->].
    apply normalized_in_range, Z.mod_pos_bound. lia.
  - rewrite H; [eauto|].
    constructor; [reflexivity|apply digits_plain].
Qed.

Lemma hash_loop_bounded text n : forall i acc,
  Forall (fun x => in_range x = true) acc ->
  match hash_loop text i n acc with
  | Some v => length v = (length acc + n)%nat
              /\ Forall (fun x => in_range x = true) v
  | None => n <> 0%nat /\ exists e, Utf8.encode text = Raise e
  end.
Proof.
  induction n as [|n IH]; intros i acc Hacc; cbn [hash_loop].
  - split; [lia|exact Hacc].
  - pose proof (hash_component_some text i) as Hc.
    destruct (hash_component text i) as [x|].
    + specialize (IH (S i) (acc ++ [x])).
      destruct (hash_loop text (S i) n (acc ++ [x])) as [v|].
      * destruct IH as [Hlen Hall].
        { apply Forall_app; split; [exact Hacc|]. constructor; auto. }
        split; [|exact Hall]. rewrite Hlen, length_app. cbn. lia.
      * destruct IH as [_ He].
        { apply Forall_app; split; [exact Hacc|]. constructor; auto. }
        split; [lia|exact He].
    + split; [lia|exact Hc].
Qed.

(** X15.  The vector that [_generate_embedding] computes from hashes has as many
    components as the configured dimension, each at least -1 and below 1;
    the computation fails (and the method answers [None]) only for a
    positive dimension and a text that UTF-8 cannot encode. *)
Theorem hash_embedding_is_a_bounded_vector
        (vector_dimension : Z) (text : pystr) :
  match hash_embedding vector_dimension text with
  | Some v =>
      length v = Z.to_nat vector_dimension
      /\ Forall (fun x => in_range x = true) v
  | None =>
      0 < vector_dimension /\ exists e, Utf8.encode text = Raise e
  end.
Proof.
  unfold hash_embedding.
  pose proof (hash_loop_bounded text (Z.to_nat vector_dimension) 0%nat []
                (List.Forall_nil _)) as H.
  destruct (hash_loop text 0 (Z.to_nat vector_dimension) []) as [v|].
  - exact H.
  - destruct H as [Hn He]. split; [lia|exact He].
Qed.

(** The first three components for the text "hi", as CPython computes
    them. *)
Example hash_embedding_of_hi :
  hash_embedding 3 (py "hi")
  = Some [0.32919999999999994; 0.853; (-0.7336)]%float.
Proof. vm_compute. reflexivity. Qed.

(** ** The client of the Claude script *)

(** X16.  A stored key masks the environment.  When the section "anthropic" of
    the configuration holds [api_key] with a false value, such as the null
    of the fallback dictionary, [initialize_client] raises [ValueError]
    whatever the environment variable ANTHROPIC_API_KEY holds: the value of
    the variable is only the default of the lookup, and the lookup finds
    the stored value. *)
Theorem stored_api_key_masks_the_environment
        {C : Type} (config : config_dict) (environ_key : option pystr)
        (new_client : setting -> result C) (stored : setting) :
  setting_of config "anthropic" "api_key" = Some stored ->
  setting_truthy stored = false ->
  initialize_client config environ_key new_client
  = ValueError "Anthropic API key not provided".
Proof.
  intros Hstored Hfalse. unfold initialize_client.
  rewrite (get_setting _ _ _ _ _ Hstored), Hfalse. reflexivity.
Qed.

Lemma stored_api_key_masks_the_environment_witness :
  initialize_client (ConfigurationManager._load_config None)
                    (Some (py "sk-ant-api03")) (fun _ => Ok tt)
  = ValueError "Anthropic API key not provided".
Proof.
  apply (stored_api_key_masks_the_environment
           (ConfigurationManager._load_config None)
           (Some (py "sk-ant-api03")) (fun _ => Ok tt) cnone).
  - unfold ConfigurationManager._load_config, setting_of. lookup_in_literal.
  - reflexivity.
Defined.

(** * Semantic data modelling *)

Lemma store_memory_returns key content metadata pm w :
  exists stored w',
    PersistentMemoryManager.store_memory key content metadata (pm, w)
    = (Ok stored, (pm, w')).
Proof.
  unfold PersistentMemoryManager.store_memory,
    PersistentMemoryManager._generate_embedding, index_upsert.
  unfold bind, ret, raise, try_except, gets, modify, lift_result, in_world,
    self, update_self, emit, time_time, rpc.
  cbn. repeat (branch; cbn); simplify_eq; eauto.
Qed.

Lemma search_semantic_returns query top_k pm w :
  exists matches w',
    PersistentMemoryManager.search_semantic query top_k (pm, w)
    = (Ok matches, (pm, w'))
    /\ (length matches <= top_k)%nat.
Proof.
  unfold PersistentMemoryManager.search_semantic,
    PersistentMemoryManager._generate_embedding, index_query.
  unfold bind, ret, raise, try_except, gets, modify, lift_result, in_world,
    self, update_self, emit, time_time, rpc.
  cbn. repeat (branch; cbn); simplify_eq; eauto using Nat.le_0_l.
  all: do 2 eexists; split; [reflexivity|]; rewrite length_firstn; lia.
Qed.

Lemma modeling_store_returns key content metadata s w :
  exists stored w',
    SemanticDataModeling.on_persistent_memory
      (PersistentMemoryManager.store_memory key content metadata) (s, w)
    = (Ok stored, (s, w')).
Proof.
  unfold SemanticDataModeling.on_persistent_memory, ClaudeAutomation.on.
  destruct (store_memory_returns key content metadata
              (SemanticDataModeling.persistent_memory s) w)
    as (stored & w' & ->).
  exists stored, w'. destruct s; reflexivity.
Qed.

Lemma model_get_eq model_id s w :
  SemanticDataModeling.model_get model_id (s, w)
  = match fault w (rpcs w) with
    | Some code =>
        (Raise (BackendError Firestore code), (s, set_rpcs (S (rpcs w)) w))
    | None =>
        (Ok (SemanticDataModeling.models s !! model_id),
         (s, set_rpcs (S (rpcs w)) w))
    end.
Proof.
  unfold SemanticDataModeling.model_get, bind, in_world, rpc, self.
  destruct (fault w (rpcs w)); reflexivity.
Qed.

Lemma model_update_eq model_id fields s w :
  SemanticDataModeling.model_update model_id fields (s, w)
  = match fault w (rpcs w) with
    | Some code =>
        (Raise (BackendError Firestore code), (s, set_rpcs (S (rpcs w)) w))
    | None =>
        match SemanticDataModeling.models s !! model_id with
        | Some doc =>
            (Ok tt,
             (SemanticDataModeling.set_models
                (<[model_id := dict_update doc fields]>
                   (SemanticDataModeling.models s)) s,
              set_rpcs (S (rpcs w)) w))
        | None =>
            (Raise (BackendError Firestore 5), (s, set_rpcs (S (rpcs w)) w))
        end
    end.
Proof.
  unfold SemanticDataModeling.model_update, bind, in_world, rpc, self,
    update_self, raise.
  destruct (fault w (rpcs w)); [reflexivity|].
  destruct (SemanticDataModeling.models s !! model_id); reflexivity.
Qed.

Lemma history_set_eq doc_id data s w :
  SemanticDataModeling.history_set doc_id data (s, w)
  = match fault w (rpcs w) with
    | Some code =>
        (Raise (BackendError Firestore code), (s, set_rpcs (S (rpcs w)) w))
    | None =>
        (Ok tt,
         (SemanticDataModeling.set_history
            (<[doc_id := data]> (SemanticDataModeling.history s)) s,
          set_rpcs (S (rpcs w)) w))
    end.
Proof.
  unfold SemanticDataModeling.history_set, bind, in_world, rpc, update_self.
  destruct (fault w (rpcs w)); reflexivity.
Qed.

Lemma add_one_version {S} (model : pydict) (st : S) :
  @add_one S (default (PyInt 1) (dict_get "version" model)) st
  = match version_of model with
    | Some v => (Ok (plus_one v), st)
    | None => (Raise (TypeError "unsupported operand type(s) for +"), st)
    end.
Proof.
  unfold add_one, version_of.
  destruct (default (PyInt 1) (dict_get "version" model)); reflexivity.
Qed.

Lemma dict_get_updated (field : string) (doc fields : pydict) :
  dict_get field (dict_update doc fields)
  = match dict_get field (rev fields) with
    | Some v => Some v
    | None => dict_get field doc
    end.
Proof.
  unfold dict_update. revert doc.
  induction fields as [|[k v] fields IH] using rev_ind; intros doc.
  - reflexivity.
  - rewrite fold_left_app, rev_app_distr. cbn.
    rewrite dict_get_set. destruct (String.eqb field k); [reflexivity|].
    apply IH.
Qed.

(** X17.  [update_data_model] never raises, and a successful update bumps the
    version by exactly one.  When it returns [True], the stored model holds
    the new definition and the version of the model it replaced plus one
    (an integer sum, or a binary64 sum when the version is a float),
    every field other than "definition", "updated_at", "version" and
    "metadata" is as before, and one update is counted; with the version
    history on, the history collection then holds the replaced definition
    and version under the identifier of the model followed by "_v" and the
    old version, and without it the history is untouched.  When it returns
    [False] (modelling off, no such model, a version that is not a number,
    or a failed call) the collection of models and the counters are as
    before. *)
Theorem update_data_model_bumps_the_version
        (float_repr : float -> pystr)
        (s : SemanticDataModeling.state) (w : World) (model_id : pystr)
        (model_definition : pydict) (metadata : option pydict) :
  exists (updated : bool) s' w',
    SemanticDataModeling.update_data_model
      float_repr model_id model_definition metadata (s, w)
    = (Ok updated, (s', w'))
    /\ if updated then
         exists current v new_model,
           SemanticDataModeling.models s !! model_id = Some current
           /\ version_of current = Some v
           /\ SemanticDataModeling.models s'
              = <[model_id := new_model]> (SemanticDataModeling.models s)
           /\ version_of new_model = Some (plus_one v)
           /\ dict_get "definition" new_model = Some (PyDict model_definition)
           /\ (forall field,
                  updated_field field = false ->
                  dict_get field new_model = dict_get field current)
           /\ SemanticDataModeling.models_updated
                (SemanticDataModeling.model_metrics s')
              = SemanticDataModeling.models_updated
                  (SemanticDataModeling.model_metrics s) + 1
           /\ if SemanticDataModeling.model_version_history s then
                exists old,
                  SemanticDataModeling.history s'
                    !! (model_id ++ py "_v"
                        ++ version_text float_repr
                             (default (PyInt 1) (dict_get "version" current)))
                  = Some old
                  /\ dict_get "definition" old
                     = Some (default (PyDict [])
                                     (dict_get "definition" current))
                  /\ version_of old = Some v
              else
                SemanticDataModeling.history s'
                = SemanticDataModeling.history s
       else
         SemanticDataModeling.models s' = SemanticDataModeling.models s
         /\ SemanticDataModeling.model_metrics s'
            = SemanticDataModeling.model_metrics s.
Proof.
  unfold SemanticDataModeling.update_data_model.
  unfold bind at 1, self at 1.
  destruct (negb (SemanticDataModeling.modeling_enabled s)
            || negb (SemanticDataModeling.firestore_client s)).
  { exists false, s, w. repeat split. }
  unfold try_except, bind at 1. rewrite model_get_eq.
  destruct (fault w (rpcs w)) as [code|].
  { exists false. do 2 eexists. split; [reflexivity|]. split; reflexivity. }
  destruct (SemanticDataModeling.models s !! model_id) as [current|] eqn:Hdoc.
  2: { exists false. do 2 eexists. split; [reflexivity|]. split; reflexivity. }
  unfold bind at 1. rewrite add_one_version.
  destruct (version_of current) as [v|] eqn:Hv.
  2: { exists false. do 2 eexists. split; [reflexivity|]. split; reflexivity. }
  unfold bind at 1, self at 1.
  set (history_key :=
         model_id ++ py "_v"
         ++ version_text float_repr
              (default (PyInt 1) (dict_get "version" current))).
  set (w0 := set_rpcs (S (rpcs w)) w).
  assert (Hhistory :
    exists r1 s1 w1,
      (if SemanticDataModeling.model_version_history s
       then
         SemanticDataModeling.history_set history_key
           [ ("model_id", PyStr model_id);
             ("version", default (PyInt 1) (dict_get "version" current));
             ("definition",
              default (PyDict []) (dict_get "definition" current));
             ("metadata", default (PyDict []) (dict_get "metadata" current));
             ("timestamp", default PyNone (dict_get "updated_at" current))
           ]%string
       else ret tt) (s, w0) = (r1, (s1, w1))
      /\ SemanticDataModeling.models s1 = SemanticDataModeling.models s
      /\ SemanticDataModeling.model_metrics s1
         = SemanticDataModeling.model_metrics s
      /\ (r1 = Ok tt ->
          if SemanticDataModeling.model_version_history s then
            exists old,
              SemanticDataModeling.history s1 !! history_key = Some old
              /\ dict_get "definition" old
                 = Some (default (PyDict []) (dict_get "definition" current))
              /\ version_of old = Some v
          else
            SemanticDataModeling.history s1 = SemanticDataModeling.history s)).
  { destruct (SemanticDataModeling.model_version_history s).
    - rewrite history_set_eq. destruct (fault w0 (rpcs w0)).
      + do 3 eexists. split; [reflexivity|]. repeat split. discriminate.
      + do 3 eexists. split; [reflexivity|]. split; [reflexivity|].
        split; [reflexivity|]. intros _. eexists. cbn.
        rewrite lookup_insert_eq. split; [reflexivity|].
        split; [reflexivity|].
        revert Hv. unfold version_of. cbn.
        destruct (default (PyInt 1) (dict_get "version" current));
          intros [= <-]; reflexivity.
    - do 3 eexists. split; [reflexivity|]. repeat split. }
  unfold bind at 1.
  destruct Hhistory as (r1 & s1 & w1 & -> & Hmodels & Hmetrics & Hold).
  destruct r1 as [[]|e].
  2: { exists false. do 2 eexists. split; [reflexivity|]. split; assumption. }
  specialize (Hold eq_refl).
  unfold bind at 1. rewrite model_update_eq, Hmodels, Hdoc.
  destruct (fault w1 (rpcs w1)) as [code|].
  { exists false. do 2 eexists. split; [reflexivity|]. split; assumption. }
  unfold bind at 1.
  match goal with
  | |- context [SemanticDataModeling.on_persistent_memory ?m ?st] =>
      match m with
      | PersistentMemoryManager.store_memory ?k ?c ?md =>
          match st with
          | (?s2, ?w2) =>
              destruct (modeling_store_returns k c md s2 w2)
                as (stored & w3 & ->)
          end
      end
  end.
  exists true. do 2 eexists. split; [reflexivity|].
  exists current, v. eexists.
  split; [reflexivity|]. split; [exact Hv|].
  cbn [SemanticDataModeling.models SemanticDataModeling.set_models
       SemanticDataModeling.set_model_metrics
       SemanticDataModeling.model_metrics SemanticDataModeling.history
       SemanticDataModeling.models_updated
       SemanticDataModeling.add_models_updated].
  split; [reflexivity|].
  split.
  { unfold version_of. rewrite dict_get_updated. destruct v; reflexivity. }
  split.
  { rewrite dict_get_updated. reflexivity. }
  split.
  { intros field Hfield. rewrite dict_get_updated. cbn.
    unfold updated_field in Hfield.
    apply orb_false_elim in Hfield as [Hfield Hmeta].
    apply orb_false_elim in Hfield as [Hfield Hversion].
    apply orb_false_elim in Hfield as [Hdef Hupd].
    rewrite Hmeta, Hversion, Hupd, Hdef. reflexivity. }
  split; [rewrite Hmetrics; reflexivity|].
  exact Hold.
Qed.

(** X18.  [enrich_model_with_semantic_data] never raises and never writes to
    the history.  When it returns [True], the list "semantic_enrichment" of
    the definition of the stored model has gained exactly one entry, at its
    end: the data that was passed, stamped with the time in ISO format; the
    entries that
    were there, the other fields of the definition and every field of the
    model other than "definition" and "updated_at" (so also its version)
    are as before, and one semantic operation is counted.  When it returns
    [False] the collection of models and the counters are as before. *)
Theorem enrichment_appends_one_entry
        (isoformat : float -> pystr)
        (s : SemanticDataModeling.state) (w : World) (model_id : pystr)
        (semantic_data : pydict) :
  exists (enriched : bool) s' w',
    SemanticDataModeling.enrich_model_with_semantic_data
      isoformat model_id semantic_data (s, w)
    = (Ok enriched, (s', w'))
    /\ SemanticDataModeling.history s' = SemanticDataModeling.history s
    /\ if enriched then
         exists current definition items new_model new_definition,
           SemanticDataModeling.models s !! model_id = Some current
           /\ default (PyDict []) (dict_get "definition" current)
              = PyDict definition
           /\ default (PyList []) (dict_get "semantic_enrichment" definition)
              = PyList items
           /\ SemanticDataModeling.models s'
              = <[model_id := new_model]> (SemanticDataModeling.models s)
           /\ dict_get "definition" new_model = Some (PyDict new_definition)
           /\ dict_get "semantic_enrichment" new_definition
              = Some (PyList
                        (items
                         ++ [PyDict
                               (dict_set "timestamp"
                                  (PyStr
                                     (isoformat (clock w (clock_reads w))))
                                  semantic_data)]))
           /\ (forall field,
                  field <> "semantic_enrichment"%string ->
                  dict_get field new_definition = dict_get field definition)
           /\ (forall field,
                  field <> "definition"%string ->
                  field <> "updated_at"%string ->
                  dict_get field new_model = dict_get field current)
           /\ SemanticDataModeling.semantic_operations
                (SemanticDataModeling.model_metrics s')
              = SemanticDataModeling.semantic_operations
                  (SemanticDataModeling.model_metrics s) + 1
       else
         SemanticDataModeling.models s' = SemanticDataModeling.models s
         /\ SemanticDataModeling.model_metrics s'
            = SemanticDataModeling.model_metrics s.
Proof.
  unfold SemanticDataModeling.enrich_model_with_semantic_data.
  unfold bind at 1, self at 1.
  destruct (negb (SemanticDataModeling.modeling_enabled s)
            || negb (SemanticDataModeling.firestore_client s)).
  { exists false, s, w. repeat split. }
  unfold try_except, bind at 1. rewrite model_get_eq.
  destruct (fault w (rpcs w)) as [code|].
  { exists false. do 2 eexists. split; [reflexivity|]. repeat split. }
  destruct (SemanticDataModeling.models s !! model_id) as [current|] eqn:Hdoc.
  2: { exists false. do 2 eexists. split; [reflexivity|]. repeat split. }
  unfold bind at 1, SemanticDataModeling.enrichment_list.
  destruct (default (PyDict []) (dict_get "definition" current))
    as [| | | | | |definition] eqn:Hdef.
  1-6: exists false; do 2 eexists; split; [reflexivity|]; repeat split.
  assert (Hother : forall field,
            field <> "semantic_enrichment"%string ->
            String.eqb field "semantic_enrichment" = false).
  { intros field Hfield. apply String.eqb_neq, Hfield. }
  destruct (dict_get "semantic_enrichment" definition) as [found|] eqn:Hlist;
    unfold ret at 1; cbn [fst snd];
    unfold bind at 1, in_world, time_time; cbn [fst snd];
    unfold bind at 1, SemanticDataModeling.append_enrichment.
  1: destruct found as [| | | | |items|].
  1-5, 7: exists false; do 2 eexists; split; [reflexivity|]; repeat split.
  all: unfold ret at 1; unfold bind at 1; rewrite model_update_eq;
    cbn [rpcs fault set_clock_reads set_rpcs];
    destruct (fault w (S (rpcs w))) as [code|];
    [ exists false; do 2 eexists; split; [reflexivity|]; repeat split |].
  all: rewrite Hdoc.
  all: exists true; do 2 eexists; split; [reflexivity|]; split; [reflexivity|].
  all: exists current, definition.
  1: exists items.
  2: exists [].
  all: do 2 eexists.
  all: split; [reflexivity|]; split; [exact Hdef|].
  all: split; [rewrite Hlist; reflexivity|].
  all: split; [reflexivity|].
  all: split; [rewrite dict_get_updated; reflexivity|].
  all: split; [rewrite dict_get_set; reflexivity|].
  all: split;
    [ intros field Hfield; rewrite !dict_get_set, (Hother field Hfield);
      reflexivity |].
  all: split; [|reflexivity].
  all: intros field Hdefinition Hupdated; rewrite dict_get_updated; cbn.
  all: apply String.eqb_neq in Hdefinition, Hupdated.
  all: rewrite Hdefinition, Hupdated; reflexivity.
Qed.

(** X19.  [find_similar_models] never raises; what it returns are matches
    whose metadata says "data_model", at most [top_k] of them; it counts
    one query and one semantic operation and writes to no collection. *)
Theorem find_similar_models_returns_data_models
        (s : SemanticDataModeling.state) (w : World) (query : pystr)
        (top_k : nat) :
  exists results s' w',
    SemanticDataModeling.find_similar_models query top_k (s, w)
    = (Ok results, (s', w'))
    /\ Forall (fun result =>
                 SemanticDataModeling.is_data_model result = true) results
    /\ (length results <= top_k)%nat
    /\ SemanticDataModeling.model_metrics s'
       = SemanticDataModeling.add_semantic_operations
           (SemanticDataModeling.add_model_queries
              (SemanticDataModeling.model_metrics s))
    /\ SemanticDataModeling.models s' = SemanticDataModeling.models s
    /\ SemanticDataModeling.history s' = SemanticDataModeling.history s.
Proof.
  unfold SemanticDataModeling.find_similar_models,
    SemanticDataModeling.count, SemanticDataModeling.on_persistent_memory,
    ClaudeAutomation.on.
  unfold bind, update_self, ret.
  cbn [SemanticDataModeling.persistent_memory
       SemanticDataModeling.set_model_metrics
       SemanticDataModeling.model_metrics].
  destruct (search_semantic_returns query top_k
              (SemanticDataModeling.persistent_memory s) w)
    as (matches & w' & -> & Hlen).
  do 3 eexists. split; [reflexivity|].
  split.
  { apply List.Forall_forall. intros result Hin.
    apply filter_In in Hin as [_ Hin]. exact Hin. }
  split.
  { etransitivity; [apply List.filter_length_le|exact Hlen]. }
  repeat split.
Qed.
